(** * The e-commerce dashboard: data preparation and metric derivations

    A shallow embedding of [dashboard/dashboard_ecommerce.py].  The script is
    a straight-line sequence of pandas calls over one data frame, so the
    development has three layers:

    - [Pandas]: the table primitives the script calls ([astype('Int64')],
      [unique], [isin], [nunique], [sum], [mean], [value_counts], [head],
      [groupby], [merge], [cut], datetime subtraction, the [.dt]
      accessors), modelled on lists of nullable cells; what the script
      leaves to the installed pandas (the order of equal counts in
      [value_counts], the default of [observed] in [groupby]) is a
      parameter, [Installation];
    - [Plotly]: the one check of the chart calls that a table of the script
      can fail, the marker sizes of [px.scatter];
    - [Dashboard]: the script itself, statement by statement, with the
      in-place column assignments on [df_filtered] threaded as state.

    Conventions.  A timestamp ([datetime64[ns]]) is the number of nanoseconds
    since the epoch as a [Z]; a duration ([timedelta64[ns]]) is a number of
    nanoseconds as a [Z]; both are 64-bit in pandas, and arithmetic on them
    raises [OverflowError] outside that range.  [NaT], [NaN] and [<NA>] are
    [None].  The float columns ([price], the coordinates, the means) are
    carried as exact rationals: rounding of the binary floats is not
    modelled, so sums and means are only ever compared with themselves. *)

From Stdlib Require Import List ZArith QArith Bool String Ascii Lia.
From Stdlib Require Import Permutation Sorted PeanoNat.
Import ListNotations.

Local Open Scope string_scope.
Local Open Scope Z_scope.

Set Implicit Arguments.

(** ** Exceptions *)

Inductive PyError : Type :=
| ValueError
| TypeError
| KeyError
| OverflowError.

Inductive result (A : Type) : Type :=
| Ok (a : A)
| Raise (e : PyError).

Arguments Ok {A} a.
Arguments Raise {A} e.

Definition bind_result {A B : Type} (m : result A) (k : A -> result B) : result B :=
  match m with
  | Ok a => k a
  | Raise e => Raise e
  end.

Definition raises {A : Type} (m : result A) : Prop :=
  exists e, m = Raise e.

(** ** The pandas primitives used by the script *)

Module Pandas.

(** *** Nullable cells *)

Fixpoint dropna {A : Type} (l : list (option A)) : list A :=
  match l with
  | [] => []
  | None :: t => dropna t
  | Some a :: t => a :: dropna t
  end.

Definition notnull {A : Type} (c : option A) : bool :=
  match c with
  | Some _ => true
  | None => false
  end.

Definition eqb_option {A : Type} (eqb : A -> A -> bool) (a b : option A) : bool :=
  match a, b with
  | Some x, Some y => eqb x y
  | None, None => true
  | _, _ => false
  end.

(** *** Time: [Series.dt.days], [Series.dt.date], [Series.dt.hour] *)

Definition NS_PER_HOUR : Z := 3600000000000.
Definition NS_PER_DAY : Z := 24 * NS_PER_HOUR.

(** [Timedelta.days]: a duration is normalised as [days] plus a non-negative
    remainder below one day, so the day count rounds down. *)
Definition days (td : Z) : Z := td / NS_PER_DAY.

(** [Timestamp.date()], as the day number since the epoch. *)
Definition date (ts : Z) : Z := ts / NS_PER_DAY.

(** [Timestamp.hour]. *)
Definition hour (ts : Z) : Z := (ts mod NS_PER_DAY) / NS_PER_HOUR.

Fixpoint traverse {A B : Type} (f : A -> result B) (l : list A) : result (list B) :=
  match l with
  | [] => Ok []
  | a :: t =>
      bind_result (f a) (fun b =>
      bind_result (traverse f t) (fun bs => Ok (b :: bs)))
  end.

(** The 64-bit range of timestamps and durations; its least value is the
    bit pattern of [NaT]. *)
Definition INT64_MIN : Z := -9223372036854775808.
Definition INT64_MAX : Z := 9223372036854775807.

Definition in_int64 (z : Z) : bool := (INT64_MIN <=? z) && (z <=? INT64_MAX).

(** Overflow-checked addition of two 64-bit values. *)
Definition checked_add (x y : Z) : result Z :=
  if in_int64 (x + y) then Ok (x + y) else Raise OverflowError.

(** A 64-bit value read as a nullable cell. *)
Definition of_i8 (v : Z) : option Z :=
  if v =? INT64_MIN then None else Some v.

(** Subtraction of two datetime cells: [NaT] on either side gives [NaT];
    otherwise the right value is negated and added with the overflow
    check. *)
Definition sub_dt (a b : option Z) : result (option Z) :=
  match a, b with
  | Some x, Some y => bind_result (checked_add x (- y)) (fun d => Ok (of_i8 d))
  | _, _ => Ok None
  end.

(** Negation of a duration cell. *)
Definition neg_td (d : option Z) : option Z := option_map Z.opp d.

Definition dt_days (s : list (option Z)) : list (option Z) :=
  map (option_map days) s.

Definition dt_hour (s : list (option Z)) : list (option Z) :=
  map (option_map hour) s.

(** Element-wise difference of two aligned datetime columns; one cell out
    of range makes the whole subtraction raise. *)
Definition sub_series (a b : list (option Z)) : result (list (option Z)) :=
  traverse (fun p => sub_dt (fst p) (snd p)) (combine a b).

(** [timestamp - column]: computed as the negation of [column - timestamp]. *)
Definition rsub_series (t : Z) (s : list (option Z)) : result (list (option Z)) :=
  bind_result (traverse (fun c => sub_dt c (Some t)) s)
              (fun d => Ok (map neg_td d)).

(** [pd.to_datetime(s, errors='coerce')] on a column that already holds
    timestamps returns its values unchanged. *)
Definition to_datetime (s : list (option Z)) : list (option Z) := s.

(** *** Reductions *)

Definition sumZ (l : list Z) : Z := fold_right Z.add 0 l.

Definition sumQ (l : list Q) : Q := fold_right Qplus (0#1)%Q l.

(** [Series.sum()], skipping nulls; the empty sum is zero. *)
Definition sum (s : list (option Q)) : Q := sumQ (dropna s).

(** [Series.mean()], skipping nulls; null when nothing is left to average. *)
Definition mean (s : list (option Z)) : option Q :=
  match dropna s with
  | [] => None
  | x :: xs => Some (sumZ (x :: xs) # Pos.of_nat (List.length (x :: xs)))%Q
  end.

(** [Series.max()], skipping nulls. *)
Definition max (s : list (option Z)) : option Z :=
  match dropna s with
  | [] => None
  | x :: xs => Some (fold_right Z.max x xs)
  end.

Section Keyed.

Variable K : Type.
Variable eqb : K -> K -> bool.

(** [Series.unique()] on non-null values: distinct values in order of first
    appearance. *)
Fixpoint unique (l : list K) : list K :=
  match l with
  | [] => []
  | x :: t => x :: filter (fun y => negb (eqb x y)) (unique t)
  end.

Definition mem (k : K) (l : list K) : bool := existsb (eqb k) l.

Definition count (k : K) (l : list K) : nat :=
  List.length (filter (eqb k) l).

(** [Series.nunique()]: number of distinct non-null values. *)
Definition nunique (s : list (option K)) : nat :=
  List.length (unique (dropna s)).

(** Position of the first cell holding [k]. *)
Fixpoint first_index (k : K) (s : list (option K)) : nat :=
  match s with
  | [] => O
  | Some x :: t => if eqb x k then O else S (first_index k t)
  | None :: t => S (first_index k t)
  end.

(** Two orderings of a tally by count, largest first.  In the first an
    entry is placed before the first entry whose count does not exceed its
    own, so entries with equal counts keep the order in which they were
    tallied; in the second it is placed behind the entries with the same
    count, so equal counts come out in the opposite order. *)
Fixpoint insert_desc (x : K * nat) (l : list (K * nat)) : list (K * nat) :=
  match l with
  | [] => [x]
  | h :: t =>
      if (snd x <? snd h)%nat then h :: insert_desc x t else x :: h :: t
  end.

Definition sort_desc (l : list (K * nat)) : list (K * nat) :=
  fold_right insert_desc [] l.

Fixpoint insert_desc_behind (x : K * nat) (l : list (K * nat)) : list (K * nat) :=
  match l with
  | [] => [x]
  | h :: t =>
      if (snd x <=? snd h)%nat then h :: insert_desc_behind x t else x :: h :: t
  end.

Definition sort_desc_behind (l : list (K * nat)) : list (K * nat) :=
  fold_right insert_desc_behind [] l.

(** The tally of [Series.value_counts()]: nulls are dropped and each
    distinct value is counted, in order of first appearance. *)
Definition tally (s : list (option K)) : list (K * nat) :=
  map (fun k => (k, count k (dropna s))) (unique (dropna s)).

(** *** Grouping *)

Variable leb : K -> K -> bool.

Fixpoint insert_key (x : K) (l : list K) : list K :=
  match l with
  | [] => [x]
  | h :: t => if leb x h then x :: h :: t else h :: insert_key x t
  end.

Definition sort_keys (l : list K) : list K := fold_right insert_key [] l.

(** [df.groupby(key)]: one group per distinct non-null key, keys ascending,
    each group holding its rows in their original order. *)
Definition groupby {R : Type} (key : R -> option K) (rows : list R)
  : list (K * list R) :=
  map (fun k => (k, filter (fun r => eqb_option eqb (key r) (Some k)) rows))
      (sort_keys (unique (dropna (map key rows)))).

(** [left.merge(right, on=key)]: inner join, in the order of the left keys. *)
Definition merge {A B : Type} (l : list (K * A)) (r : list (K * B))
  : list (K * (A * B)) :=
  flat_map (fun ka =>
              map (fun kb => (fst ka, (snd ka, snd kb)))
                  (filter (fun kb => eqb (fst ka) (fst kb)) r)) l.

End Keyed.

(** What the script takes from the installed pandas without fixing it:
    the default of [observed] in [groupby] ([False] before pandas 3.0,
    [True] from 3.0 on) and the sort behind [value_counts], of which only
    this is settled: it reorders the tally, with counts never increasing. *)
Class Installation : Type := {
  observed_default : bool;
  sort_values : forall K : Type, list (K * nat) -> list (K * nat);
  sort_values_perm :
    forall (K : Type) (l : list (K * nat)), Permutation (sort_values l) l;
  sort_values_desc :
    forall (K : Type) (l : list (K * nat)),
      StronglySorted (fun a b => (snd b <= snd a)%nat) (sort_values l)
}.

Arguments sort_values {Installation} {K} l.

(** [Series.value_counts()]: the tally, ordered by count, largest first. *)
Definition value_counts `{Installation} {K : Type} (eqb : K -> K -> bool)
  (s : list (option K)) : list (K * nat) :=
  sort_values (tally eqb s).

(** [Series.isin(values)]; a null cell matches a null among the values. *)
Definition isin (eqb : string -> string -> bool)
  (c : option string) (values : list (option string)) : bool :=
  existsb (eqb_option eqb c) values.

(** [Series.unique()] on a nullable column: the null, when present, is one
    of the distinct values. *)
Definition unique_cells (s : list (option string)) : list (option string) :=
  unique (eqb_option String.eqb) s.

(** [head(n)]. *)
Definition head {A : Type} (n : nat) (l : list A) : list A := firstn n l.

(** *** [pd.cut] with explicit bin edges *)

Inductive edge : Type :=
| NegInf
| Fin (z : Z)
| PosInf.

Definition edge_ltb (a b : edge) : bool :=
  match a, b with
  | NegInf, NegInf => false
  | NegInf, _ => true
  | Fin _, NegInf => false
  | Fin x, Fin y => x <? y
  | Fin _, PosInf => true
  | PosInf, _ => false
  end.

Definition edge_leb (a b : edge) : bool := negb (edge_ltb b a).

Fixpoint increasing (bins : list edge) : bool :=
  match bins with
  | a :: ((b :: _) as t) => edge_ltb a b && increasing t
  | _ => true
  end.

Fixpoint distinct (l : list string) : bool :=
  match l with
  | [] => true
  | x :: t => negb (existsb (String.eqb x) t) && distinct t
  end.

(** Index [i] of the interval [(bins[i], bins[i+1]]] holding [x]
    ([right=True], the default). *)
Fixpoint find_bin (bins : list edge) (x : Z) : option nat :=
  match bins with
  | lo :: ((hi :: _) as t) =>
      if edge_ltb lo (Fin x) && edge_leb (Fin x) hi then Some O
      else option_map S (find_bin t x)
  | _ => None
  end.

(** A categorical column: its cells and its declared categories. *)
Record Categorical : Type := {
  cat_values : list (option string);
  categories : list string
}.

Definition cut_cell (bins : list edge) (labels : list string) (x : option Z)
  : option string :=
  match x with
  | None => None
  | Some v =>
      match find_bin bins v with
      | Some i => nth_error labels i
      | None => None
      end
  end.

(** [pd.cut(x, bins=[...], labels=[...])].  Raises when the edges do not
    increase, when the number of labels is not the number of intervals, and
    when a label is repeated; a null cell and a cell outside every interval
    get a null category. *)
Definition cut (x : list (option Z)) (bins : list edge) (labels : list string)
  : result Categorical :=
  if negb (increasing bins) then Raise ValueError
  else if negb (Nat.eqb (List.length labels) (Nat.pred (List.length bins))) then Raise ValueError
  else if negb (distinct labels) then Raise ValueError
  else Ok {| cat_values := map (cut_cell bins labels) x; categories := labels |}.

(** [groupby] on a categorical key: groups come in category order; with
    [observed=False] every declared category has a group, with
    [observed=True] only the categories that occur. *)
Definition groupby_categorical {R : Type} (observed : bool)
  (c : Categorical) (rows : list R) : list (string * list R) :=
  map (fun k =>
         (k, map snd (filter (fun p => eqb_option String.eqb (fst p) (Some k))
                             (combine (cat_values c) rows))))
      (filter (fun k => negb observed || mem (eqb_option String.eqb) (Some k) (cat_values c))
              (categories c)).

(** *** [astype('Int64')] *)

(** A column as [read_csv] hands it over: all integers ([int64]), numbers
    with gaps or fractions ([float64]), or text with gaps ([object]). *)
Inductive RawColumn : Type :=
| Int64Col (v : list Z)
| Float64Col (v : list (option Q))
| ObjectCol (v : list (option string)).

Definition is_digit (c : ascii) : bool :=
  let n := nat_of_ascii c in (48 <=? n)%nat && (n <=? 57)%nat.

Definition is_space (c : ascii) : bool :=
  let n := nat_of_ascii c in ((9 <=? n)%nat && (n <=? 13)%nat) || Nat.eqb n 32.

Definition digit_value (c : ascii) : Z := Z.of_nat (nat_of_ascii c) - 48.

Fixpoint lstrip (s : string) : string :=
  match s with
  | String c t => if is_space c then lstrip t else s
  | EmptyString => s
  end.

(** Digits with single underscores between them, then optional blanks, up
    to the end of the text.  [prev] tells whether the previous character was
    a digit. *)
Fixpoint parse_digits (prev : bool) (acc : Z) (s : string) : option Z :=
  match s with
  | EmptyString => if prev then Some acc else None
  | String c t =>
      if is_digit c then parse_digits true (10 * acc + digit_value c) t
      else if Ascii.eqb c "_" then
        if prev then
          match t with
          | String d _ => if is_digit d then parse_digits false acc t else None
          | EmptyString => None
          end
        else None
      else if is_space c then
        if prev then (match lstrip t with EmptyString => Some acc | _ => None end)
        else None
      else None
  end.

(** Python's [int(text)] on ASCII text: blanks, an optional sign, decimal
    digits. *)
Definition int_of_string (s : string) : option Z :=
  match lstrip s with
  | String "+" t => parse_digits false 0 t
  | String "-" t => option_map Z.opp (parse_digits false 0 t)
  | t => parse_digits false 0 t
  end.

Definition is_integral (q : Q) : bool :=
  Z.eqb (Qnum q mod Zpos (Qden q)) 0.

(** An [int64] column holds 64-bit integers and casts to itself; the check
    only turns away a list that is no such column. *)
Definition int_to_int (z : Z) : result (option Z) :=
  if in_int64 z then Ok (Some z) else Raise OverflowError.

(** A float must equal a 64-bit integer ("cannot safely cast
    non-equivalent float64 to int64" otherwise). *)
Definition float_to_int (c : option Q) : result (option Z) :=
  match c with
  | None => Ok None
  | Some q =>
      if is_integral q && in_int64 (Qnum q / Zpos (Qden q))
      then Ok (Some (Qnum q / Zpos (Qden q)))
      else Raise TypeError
  end.

(** Text must read as an integer ("invalid literal for int()" otherwise)
    that fits 64 bits ("Python int too large to convert to C long"
    otherwise). *)
Definition object_to_int (c : option string) : result (option Z) :=
  match c with
  | None => Ok None
  | Some s =>
      match int_of_string s with
      | Some z => if in_int64 z then Ok (Some z) else Raise OverflowError
      | None => Raise ValueError
      end
  end.

(** [Series.astype('Int64')].  A gap becomes [<NA>]; every other cell must
    cast.  Nothing is coerced to null. *)
Definition astype_Int64 (c : RawColumn) : result (list (option Z)) :=
  match c with
  | Int64Col v => traverse int_to_int v
  | Float64Col v => traverse float_to_int v
  | ObjectCol v => traverse object_to_int v
  end.

End Pandas.

(** ** The chart check a table can fail *)

Module Plotly.

(** A marker size must be a number and must not be negative. *)
Definition valid_size (c : option Q) : bool :=
  match c with
  | Some q => Qle_bool 0 q
  | None => false
  end.

(** [px.scatter(table, ..., size=column)]: raises when a size is not
    valid.  The other chart calls of the script bind columns to axes,
    colours and labels only. *)
Definition scatter_sizes (sizes : list (option Q)) : result unit :=
  if forallb valid_size sizes then Ok tt else Raise ValueError.

End Plotly.

(** ** The script *)

Module Dashboard.

Import Pandas Plotly.

(** *** The loaded table *)

(** One row of [final_dataset], after [load_data] has typed its columns.
    Only the columns the script reads are kept. *)
Record Row : Type := {
  order_id : option string;
  customer_id : option string;
  customer_state_y : option string;
  price : option Q;
  order_purchase_timestamp : option Z;
  order_delivered_carrier_date : option Z;
  order_delivered_customer_date : option Z;
  order_estimated_delivery_date : option Z;
  review_score : option Z;
  product_category_name : option string;
  order_status_x : option string;
  payment_type : option string;
  seller_city : option string;
  customer_city_x : option string;
  product_category_name_english : option string;
  geolocation_lat : option Q;
  geolocation_lng : option Q;
  customer_city_y : option string
}.

Definition set_order_delivered_customer_date (v : option Z) (r : Row) : Row :=
  {| order_id := order_id r;
     customer_id := customer_id r;
     customer_state_y := customer_state_y r;
     price := price r;
     order_purchase_timestamp := order_purchase_timestamp r;
     order_delivered_carrier_date := order_delivered_carrier_date r;
     order_delivered_customer_date := v;
     order_estimated_delivery_date := order_estimated_delivery_date r;
     review_score := review_score r;
     product_category_name := product_category_name r;
     order_status_x := order_status_x r;
     payment_type := payment_type r;
     seller_city := seller_city r;
     customer_city_x := customer_city_x r;
     product_category_name_english := product_category_name_english r;
     geolocation_lat := geolocation_lat r;
     geolocation_lng := geolocation_lng r;
     customer_city_y := customer_city_y r |}.

Definition set_order_estimated_delivery_date (v : option Z) (r : Row) : Row :=
  {| order_id := order_id r;
     customer_id := customer_id r;
     customer_state_y := customer_state_y r;
     price := price r;
     order_purchase_timestamp := order_purchase_timestamp r;
     order_delivered_carrier_date := order_delivered_carrier_date r;
     order_delivered_customer_date := order_delivered_customer_date r;
     order_estimated_delivery_date := v;
     review_score := review_score r;
     product_category_name := product_category_name r;
     order_status_x := order_status_x r;
     payment_type := payment_type r;
     seller_city := seller_city r;
     customer_city_x := customer_city_x r;
     product_category_name_english := product_category_name_english r;
     geolocation_lat := geolocation_lat r;
     geolocation_lng := geolocation_lng r;
     customer_city_y := customer_city_y r |}.

(** *** [load_data]: the four nullable-integer columns (lines 26-29) *)

Record RawIntColumns : Type := {
  raw_product_photos_qty : RawColumn;
  raw_payment_sequential : RawColumn;
  raw_payment_installments : RawColumn;
  raw_review_score : RawColumn
}.

Record IntColumns : Type := {
  product_photos_qty : list (option Z);
  payment_sequential : list (option Z);
  payment_installments : list (option Z);
  int_review_score : list (option Z)
}.

Definition load_data_int_columns (df : RawIntColumns) : result IntColumns :=
  bind_result (astype_Int64 (raw_product_photos_qty df)) (fun a =>
  bind_result (astype_Int64 (raw_payment_sequential df)) (fun b =>
  bind_result (astype_Int64 (raw_payment_installments df)) (fun c =>
  bind_result (astype_Int64 (raw_review_score df)) (fun d =>
  Ok {| product_photos_qty := a;
        payment_sequential := b;
        payment_installments := c;
        int_review_score := d |})))).

(** *** The sidebar filter (lines 44-51) *)

(** The options and the default selection of the multiselect. *)
Definition state_options (final_dataset : list Row) : list (option string) :=
  unique_cells (map customer_state_y final_dataset).

(** [final_dataset[final_dataset['customer_state_y'].isin(state_filter)]] *)
Definition apply_state_filter (final_dataset : list Row)
  (state_filter : list (option string)) : list Row :=
  filter (fun r => isin String.eqb (customer_state_y r) state_filter) final_dataset.

(** *** [df_filtered] as mutable state *)

(** The filtered frame: the loaded rows plus the columns the script adds to
    it in place.  A column that has not been assigned yet is absent. *)
Record DataFrame : Type := {
  rows : list Row;
  order_purchase_hour : option (list (option Z));
  shipping_time : option (list (option Z));
  delivery_delay : option (list (option Z));
  delivery_category : option Categorical
}.

Definition df_filtered (final_dataset : list Row)
  (state_filter : list (option string)) : DataFrame :=
  {| rows := apply_state_filter final_dataset state_filter;
     order_purchase_hour := None;
     shipping_time := None;
     delivery_delay := None;
     delivery_category := None |}.

(** Statements over the frame: they read it, may assign to it, may raise. *)
Definition M (A : Type) : Type := DataFrame -> result (A * DataFrame).

Definition ret {A : Type} (a : A) : M A := fun df => Ok (a, df).

Definition bind {A B : Type} (m : M A) (k : A -> M B) : M B :=
  fun df =>
    match m df with
    | Ok (a, df') => k a df'
    | Raise e => Raise e
    end.

Notation "x <- m ;; k" := (bind m (fun x => k))
  (at level 61, m at next level, right associativity).
Notation "m ;;; k" := (bind m (fun _ => k))
  (at level 61, right associativity).

(** Reading: [df_filtered[name]] for a loaded column, the whole row set, and
    a column added by the script ([KeyError] while it is absent). *)
Definition column {A : Type} (f : Row -> A) : M (list A) :=
  fun df => Ok (map f (rows df), df).

Definition frame : M (list Row) := fun df => Ok (rows df, df).

Definition added_column {A : Type} (f : DataFrame -> option A) : M A :=
  fun df =>
    match f df with
    | Some c => Ok (c, df)
    | None => Raise KeyError
    end.

(** Writing: [df_filtered[name] = values].  The values must be as many as
    the rows. *)
Definition assign_loaded (set : option Z -> Row -> Row) (v : list (option Z)) : M unit :=
  fun df =>
    if Nat.eqb (List.length v) (List.length (rows df)) then
      Ok (tt, {| rows := map (fun p => set (fst p) (snd p)) (combine v (rows df));
                 order_purchase_hour := order_purchase_hour df;
                 shipping_time := shipping_time df;
                 delivery_delay := delivery_delay df;
                 delivery_category := delivery_category df |})
    else Raise ValueError.

Definition assign_order_purchase_hour (v : list (option Z)) : M unit :=
  fun df =>
    if Nat.eqb (List.length v) (List.length (rows df)) then
      Ok (tt, {| rows := rows df;
                 order_purchase_hour := Some v;
                 shipping_time := shipping_time df;
                 delivery_delay := delivery_delay df;
                 delivery_category := delivery_category df |})
    else Raise ValueError.

Definition assign_shipping_time (v : list (option Z)) : M unit :=
  fun df =>
    if Nat.eqb (List.length v) (List.length (rows df)) then
      Ok (tt, {| rows := rows df;
                 order_purchase_hour := order_purchase_hour df;
                 shipping_time := Some v;
                 delivery_delay := delivery_delay df;
                 delivery_category := delivery_category df |})
    else Raise ValueError.

Definition assign_delivery_delay (v : list (option Z)) : M unit :=
  fun df =>
    if Nat.eqb (List.length v) (List.length (rows df)) then
      Ok (tt, {| rows := rows df;
                 order_purchase_hour := order_purchase_hour df;
                 shipping_time := shipping_time df;
                 delivery_delay := Some v;
                 delivery_category := delivery_category df |})
    else Raise ValueError.

Definition assign_delivery_category (c : Categorical) : M unit :=
  fun df =>
    if Nat.eqb (List.length (cat_values c)) (List.length (rows df)) then
      Ok (tt, {| rows := rows df;
                 order_purchase_hour := order_purchase_hour df;
                 shipping_time := shipping_time df;
                 delivery_delay := delivery_delay df;
                 delivery_category := Some c |})
    else Raise ValueError.

Definition lift {A : Type} (m : result A) : M A :=
  fun df =>
    match m with
    | Ok a => Ok (a, df)
    | Raise e => Raise e
    end.

(** *** Summary statistics (lines 66-67) *)

Definition total_orders : M nat :=
  ids <- column order_id ;;
  ret (nunique String.eqb ids).

Definition total_revenue : M Q :=
  p <- column price ;;
  ret (sum p).

(** *** Daily metrics (lines 83-101) *)

(** [df_filtered['order_purchase_timestamp'].dt.date] *)
Definition purchase_date (r : Row) : option Z :=
  option_map date (order_purchase_timestamp r).

Definition daily_orders : M (list (Z * nat)) :=
  df <- frame ;;
  ret (map (fun g => (fst g, nunique String.eqb (map order_id (snd g))))
           (groupby Z.eqb Z.leb purchase_date df)).

Definition daily_revenue : M (list (Z * (Q * nat))) :=
  df <- frame ;;
  ret (map (fun g => (fst g, (sum (map price (snd g)),
                              nunique String.eqb (map order_id (snd g)))))
           (groupby Z.eqb Z.leb purchase_date df)).

(** *** General overview: frequency tables (lines 153-244) *)

Definition top10_product_categories `{Installation} : M (list (string * nat)) :=
  c <- column product_category_name ;;
  ret (head 10 (value_counts String.eqb c)).

Definition order_status_counts `{Installation} : M (list (string * nat)) :=
  c <- column order_status_x ;;
  ret (value_counts String.eqb c).

Definition payment_type_counts `{Installation} : M (list (string * nat)) :=
  c <- column payment_type ;;
  ret (value_counts String.eqb c).

Definition review_score_counts `{Installation} : M (list (Z * nat)) :=
  c <- column review_score ;;
  ret (value_counts Z.eqb c).

Definition top10_seller_cities `{Installation} : M (list (string * nat)) :=
  c <- column seller_city ;;
  ret (head 10 (value_counts String.eqb c)).

Definition top10_customer_cities `{Installation} : M (list (string * nat)) :=
  c <- column customer_city_x ;;
  ret (head 10 (value_counts String.eqb c)).

Definition top10_product_categories_en `{Installation} : M (list (string * nat)) :=
  c <- column product_category_name_english ;;
  ret (head 10 (value_counts String.eqb c)).

(** *** Purchase time and shipping duration (lines 258, 272) *)

(** [df_filtered['order_purchase_hour'] = ....dt.hour]; the histogram reads
    the new column. *)
Definition purchase_time_distribution : M (list (option Z)) :=
  t <- column order_purchase_timestamp ;;
  assign_order_purchase_hour (dt_hour t) ;;;
  added_column order_purchase_hour.

(** [df_filtered['shipping_time'] =
       (df_filtered['order_delivered_customer_date']
        - df_filtered['order_delivered_carrier_date']).dt.days] *)
Definition shipping_duration_distribution : M (list (option Z)) :=
  c <- column order_delivered_customer_date ;;
  k <- column order_delivered_carrier_date ;;
  d <- lift (sub_series c k) ;;
  assign_shipping_time (dt_days d) ;;;
  added_column shipping_time.

(** *** RFM analysis (lines 291-306); [now] is the evaluation instant *)

Record RecencyRow : Type := {
  last_purchase : option Z;
  Recency : option Z
}.

(** Lines 294-295: the latest purchase of each customer, then the column
    [Recency] assigned from [now - recency['order_purchase_timestamp']]. *)
Definition recency (now : Z) : M (list (string * RecencyRow)) :=
  df <- frame ;;
  let last := map (fun g => (fst g, max (map order_purchase_timestamp (snd g))))
                  (groupby String.eqb String.leb customer_id df) in
  d <- lift (rsub_series now (map snd last)) ;;
  ret (map (fun p => (fst (fst p),
                      {| last_purchase := snd (fst p); Recency := snd p |}))
           (combine last (dt_days d))).

Definition frequency : M (list (string * nat)) :=
  df <- frame ;;
  ret (map (fun g => (fst g, nunique String.eqb (map order_id (snd g))))
           (groupby String.eqb String.leb customer_id df)).

Definition monetary : M (list (string * Q)) :=
  df <- frame ;;
  ret (map (fun g => (fst g, sum (map price (snd g))))
           (groupby String.eqb String.leb customer_id df)).

Definition rfm (now : Z) : M (list (string * (RecencyRow * nat * Q))) :=
  r <- recency now ;;
  f <- frequency ;;
  m <- monetary ;;
  ret (merge String.eqb (merge String.eqb r f) m).

(** Line 309: [px.scatter(rfm, ..., size='Recency', ...)]. *)
Definition fig_rfm (t : list (string * (RecencyRow * nat * Q))) : M unit :=
  lift (scatter_sizes
          (map (fun e => option_map inject_Z (Recency (fst (fst (snd e))))) t)).

(** *** Geospatial analysis (lines 328-336): the frame itself is plotted *)

Definition geo_points : M (list (option Q * option Q * option string)) :=
  df <- frame ;;
  ret (map (fun r => (geolocation_lat r, geolocation_lng r, customer_city_y r)) df).

(** *** Clustering by state (lines 358-362) *)

Definition cluster_data : M (list (string * (Q * nat))) :=
  df <- frame ;;
  ret (map (fun g => (fst g, (sum (map price (snd g)),
                              nunique String.eqb (map order_id (snd g)))))
           (groupby String.eqb String.leb customer_state_y df)).

(** Line 364: [px.scatter(cluster_data, ..., size='Total Revenue ($)', ...)]. *)
Definition fig_cluster (t : list (string * (Q * nat))) : M unit :=
  lift (scatter_sizes (map (fun e => Some (fst (snd e))) t)).

(** *** Advanced analysis (lines 384-418) *)

Definition le_cell (c : option Z) (n : Z) : bool :=
  match c with Some v => v <=? n | None => false end.

Definition gt_cell (c : option Z) (n : Z) : bool :=
  match c with Some v => n <? v | None => false end.

(** The three masks of lines 391-395.  They are computed and never used:
    the labels come from [pd.cut]. *)
Definition conditions (delay : list (option Z)) : list (list bool) :=
  [ map (fun c => le_cell c 0) delay;
    map (fun c => gt_cell c 0 && le_cell c 2) delay;
    map (fun c => gt_cell c 2) delay ].

Definition choices : list string :=
  ["On Time"; "Delayed 1-2 Days"; "Delayed More Than 2 Days"].

Definition bins : list edge := [NegInf; Fin 0; Fin 2; PosInf].

(** Lines 384-401: the two date columns are assigned to themselves, then
    [delivery_delay] and [delivery_category] are added. *)
Definition delivery_delay_analysis : M unit :=
  c <- column order_delivered_customer_date ;;
  assign_loaded set_order_delivered_customer_date (to_datetime c) ;;;
  e <- column order_estimated_delivery_date ;;
  assign_loaded set_order_estimated_delivery_date (to_datetime e) ;;;
  c <- column order_delivered_customer_date ;;
  e <- column order_estimated_delivery_date ;;
  t <- lift (sub_series c e) ;;
  assign_delivery_delay (dt_days t) ;;;
  d <- added_column delivery_delay ;;
  cat <- lift (cut d bins choices) ;;
  assign_delivery_category cat.

(** [df_filtered.groupby('delivery_category')['review_score'].mean()] *)
Definition average_review_scores_by (observed : bool)
  : M (list (string * option Q)) :=
  cat <- added_column delivery_category ;;
  df <- frame ;;
  ret (map (fun g => (fst g, mean (map review_score (snd g))))
           (groupby_categorical observed cat df)).

Definition average_review_scores `{Installation} : M (list (string * option Q)) :=
  average_review_scores_by observed_default.

Definition pair_eqb (a b : string * string) : bool :=
  String.eqb (fst a) (fst b) && String.eqb (snd a) (snd b).

Definition pair_leb (a b : string * string) : bool :=
  if String.eqb (fst a) (fst b) then String.leb (snd a) (snd b)
  else String.leb (fst a) (fst b).

Definition status_payment (r : Row) : option (string * string) :=
  match order_status_x r, payment_type r with
  | Some s, Some p => Some (s, p)
  | _, _ => None
  end.

(** [df_filtered[df_filtered['review_score'].notnull()]]: a new frame. *)
Definition df_filtered_non_null_reviews : M (list Row) :=
  df <- frame ;;
  ret (filter (fun r => notnull (review_score r)) df).

Definition review_summary : M (list (string * string * option Q)) :=
  nn <- df_filtered_non_null_reviews ;;
  ret (map (fun g => (fst g, mean (map review_score (snd g))))
           (groupby pair_eqb pair_leb status_payment nn)).

(** *** The whole page, in source order

    The derivations and the two chart calls that check a table; the page
    stops at the first statement that raises. *)

Record Outputs : Type := {
  out_total_orders : nat;
  out_total_revenue : Q;
  out_daily_orders : list (Z * nat);
  out_daily_revenue : list (Z * (Q * nat));
  out_top10_product_categories : list (string * nat);
  out_order_status_counts : list (string * nat);
  out_payment_type_counts : list (string * nat);
  out_review_score_counts : list (Z * nat);
  out_top10_seller_cities : list (string * nat);
  out_top10_customer_cities : list (string * nat);
  out_top10_product_categories_en : list (string * nat);
  out_purchase_hour : list (option Z);
  out_shipping_time : list (option Z);
  out_rfm : list (string * (RecencyRow * nat * Q));
  out_geo_points : list (option Q * option Q * option string);
  out_cluster_data : list (string * (Q * nat));
  out_average_review_scores : list (string * option Q);
  out_review_summary : list (string * string * option Q)
}.

Definition dashboard_by `{Installation} (observed : bool) (now : Z) : M Outputs :=
  o1 <- total_orders ;;
  o2 <- total_revenue ;;
  o3 <- daily_orders ;;
  o4 <- daily_revenue ;;
  o5 <- top10_product_categories ;;
  o6 <- order_status_counts ;;
  o7 <- payment_type_counts ;;
  o8 <- review_score_counts ;;
  o9 <- top10_seller_cities ;;
  o10 <- top10_customer_cities ;;
  o11 <- top10_product_categories_en ;;
  o12 <- purchase_time_distribution ;;
  o13 <- shipping_duration_distribution ;;
  o14 <- rfm now ;;
  fig_rfm o14 ;;;
  o15 <- geo_points ;;
  o16 <- cluster_data ;;
  fig_cluster o16 ;;;
  delivery_delay_analysis ;;;
  o17 <- average_review_scores_by observed ;;
  o18 <- review_summary ;;
  ret {| out_total_orders := o1;
         out_total_revenue := o2;
         out_daily_orders := o3;
         out_daily_revenue := o4;
         out_top10_product_categories := o5;
         out_order_status_counts := o6;
         out_payment_type_counts := o7;
         out_review_score_counts := o8;
         out_top10_seller_cities := o9;
         out_top10_customer_cities := o10;
         out_top10_product_categories_en := o11;
         out_purchase_hour := o12;
         out_shipping_time := o13;
         out_rfm := o14;
         out_geo_points := o15;
         out_cluster_data := o16;
         out_average_review_scores := o17;
         out_review_summary := o18 |}.

Definition dashboard `{Installation} (now : Z) : M Outputs :=
  dashboard_by observed_default now.

End Dashboard.

Import Pandas Dashboard.

(** ** Vocabulary for the statements *)

(** The cells of a raw column, whatever its dtype. *)
Inductive RawCell : Type :=
| Missing
| Number (q : Q)
| Text (s : string).

Definition cell_of_float (c : option Q) : RawCell :=
  match c with Some q => Number q | None => Missing end.

Definition cell_of_object (c : option string) : RawCell :=
  match c with Some s => Text s | None => Missing end.

Definition cells (c : RawColumn) : list RawCell :=
  match c with
  | Int64Col v => map (fun z => Number (inject_Z z)) v
  | Float64Col v => map cell_of_float v
  | ObjectCol v => map cell_of_object v
  end.

(** The characters an integer literal can be written with: digits, signs,
    the underscore and blanks.  The separators 28-31 and the bytes beyond
    ASCII are counted in, since Python takes the former for blanks and
    reads digits of other scripts; so a text with any other character is
    not a number, whatever else it holds. *)
Definition numeral_char (c : ascii) : bool :=
  let n := nat_of_ascii c in
  ((48 <=? n) && (n <=? 57))%nat        (* 0-9 *)
  || Nat.eqb n 43 || Nat.eqb n 45       (* + - *)
  || Nat.eqb n 95                       (* _ *)
  || Nat.eqb n 32                       (* space *)
  || ((9 <=? n) && (n <=? 13))%nat      (* tab, line feed, ..., carriage return *)
  || ((28 <=? n) && (n <=? 31))%nat     (* file, group, record, unit separator *)
  || (128 <=? n)%nat.                   (* not ASCII *)

(** Text that is not a number: it holds a character no integer literal is
    written with. *)
Definition not_a_number (s : string) : Prop :=
  exists ch, In ch (list_ascii_of_string s) /\ numeral_char ch = false.

(** What a successful cast gives for a cell: null for a gap, the integer a
    number is equal to, some 64-bit integer for text. *)
Definition cast_to (c : RawCell) (out : option Z) : Prop :=
  match c with
  | Missing => out = None
  | Number q =>
      exists z, (q == inject_Z z)%Q /\ INT64_MIN <= z <= INT64_MAX /\ out = Some z
  | Text s => exists z, INT64_MIN <= z <= INT64_MAX /\ out = Some z
  end.

(** Cells that cannot be cast: a number that is no 64-bit integer, text
    that is not a number. *)
Definition uncastable (c : RawCell) : Prop :=
  match c with
  | Missing => False
  | Number q => forall z, (q == inject_Z z)%Q -> ~ (INT64_MIN <= z <= INT64_MAX)
  | Text s => not_a_number s
  end.

Definition is_text (c : RawCell) : Prop :=
  match c with
  | Text _ => True
  | _ => False
  end.

Definition raw_int_columns (df : RawIntColumns) : list RawColumn :=
  [raw_product_photos_qty df; raw_payment_sequential df;
   raw_payment_installments df; raw_review_score df].

Definition int_columns (df : IntColumns) : list (list (option Z)) :=
  [product_photos_qty df; payment_sequential df;
   payment_installments df; int_review_score df].

(** A frame in which no column has been added yet. *)
Definition fresh (l : list Row) : DataFrame :=
  {| rows := l;
     order_purchase_hour := None;
     shipping_time := None;
     delivery_delay := None;
     delivery_category := None |}.

(** A row with nothing but nulls, to build examples from. *)
Definition blank : Row :=
  {| order_id := None;
     customer_id := None;
     customer_state_y := None;
     price := None;
     order_purchase_timestamp := None;
     order_delivered_carrier_date := None;
     order_delivered_customer_date := None;
     order_estimated_delivery_date := None;
     review_score := None;
     product_category_name := None;
     order_status_x := None;
     payment_type := None;
     seller_city := None;
     customer_city_x := None;
     product_category_name_english := None;
     geolocation_lat := None;
     geolocation_lng := None;
     customer_city_y := None |}.

(** What the page shows for a frame without rows. *)
Definition empty_outputs (observed : bool) : Outputs :=
  {| out_total_orders := 0;
     out_total_revenue := (0 # 1)%Q;
     out_daily_orders := [];
     out_daily_revenue := [];
     out_top10_product_categories := [];
     out_order_status_counts := [];
     out_payment_type_counts := [];
     out_review_score_counts := [];
     out_top10_seller_cities := [];
     out_top10_customer_cities := [];
     out_top10_product_categories_en := [];
     out_purchase_hour := [];
     out_shipping_time := [];
     out_rfm := [];
     out_geo_points := [];
     out_cluster_data := [];
     out_average_review_scores :=
       if observed then [] else map (fun c => (c, None)) choices;
     out_review_summary := [] |}.

(** The result tables of a run; the two summary metrics are scalars. *)
Definition all_tables_empty (o : Outputs) : Prop :=
  out_daily_orders o = [] /\
  out_daily_revenue o = [] /\
  out_top10_product_categories o = [] /\
  out_order_status_counts o = [] /\
  out_payment_type_counts o = [] /\
  out_review_score_counts o = [] /\
  out_top10_seller_cities o = [] /\
  out_top10_customer_cities o = [] /\
  out_top10_product_categories_en o = [] /\
  out_purchase_hour o = [] /\
  out_shipping_time o = [] /\
  out_rfm o = [] /\
  out_geo_points o = [] /\
  out_cluster_data o = [] /\
  out_average_review_scores o = [] /\
  out_review_summary o = [].

Definition total_count {K : Type} (t : list (K * nat)) : nat :=
  fold_right Nat.add O (map snd t).

(** The cell [(a - b).dt.days] when the subtraction returns: null when a
    date is null, and also when the difference is the bit pattern of
    [NaT]; otherwise the whole days of the difference. *)
Definition days_between (a b c : option Z) : Prop :=
  match a, b with
  | Some x, Some y =>
      INT64_MIN <= x - y <= INT64_MAX /\
      (x - y = INT64_MIN -> c = None) /\
      (x - y <> INT64_MIN -> c = Some (days (x - y)))
  | _, _ => c = None
  end.

(** The difference of two dates does not fit 64 bits. *)
Definition overflows (a b : option Z) : Prop :=
  exists x y, a = Some x /\ b = Some y /\ ~ (INT64_MIN <= x - y <= INT64_MAX).

(** The same two, as the script computes them for one row. *)
Definition days_of (a b : option Z) : result (option Z) :=
  bind_result (sub_dt a b) (fun d => Ok (option_map days d)).

Definition shipping_time_of (r : Row) : result (option Z) :=
  days_of (order_delivered_customer_date r) (order_delivered_carrier_date r).

Definition delivery_delay_of (r : Row) : result (option Z) :=
  days_of (order_delivered_customer_date r) (order_estimated_delivery_date r).

Definition hour_of (r : Row) : option Z :=
  option_map hour (order_purchase_timestamp r).

(** The rows of one customer, and the latest of the customer's purchases. *)
Definition rows_of (l : list Row) (c : string) : list Row :=
  filter (fun r => eqb_option String.eqb (customer_id r) (Some c)) l.

Definition latest_purchase (l : list Row) (c : string) (last : Z) : Prop :=
  (exists r, In r l /\ customer_id r = Some c /\
             order_purchase_timestamp r = Some last) /\
  (forall r t, In r l -> customer_id r = Some c ->
               order_purchase_timestamp r = Some t -> t <= last).

Definition no_purchase (l : list Row) (c : string) : Prop :=
  forall r, In r l -> customer_id r = Some c -> order_purchase_timestamp r = None.

(** The recency entry of one customer, as the script computes it. *)
Definition recency_of (now : Z) (g : list Row) : result RecencyRow :=
  let last := max (map order_purchase_timestamp g) in
  bind_result (sub_dt last (Some now)) (fun d =>
  Ok {| last_purchase := last; Recency := option_map days (neg_td d) |}).

Definition frequency_of (g : list Row) : nat :=
  nunique String.eqb (map order_id g).

Definition monetary_of (g : list Row) : Q := sum (map price g).

(** The value a statement returns, without the frame. *)
Definition value {A : Type} (r : result (A * DataFrame)) : result A :=
  match r with
  | Ok (a, _) => Ok a
  | Raise e => Raise e
  end.

(** A statement that leaves the rows of the frame as they are. *)
Definition keeps_rows {A : Type} (m : M A) : Prop :=
  forall df a df', m df = Ok (a, df') -> rows df' = rows df.

(** A statement that leaves the whole frame as it is. *)
Definition reads_only {A : Type} (m : M A) : Prop :=
  forall df a df', m df = Ok (a, df') -> df' = df.

(** A statement whose outcome is fixed by the rows of the frame. *)
Definition by_rows {A : Type} (m : M A) : Prop :=
  forall df1 df2, rows df1 = rows df2 -> value (m df1) = value (m df2).

(** The label of a delay, in the words of the page, and the rows that carry
    it: those whose two dates are a whole number of days apart with that
    label. *)
Definition label_of_delay (d : Z) : string :=
  if d <=? 0 then "On Time"
  else if d <=? 2 then "Delayed 1-2 Days"
  else "Delayed More Than 2 Days".

Definition has_category (r : Row) (k : string) : Prop :=
  exists d, days_between (order_delivered_customer_date r)
                         (order_estimated_delivery_date r) (Some d) /\
            k = label_of_delay d.

(** The same, as the script computes it for one row. *)
Definition delivery_category_of (r : Row) : result (option string) :=
  bind_result (delivery_delay_of r) (fun d => Ok (cut_cell bins choices d)).

Definition in_category (k : string) (r : Row) : bool :=
  match delivery_category_of r with
  | Ok c => eqb_option String.eqb c (Some k)
  | Raise _ => false
  end.

(** A sample row: one customer, one order, handed over on day 17533,
    delivered two days later and a day ahead of the estimate. *)
Definition sample_order (bought : Z) : Row :=
  {| order_id := Some "o1"; customer_id := Some "c1";
     customer_state_y := Some "SP"; price := Some (10 # 1)%Q;
     order_purchase_timestamp := Some bought;
     order_delivered_carrier_date := Some (17533 * NS_PER_DAY);
     order_delivered_customer_date := Some (17535 * NS_PER_DAY);
     order_estimated_delivery_date := Some (17536 * NS_PER_DAY);
     review_score := Some 5; product_category_name := Some "moveis";
     order_status_x := Some "delivered";
     payment_type := Some "credit_card";
     seller_city := Some "sao paulo"; customer_city_x := Some "campinas";
     product_category_name_english := Some "furniture";
     geolocation_lat := None; geolocation_lng := None;
     customer_city_y := Some "campinas" |}.

(** * Properties *)

(** ** Whole days *)

Section WholeDays.

Lemma NS_PER_DAY_pos : 0 < NS_PER_DAY.
Proof. reflexivity. Qed.

Lemma days_floor (td : Z) :
  NS_PER_DAY * days td <= td < NS_PER_DAY * (days td + 1).
Proof.
  unfold days.
  pose proof (Z.div_mod td NS_PER_DAY) as E.
  pose proof (Z.mod_pos_bound td NS_PER_DAY NS_PER_DAY_pos) as B.
  assert (NS_PER_DAY <> 0) as NZ by (pose proof NS_PER_DAY_pos; lia).
  specialize (E NZ). lia.
Qed.

Lemma days_unique (td q : Z) :
  NS_PER_DAY * q <= td < NS_PER_DAY * (q + 1) -> days td = q.
Proof.
  intros H. pose proof (days_floor td) as F. pose proof NS_PER_DAY_pos as P.
  nia.
Qed.

Lemma days_nonneg (td : Z) : 0 <= td -> 0 <= days td.
Proof.
  intros H. unfold days. apply Z.div_pos; [exact H | exact NS_PER_DAY_pos].
Qed.

End WholeDays.

(** ** Statements that may raise *)

Section Results.

Lemma traverse_ok {A B : Type} (f : A -> result B) (l : list A) (v : list B) :
  traverse f l = Ok v <-> Forall2 (fun a b => f a = Ok b) l v.
Proof.
  revert v. induction l as [|a l IH]; intros v; simpl.
  - split; intros H.
    + injection H as <-. constructor.
    + inversion H. reflexivity.
  - split; intros H.
    + destruct (f a) as [b|e] eqn:Ea; simpl in H; [|discriminate].
      destruct (traverse f l) as [bs|e] eqn:El; simpl in H; [|discriminate].
      injection H as <-. constructor; [exact Ea|]. apply IH. reflexivity.
    + inversion H as [|a' b l' bs Ha Hl]; subst.
      rewrite Ha. simpl.
      apply IH in Hl. rewrite Hl. reflexivity.
Qed.

Lemma traverse_raises {A B : Type} (f : A -> result B) (l : list A) :
  raises (traverse f l) <-> Exists (fun a => raises (f a)) l.
Proof.
  induction l as [|a l IH]; simpl.
  - split; intros H; [destruct H as [e H]; discriminate | inversion H].
  - split; intros H.
    + destruct (f a) as [b|e] eqn:Ea.
      * right. apply IH. simpl in H.
        destruct (traverse f l) as [bs|e']; simpl in H.
        -- destruct H as [e H]. discriminate.
        -- exists e'. reflexivity.
      * left. exists e. exact Ea.
    + destruct (f a) as [b|e] eqn:Ea; simpl.
      * inversion H as [? ? Ha|? ? Hl]; subst.
        -- rewrite Ea in Ha. destruct Ha as [e Ha]. discriminate.
        -- apply IH in Hl. destruct Hl as [e Hl]. rewrite Hl.
           exists e. reflexivity.
      * exists e. reflexivity.
Qed.

Lemma Forall2_map_l {A B C : Type} (g : A -> B) (P : B -> C -> Prop)
  (l : list A) (v : list C) :
  Forall2 P (map g l) v <-> Forall2 (fun a c => P (g a) c) l v.
Proof.
  revert v. induction l as [|a l IH]; intros v; simpl.
  - split; intros H; inversion H; constructor.
  - split; intros H; inversion H; subst; constructor; auto; now apply IH.
Qed.

Lemma Forall2_iff {A B : Type} (P Q : A -> B -> Prop) (l : list A) (v : list B) :
  (forall a b, P a b <-> Q a b) -> Forall2 P l v <-> Forall2 Q l v.
Proof.
  intros E. split; intros H; induction H; constructor; auto; now apply E.
Qed.

Lemma Exists_iff {A : Type} (P Q : A -> Prop) (l : list A) :
  (forall a, P a <-> Q a) -> Exists P l <-> Exists Q l.
Proof.
  intros E. rewrite !Exists_exists.
  split; intros [a [Ha Hp]]; exists a; split; auto; now apply E.
Qed.

Lemma traverse_error {A B : Type} (f : A -> result B) (l : list A)
  (e0 e : PyError) :
  (forall a e', f a = Raise e' -> e' = e0) ->
  traverse f l = Raise e -> e = e0.
Proof.
  intros H. induction l as [|a l IH]; simpl; [discriminate|].
  destruct (f a) as [b|e'] eqn:Ea; simpl.
  - destruct (traverse f l) as [bs|e'']; simpl; [discriminate|].
    intros E. injection E as <-. now apply IH.
  - intros E. injection E as <-. now apply (H a).
Qed.

Lemma traverse_map {A B C : Type} (f : B -> result C) (g : A -> B) (l : list A) :
  traverse f (map g l) = traverse (fun a => f (g a)) l.
Proof.
  induction l as [|a l IH]; simpl; [reflexivity|]. now rewrite IH.
Qed.

Lemma traverse_then_map {A B C : Type} (f : A -> result B) (g : B -> C)
  (l : list A) :
  bind_result (traverse f l) (fun d => Ok (map g d))
  = traverse (fun a => bind_result (f a) (fun b => Ok (g b))) l.
Proof.
  induction l as [|a l IH]; simpl; [reflexivity|].
  destruct (f a) as [b|e]; simpl; [|reflexivity].
  rewrite <- IH. destruct (traverse f l); reflexivity.
Qed.

Lemma traverse_total {A B : Type} (f : A -> result B) (l : list A) :
  (exists v, traverse f l = Ok v) \/ raises (traverse f l).
Proof.
  destruct (traverse f l) as [v|e]; [left; now exists v | right; now exists e].
Qed.

Lemma Forall2_length_eq {A B : Type} (P : A -> B -> Prop) (l : list A) (v : list B) :
  Forall2 P l v -> List.length v = List.length l.
Proof. induction 1; simpl; congruence. Qed.

Lemma raises_not_ok {A : Type} (m : result A) :
  raises m <-> forall a, m <> Ok a.
Proof.
  destruct m as [a|e]; split.
  - intros [e H]. discriminate.
  - intros H. exfalso. now apply (H a).
  - intros _ a. discriminate.
  - intros _. now exists e.
Qed.

End Results.

(** ** Differences of dates in 64 bits *)

Section Int64.

Lemma in_int64_spec (z : Z) :
  in_int64 z = true <-> INT64_MIN <= z <= INT64_MAX.
Proof.
  unfold in_int64. rewrite andb_true_iff, !Z.leb_le. tauto.
Qed.

Lemma days_of_ok (a b c : option Z) :
  days_of a b = Ok c <-> days_between a b c.
Proof.
  unfold days_of, days_between, sub_dt, checked_add, of_i8.
  destruct a as [x|], b as [y|]; cbn [bind_result option_map];
    try (split; [intros H; now injection H | intros ->; reflexivity]).
  rewrite Z.add_opp_r.
  destruct (in_int64 (x - y)) eqn:R; cbn [bind_result].
  - apply in_int64_spec in R.
    destruct (Z.eqb_spec (x - y) INT64_MIN) as [E|E]; cbn [option_map]; split.
    + intros H. injection H as <-. repeat split; try tauto; lia.
    + intros [_ [H _]]. now rewrite (H E).
    + intros H. injection H as <-. repeat split; try tauto; lia.
    + intros [_ [_ H]]. now rewrite (H E).
  - split; [discriminate|]. intros [H _]. apply in_int64_spec in H. congruence.
Qed.

Lemma days_of_raises (a b : option Z) :
  raises (days_of a b) <-> overflows a b.
Proof.
  unfold days_of, overflows, sub_dt, checked_add.
  destruct a as [x|], b as [y|]; cbn [bind_result];
    try (split; [intros [e H]; discriminate
                | intros [x' [y' [A [B _]]]]; discriminate]).
  rewrite Z.add_opp_r.
  destruct (in_int64 (x - y)) eqn:R; cbn [bind_result]; split.
  - intros [e H]. discriminate.
  - intros [x' [y' [A [B H]]]]. injection A as <-. injection B as <-.
    apply in_int64_spec in R. contradiction.
  - intros _. exists x, y. split; [reflexivity|]. split; [reflexivity|].
    intros H. apply in_int64_spec in H. congruence.
  - intros _. now exists OverflowError.
Qed.

Lemma days_of_error (a b : option Z) (e : PyError) :
  days_of a b = Raise e -> e = OverflowError.
Proof.
  unfold days_of, sub_dt, checked_add.
  destruct a as [x|], b as [y|]; cbn [bind_result]; try discriminate.
  destruct (in_int64 (x + - y)); cbn [bind_result]; [discriminate|].
  intros H. now injection H.
Qed.

Lemma days_between_value (x y : Z) (c : option Z) :
  days_between (Some x) (Some y) c -> x - y <> INT64_MIN ->
  c = Some (days (x - y)).
Proof. intros [_ [_ H]]. exact H. Qed.

Lemma days_between_null (a b c : option Z) :
  days_between a b c ->
  (c = None <-> a = None \/ b = None
                \/ exists x y, a = Some x /\ b = Some y /\ x - y = INT64_MIN).
Proof.
  unfold days_between. destruct a as [x|], b as [y|].
  - intros [_ [H1 H2]]. split.
    + intros ->. right. right. exists x, y.
      split; [reflexivity|]. split; [reflexivity|].
      destruct (Z.eq_dec (x - y) INT64_MIN) as [E|E]; [exact E|].
      specialize (H2 E). discriminate.
    + intros [H|[H|[x' [y' [A [B E]]]]]]; try discriminate.
      injection A as <-. injection B as <-. now apply H1.
  - intros ->. split; auto.
  - intros ->. split; auto.
  - intros ->. split; auto.
Qed.

End Int64.

(** ** Columns computed row by row *)

Section Columns.

Lemma days_between_rows {R : Type} (f g : R -> option Z) (l : list R) :
  bind_result (sub_series (map f l) (map g l)) (fun d => Ok (dt_days d))
  = traverse (fun r => days_of (f r) (g r)) l.
Proof.
  unfold sub_series, dt_days. rewrite traverse_then_map.
  induction l as [|r l IH]; simpl; [reflexivity|].
  now rewrite IH.
Qed.

Lemma length_eqb_map {A B : Type} (f : A -> B) (l : list A) :
  Nat.eqb (List.length (map f l)) (List.length l) = true.
Proof. rewrite length_map. apply Nat.eqb_refl. Qed.

(** Assigning a loaded column to itself changes no row. *)
Lemma assign_self (get : Row -> option Z) (set : option Z -> Row -> Row)
  (l : list Row) :
  (forall r, set (get r) r = r) ->
  map (fun p => set (fst p) (snd p)) (combine (map get l) l) = l.
Proof.
  intros H. induction l as [|r l IH]; simpl; [reflexivity|].
  now rewrite H, IH.
Qed.

Lemma set_customer_date_self (r : Row) :
  set_order_delivered_customer_date (order_delivered_customer_date r) r = r.
Proof. destruct r; reflexivity. Qed.

Lemma set_estimated_date_self (r : Row) :
  set_order_estimated_delivery_date (order_estimated_delivery_date r) r = r.
Proof. destruct r; reflexivity. Qed.

End Columns.

(** ** The statements that write to the frame *)

Section Writes.

Lemma purchase_time_distribution_run (df : DataFrame) :
  purchase_time_distribution df
  = Ok (map hour_of (rows df),
        {| rows := rows df;
           order_purchase_hour := Some (map hour_of (rows df));
           shipping_time := shipping_time df;
           delivery_delay := delivery_delay df;
           delivery_category := delivery_category df |}).
Proof.
  unfold purchase_time_distribution, bind, column, assign_order_purchase_hour,
    added_column, dt_hour.
  cbn [rows]. rewrite map_map, length_eqb_map. reflexivity.
Qed.

Lemma sub_series_length {R : Type} (f g : R -> option Z) (l : list R)
  (d : list (option Z)) :
  sub_series (map f l) (map g l) = Ok d -> List.length d = List.length l.
Proof.
  unfold sub_series. intros H. apply traverse_ok, Forall2_length_eq in H.
  now rewrite H, length_combine, !length_map, Nat.min_id.
Qed.

Lemma shipping_duration_distribution_run (df : DataFrame) :
  shipping_duration_distribution df
  = match traverse shipping_time_of (rows df) with
    | Ok s =>
        Ok (s, {| rows := rows df;
                  order_purchase_hour := order_purchase_hour df;
                  shipping_time := Some s;
                  delivery_delay := delivery_delay df;
                  delivery_category := delivery_category df |})
    | Raise e => Raise e
    end.
Proof.
  unfold shipping_time_of.
  rewrite <- (days_between_rows order_delivered_customer_date
                order_delivered_carrier_date (rows df)).
  unfold shipping_duration_distribution, bind, column, lift,
    assign_shipping_time, added_column.
  cbn [rows].
  destruct (sub_series (map order_delivered_customer_date (rows df))
              (map order_delivered_carrier_date (rows df))) as [d|e] eqn:E;
    cbn [bind_result]; [|reflexivity].
  apply sub_series_length in E. unfold dt_days.
  rewrite length_map, E, Nat.eqb_refl. reflexivity.
Qed.

Lemma cut_bins_choices (x : list (option Z)) :
  cut x bins choices
  = Ok {| cat_values := map (cut_cell bins choices) x; categories := choices |}.
Proof. reflexivity. Qed.

Lemma delivery_delay_analysis_run (df : DataFrame) :
  delivery_delay_analysis df
  = match traverse delivery_delay_of (rows df) with
    | Ok d =>
        Ok (tt,
            {| rows := rows df;
               order_purchase_hour := order_purchase_hour df;
               shipping_time := shipping_time df;
               delivery_delay := Some d;
               delivery_category :=
                 Some {| cat_values := map (cut_cell bins choices) d;
                         categories := choices |} |})
    | Raise e => Raise e
    end.
Proof.
  unfold delivery_delay_of.
  rewrite <- (days_between_rows order_delivered_customer_date
                order_estimated_delivery_date (rows df)).
  unfold delivery_delay_analysis, bind, column, assign_loaded,
    assign_delivery_delay, assign_delivery_category, added_column, lift,
    to_datetime.
  cbn [rows]. rewrite length_eqb_map.
  rewrite (assign_self order_delivered_customer_date
             set_order_delivered_customer_date (rows df) set_customer_date_self).
  cbn [rows]. rewrite length_eqb_map.
  rewrite (assign_self order_estimated_delivery_date
             set_order_estimated_delivery_date (rows df) set_estimated_date_self).
  cbn [rows].
  destruct (sub_series (map order_delivered_customer_date (rows df))
              (map order_estimated_delivery_date (rows df))) as [d|e] eqn:E;
    cbn [bind_result]; [|reflexivity].
  apply sub_series_length in E. unfold dt_days at 1.
  rewrite length_map, E, Nat.eqb_refl.
  cbn [rows delivery_delay]. rewrite cut_bins_choices.
  cbn [cat_values rows]. unfold dt_days. rewrite !length_map, E, Nat.eqb_refl.
  reflexivity.
Qed.

(** A column of day counts, read off row by row. *)
Lemma day_column_ok (f g : Row -> option Z) (l : list Row) (s : list (option Z)) :
  traverse (fun r => days_of (f r) (g r)) l = Ok s
  <-> Forall2 (fun r c => days_between (f r) (g r) c) l s.
Proof.
  rewrite traverse_ok. apply Forall2_iff. intros r c. apply days_of_ok.
Qed.

Lemma day_column_raises (f g : Row -> option Z) (l : list Row) :
  raises (traverse (fun r => days_of (f r) (g r)) l)
  <-> Exists (fun r => overflows (f r) (g r)) l.
Proof.
  rewrite traverse_raises. apply Exists_iff. intros r. apply days_of_raises.
Qed.

Lemma day_column_error (f g : Row -> option Z) (l : list Row) (e : PyError) :
  traverse (fun r => days_of (f r) (g r)) l = Raise e -> e = OverflowError.
Proof.
  apply traverse_error. intros r e'. apply days_of_error.
Qed.

Lemma shipping_ok (df : DataFrame) (s : list (option Z)) (df' : DataFrame) :
  shipping_duration_distribution df = Ok (s, df')
  <-> Forall2 (fun r c => days_between (order_delivered_customer_date r)
                                       (order_delivered_carrier_date r) c)
              (rows df) s /\
      df' = {| rows := rows df;
               order_purchase_hour := order_purchase_hour df;
               shipping_time := Some s;
               delivery_delay := delivery_delay df;
               delivery_category := delivery_category df |}.
Proof.
  rewrite shipping_duration_distribution_run, <- day_column_ok.
  unfold shipping_time_of.
  destruct (traverse _ (rows df)) as [s0|e]; split.
  - intros H. injection H as <- <-. now split.
  - intros [H ->]. injection H as ->. reflexivity.
  - discriminate.
  - intros [H _]. discriminate.
Qed.

Lemma shipping_raises (df : DataFrame) :
  raises (shipping_duration_distribution df)
  <-> Exists (fun r => overflows (order_delivered_customer_date r)
                                 (order_delivered_carrier_date r)) (rows df).
Proof.
  rewrite shipping_duration_distribution_run, <- day_column_raises.
  unfold shipping_time_of.
  destruct (traverse _ (rows df)) as [s0|e]; split; intros [e' H];
    try discriminate; exists e'; congruence.
Qed.

Lemma analysis_ok (df df' : DataFrame) :
  delivery_delay_analysis df = Ok (tt, df')
  <-> exists d,
      Forall2 (fun r c => days_between (order_delivered_customer_date r)
                                       (order_estimated_delivery_date r) c)
              (rows df) d /\
      df' = {| rows := rows df;
               order_purchase_hour := order_purchase_hour df;
               shipping_time := shipping_time df;
               delivery_delay := Some d;
               delivery_category :=
                 Some {| cat_values := map (cut_cell bins choices) d;
                         categories := choices |} |}.
Proof.
  rewrite delivery_delay_analysis_run. unfold delivery_delay_of.
  destruct (traverse _ (rows df)) as [d0|e] eqn:E; split.
  - intros H. injection H as <-. exists d0. split; [|reflexivity].
    now apply day_column_ok.
  - intros [d [H ->]]. apply day_column_ok in H. rewrite E in H.
    injection H as ->. reflexivity.
  - discriminate.
  - intros [d [H _]]. apply day_column_ok in H. rewrite E in H. discriminate.
Qed.

Lemma analysis_raises (df : DataFrame) :
  raises (delivery_delay_analysis df)
  <-> Exists (fun r => overflows (order_delivered_customer_date r)
                                 (order_estimated_delivery_date r)) (rows df).
Proof.
  rewrite delivery_delay_analysis_run, <- day_column_raises.
  unfold delivery_delay_of.
  destruct (traverse _ (rows df)) as [s0|e]; split; intros [e' H];
    try discriminate; exists e'; congruence.
Qed.

End Writes.

(** ** Delivery categories *)

Section DeliveryCategory.

Lemma cut_cell_label (delay : Z) :
  cut_cell bins choices (Some delay)
  = Some (if delay <=? 0 then "On Time"
          else if delay <=? 2 then "Delayed 1-2 Days"
          else "Delayed More Than 2 Days").
Proof.
  unfold cut_cell, bins, choices, find_bin, edge_leb, edge_ltb.
  destruct (Z.leb_spec delay 0) as [H0|H0];
    destruct (Z.leb_spec delay 2) as [H2|H2];
    destruct (Z.ltb_spec 0 delay) as [L0|L0];
    destruct (Z.ltb_spec 2 delay) as [L2|L2];
    try lia; reflexivity.
Qed.

(** The unused masks of lines 391-395 agree with the labels of [pd.cut]. *)
Lemma conditions_agree (c : option Z) :
  conditions [c]
  = [ [eqb_option String.eqb (cut_cell bins choices c) (Some "On Time")];
      [eqb_option String.eqb (cut_cell bins choices c) (Some "Delayed 1-2 Days")];
      [eqb_option String.eqb (cut_cell bins choices c)
         (Some "Delayed More Than 2 Days")] ].
Proof.
  destruct c as [v|]; [|reflexivity].
  rewrite cut_cell_label. unfold conditions, le_cell, gt_cell. cbn [map].
  destruct (Z.leb_spec v 0); destruct (Z.leb_spec v 2);
    destruct (Z.ltb_spec 0 v); destruct (Z.ltb_spec 2 v);
    try lia; reflexivity.
Qed.

End DeliveryCategory.

Lemma shipping_error (df : DataFrame) (e : PyError) :
  shipping_duration_distribution df = Raise e -> e = OverflowError.
Proof.
  rewrite shipping_duration_distribution_run.
  destruct (traverse shipping_time_of (rows df)) as [s|e'] eqn:E; [discriminate|].
  intros H. injection H as <-. unfold shipping_time_of in E.
  now apply day_column_error in E.
Qed.

Lemma analysis_error (df : DataFrame) (e : PyError) :
  delivery_delay_analysis df = Raise e -> e = OverflowError.
Proof.
  rewrite delivery_delay_analysis_run.
  destruct (traverse delivery_delay_of (rows df)) as [s|e'] eqn:E; [discriminate|].
  intros H. injection H as <-. unfold delivery_delay_of in E.
  now apply day_column_error in E.
Qed.

(** C3.  The category of a row is fixed by its delay: at most 0 days is
    "On Time", 1 or 2 days is "Delayed 1-2 Days", more is "Delayed More Than
    2 Days" (so 0, 1, 2, 3 and -5 give On Time, Delayed 1-2 Days, Delayed 1-2
    Days, Delayed More Than 2 Days and On Time); a null delay has a null
    category.  Whenever the delay analysis returns, the delay column holds,
    row for row, the whole days between estimated and actual delivery, and
    the category column holds the labels of exactly these delays; it fails
    to return only when a difference of dates does not fit 64 bits. *)
Theorem delivery_category_thresholds :
  (forall delay : Z,
      cut_cell bins choices (Some delay)
      = Some (if delay <=? 0 then "On Time"
              else if delay <=? 2 then "Delayed 1-2 Days"
              else "Delayed More Than 2 Days")) /\
  cut_cell bins choices None = None /\
  map (cut_cell bins choices) [Some 0; Some 1; Some 2; Some 3; Some (-5)]
  = [Some "On Time"; Some "Delayed 1-2 Days"; Some "Delayed 1-2 Days";
     Some "Delayed More Than 2 Days"; Some "On Time"] /\
  (forall df df' : DataFrame,
      delivery_delay_analysis df = Ok (tt, df') ->
      exists delay,
        delivery_delay df' = Some delay /\
        Forall2 (fun r d => days_between (order_delivered_customer_date r)
                                         (order_estimated_delivery_date r) d)
                (rows df) delay /\
        delivery_category df'
        = Some {| cat_values := map (cut_cell bins choices) delay;
                  categories := choices |}) /\
  (forall df : DataFrame,
      raises (delivery_delay_analysis df)
      <-> Exists (fun r => overflows (order_delivered_customer_date r)
                                     (order_estimated_delivery_date r))
                 (rows df)).
Proof.
  split; [exact cut_cell_label|].
  split; [reflexivity|].
  split; [reflexivity|].
  split; [|exact analysis_raises].
  intros df df' H. apply analysis_ok in H. destruct H as [d [F ->]].
  exists d. cbn [delivery_delay delivery_category].
  split; [reflexivity|]. split; [exact F | reflexivity].
Qed.

(** C1 fails on the code: the shipping time of a row handed to the carrier
    at the epoch and delivered three days later is 3, where carrier date
    minus customer date would give -3. *)
Lemma shipping_time_is_not_carrier_minus_customer :
  ~ (forall (df : DataFrame) (s : list (option Z)) (df' : DataFrame),
        shipping_duration_distribution df = Ok (s, df') ->
        Forall2 (fun r c => days_between (order_delivered_carrier_date r)
                                         (order_delivered_customer_date r) c)
                (rows df) s).
Proof.
  intros H.
  pose (r0 := {| order_id := Some "o1";
                 customer_id := Some "c1";
                 customer_state_y := Some "SP";
                 price := None;
                 order_purchase_timestamp := None;
                 order_delivered_carrier_date := Some 0;
                 order_delivered_customer_date := Some (3 * NS_PER_DAY);
                 order_estimated_delivery_date := None;
                 review_score := None;
                 product_category_name := None;
                 order_status_x := None;
                 payment_type := None;
                 seller_city := None;
                 customer_city_x := None;
                 product_category_name_english := None;
                 geolocation_lat := None;
                 geolocation_lng := None;
                 customer_city_y := None |}).
  assert (shipping_duration_distribution (fresh [r0])
          = Ok ([Some 3],
                {| rows := [r0];
                   order_purchase_hour := None;
                   shipping_time := Some [Some 3];
                   delivery_delay := None;
                   delivery_category := None |})) as RUN
      by (vm_compute; reflexivity).
  specialize (H _ _ _ RUN). cbn [rows fresh] in H.
  inversion H as [|? ? ? ? C _]; subst.
  cbn [r0 order_delivered_carrier_date order_delivered_customer_date] in C.
  apply days_between_value in C; [|vm_compute; discriminate].
  vm_compute in C. discriminate C.
Qed.

(** C1, amended.  The shipping time of a row is customer-delivered date
    minus carrier-delivered date in whole days, null when either date is
    null; whenever the statement returns, this is the column it yields and
    stores as [shipping_time], without touching the rows.  The statement
    raises [OverflowError], and nothing else, exactly when the two dates of
    some row are further apart than 64 bits of nanoseconds hold.  A shipping
    time is non-negative whenever the carrier date does not come after the
    customer date. *)
Theorem shipping_time_customer_minus_carrier :
  (forall (df : DataFrame) (s : list (option Z)) (df' : DataFrame),
      shipping_duration_distribution df = Ok (s, df') ->
      Forall2 (fun r c => days_between (order_delivered_customer_date r)
                                       (order_delivered_carrier_date r) c)
              (rows df) s /\
      rows df' = rows df /\
      shipping_time df' = Some s) /\
  (forall df : DataFrame,
      raises (shipping_duration_distribution df)
      <-> Exists (fun r => overflows (order_delivered_customer_date r)
                                     (order_delivered_carrier_date r))
                 (rows df)) /\
  (forall (df : DataFrame) (e : PyError),
      shipping_duration_distribution df = Raise e -> e = OverflowError) /\
  (forall (customer carrier : Z) (c : option Z),
      days_between (Some customer) (Some carrier) c ->
      carrier <= customer ->
      c = Some (days (customer - carrier)) /\ 0 <= days (customer - carrier)).
Proof.
  split.
  { intros df s df' H. apply shipping_ok in H. destruct H as [F ->].
    split; [exact F|]. split; reflexivity. }
  split; [exact shipping_raises|].
  split; [exact shipping_error|].
  intros x y c H L. split.
  - apply (days_between_value H). unfold INT64_MIN. lia.
  - apply days_nonneg. lia.
Qed.

(** ** The cast to nullable integers *)

Section Cast.

Lemma integral_spec (q : Q) (z : Z) :
  (q == inject_Z z)%Q
  <-> is_integral q = true /\ z = Qnum q / Zpos (Qden q).
Proof.
  unfold is_integral, Qeq, inject_Z. cbn [Qnum Qden].
  rewrite Z.mul_1_r, Z.eqb_eq. split.
  - intros ->. split.
    + apply Z.mod_mul. discriminate.
    + symmetry. apply Z.div_mul. discriminate.
  - intros [M ->]. apply Z.div_exact in M; [|discriminate]. lia.
Qed.

Lemma int_to_int_ok (z : Z) (out : option Z) :
  int_to_int z = Ok out <-> cast_to (Number (inject_Z z)) out.
Proof.
  unfold int_to_int, cast_to. destruct (in_int64 z) eqn:R; split.
  - intros H. injection H as <-. exists z. apply in_int64_spec in R.
    split; [reflexivity|]. now split.
  - intros [z' [E [_ ->]]]. apply integral_spec in E. destruct E as [_ ->].
    unfold inject_Z. cbn [Qnum Qden]. now rewrite Z.div_1_r.
  - discriminate.
  - intros [z' [E [B _]]]. apply integral_spec in E. destruct E as [_ ->].
    unfold inject_Z in B. cbn [Qnum Qden] in B. rewrite Z.div_1_r in B.
    apply in_int64_spec in B. congruence.
Qed.

Lemma int_to_int_raises (z : Z) :
  raises (int_to_int z) <-> uncastable (Number (inject_Z z)).
Proof.
  unfold int_to_int, uncastable. destruct (in_int64 z) eqn:R; split.
  - intros [e H]. discriminate.
  - intros H. exfalso. apply (H z); [reflexivity|]. now apply in_int64_spec.
  - intros _ z' E B. apply integral_spec in E. destruct E as [_ ->].
    unfold inject_Z in B. cbn [Qnum Qden] in B. rewrite Z.div_1_r in B.
    apply in_int64_spec in B. congruence.
  - intros _. now exists OverflowError.
Qed.

Lemma float_to_int_ok (c : option Q) (out : option Z) :
  float_to_int c = Ok out <-> cast_to (cell_of_float c) out.
Proof.
  destruct c as [q|]; cbn [float_to_int cell_of_float cast_to].
  - destruct (is_integral q) eqn:I; cbn [andb].
    + destruct (in_int64 (Qnum q / Z.pos (Qden q))) eqn:R; split.
      * intros H. injection H as <-. exists (Qnum q / Z.pos (Qden q)).
        split; [now apply integral_spec|].
        split; [now apply in_int64_spec | reflexivity].
      * intros [z [E [_ ->]]]. apply integral_spec in E.
        destruct E as [_ ->]. reflexivity.
      * discriminate.
      * intros [z [E [B _]]]. apply integral_spec in E. destruct E as [_ ->].
        apply in_int64_spec in B. congruence.
    + split; [discriminate|]. intros [z [E _]]. apply integral_spec in E.
      destruct E as [E _]. congruence.
  - split; intros H; [injection H as <-; reflexivity | now subst].
Qed.

Lemma float_to_int_raises (c : option Q) :
  raises (float_to_int c) <-> uncastable (cell_of_float c).
Proof.
  rewrite raises_not_ok. destruct c as [q|]; cbn [cell_of_float uncastable].
  - split.
    + intros H z E B. apply (H (Some z)). apply float_to_int_ok.
      cbn [cell_of_float cast_to]. exists z. now repeat split.
    + intros H out E. apply float_to_int_ok in E.
      cbn [cell_of_float cast_to] in E. destruct E as [z [E [B _]]].
      now apply (H z).
  - split; [|contradiction]. intros H. now apply (H None).
Qed.

(** *** Text that is not a number *)

Lemma numeral_char_digit (c : ascii) : is_digit c = true -> numeral_char c = true.
Proof.
  unfold is_digit, numeral_char. intros ->. reflexivity.
Qed.

Lemma numeral_char_space (c : ascii) : is_space c = true -> numeral_char c = true.
Proof.
  unfold is_space, numeral_char. intros H. apply orb_true_iff in H.
  destruct H as [H|H]; rewrite H; rewrite ?orb_true_r; reflexivity.
Qed.

Lemma not_a_number_tail (c : ascii) (t : string) :
  numeral_char c = true -> not_a_number (String c t) -> not_a_number t.
Proof.
  intros N [ch [H F]]. cbn [list_ascii_of_string] in H. destruct H as [<-|H].
  - congruence.
  - now exists ch.
Qed.

Lemma lstrip_not_a_number (s : string) :
  not_a_number s -> not_a_number (lstrip s).
Proof.
  induction s as [|c t IH]; intros H; [exact H|]. cbn [lstrip].
  destruct (is_space c) eqn:S; [|exact H].
  apply IH, (not_a_number_tail (numeral_char_space c S) H).
Qed.

Lemma not_a_number_nonempty (s : string) : not_a_number s -> s <> EmptyString.
Proof. intros [ch [H _]] ->. contradiction. Qed.

Lemma parse_digits_not_a_number (prev : bool) (acc : Z) (s : string) :
  not_a_number s -> parse_digits prev acc s = None.
Proof.
  revert prev acc. induction s as [|c t IH]; intros prev acc H.
  - now apply not_a_number_nonempty in H.
  - cbn [parse_digits]. destruct (is_digit c) eqn:D.
    + apply IH, (not_a_number_tail (numeral_char_digit c D) H).
    + destruct (Ascii.eqb c "_") eqn:U.
      * apply Ascii.eqb_eq in U. subst c.
        assert (not_a_number t) as Ht
            by (apply (not_a_number_tail (c := "_"%char)); [reflexivity | exact H]).
        destruct prev; [|reflexivity].
        destruct t as [|d t']; [reflexivity|].
        destruct (is_digit d); [now apply IH | reflexivity].
      * destruct (is_space c) eqn:S; [|reflexivity].
        destruct prev; [|reflexivity].
        assert (not_a_number (lstrip t)) as Ht
            by (apply lstrip_not_a_number,
                  (not_a_number_tail (numeral_char_space c S) H)).
        apply not_a_number_nonempty in Ht.
        destruct (lstrip t); [contradiction | reflexivity].
Qed.

Lemma int_of_string_cases (s : string) :
  int_of_string s = parse_digits false 0 (lstrip s) \/
  (exists t, lstrip s = String "+" t /\
             int_of_string s = parse_digits false 0 t) \/
  (exists t, lstrip s = String "-" t /\
             int_of_string s = option_map Z.opp (parse_digits false 0 t)).
Proof.
  unfold int_of_string. destruct (lstrip s) as [|c t]; [left; reflexivity|].
  destruct c as [[] [] [] [] [] [] [] []];
    first [ left; reflexivity
          | right; left; exists t; split; reflexivity
          | right; right; exists t; split; reflexivity ].
Qed.

Lemma int_of_string_not_a_number (s : string) :
  not_a_number s -> int_of_string s = None.
Proof.
  intros H. apply lstrip_not_a_number in H.
  destruct (int_of_string_cases s) as [E|[[t [L E]]|[t [L E]]]]; rewrite E.
  - now apply parse_digits_not_a_number.
  - rewrite L in H. apply parse_digits_not_a_number.
    apply (not_a_number_tail (c := "+"%char)); [reflexivity | exact H].
  - rewrite L in H. rewrite parse_digits_not_a_number; [reflexivity|].
    apply (not_a_number_tail (c := "-"%char)); [reflexivity | exact H].
Qed.

Lemma object_to_int_sound (c : option string) (out : option Z) :
  object_to_int c = Ok out -> cast_to (cell_of_object c) out.
Proof.
  destruct c as [s|]; cbn [object_to_int cell_of_object cast_to].
  - destruct (int_of_string s) as [z|]; [|discriminate].
    destruct (in_int64 z) eqn:R; [|discriminate].
    intros H. injection H as <-. exists z. split; [|reflexivity].
    now apply in_int64_spec.
  - intros H. now injection H.
Qed.

Lemma object_to_int_uncastable (c : option string) :
  uncastable (cell_of_object c) -> raises (object_to_int c).
Proof.
  destruct c as [s|]; cbn [object_to_int cell_of_object uncastable];
    [|contradiction].
  intros H. rewrite (int_of_string_not_a_number H). now exists ValueError.
Qed.

Lemma object_to_int_gap (c : option string) :
  ~ is_text (cell_of_object c) -> c = None.
Proof.
  destruct c; cbn; [intros H; now exfalso | reflexivity].
Qed.

(** *** Whole columns *)

Lemma astype_Int64_sound (c : RawColumn) (v : list (option Z)) :
  astype_Int64 c = Ok v -> Forall2 cast_to (cells c) v.
Proof.
  destruct c as [l|l|l]; cbn [astype_Int64 cells]; rewrite traverse_ok;
    intros H; apply Forall2_map_l; eapply Forall2_impl; try exact H;
    cbv beta; intros a b E.
  - now apply int_to_int_ok.
  - now apply float_to_int_ok.
  - now apply object_to_int_sound.
Qed.

Lemma astype_Int64_uncastable (c : RawColumn) :
  Exists uncastable (cells c) -> raises (astype_Int64 c).
Proof.
  destruct c as [l|l|l]; cbn [astype_Int64 cells]; rewrite traverse_raises,
    Exists_map; intros H; eapply Exists_impl; try exact H; cbv beta; intros a U.
  - now apply int_to_int_raises.
  - now apply float_to_int_raises.
  - now apply object_to_int_uncastable.
Qed.

Lemma astype_Int64_numbers_ok (c : RawColumn) (v : list (option Z)) :
  Forall (fun cell => ~ is_text cell) (cells c) ->
  Forall2 cast_to (cells c) v -> astype_Int64 c = Ok v.
Proof.
  destruct c as [l|l|l]; cbn [astype_Int64 cells]; rewrite traverse_ok,
    Forall_map, Forall2_map_l; intros N H;
    induction H as [|a b l' v' Hab _ IH]; constructor;
    inversion N as [|? ? Na Nl]; subst; auto.
  - now apply int_to_int_ok.
  - now apply float_to_int_ok.
  - apply object_to_int_gap in Na. subst a. cbn in Hab. now subst b.
Qed.

Lemma astype_Int64_numbers_raises (c : RawColumn) :
  Forall (fun cell => ~ is_text cell) (cells c) ->
  raises (astype_Int64 c) -> Exists uncastable (cells c).
Proof.
  destruct c as [l|l|l]; cbn [astype_Int64 cells]; rewrite traverse_raises,
    Forall_map, Exists_map; intros N H;
    induction H as [a l' Ha|a l' _ IH];
    inversion N as [|? ? Na Nl]; subst;
    try (right; now apply IH); left.
  - now apply int_to_int_raises.
  - now apply float_to_int_raises.
  - apply object_to_int_gap in Na. subst a. destruct Ha as [e Ha]. discriminate.
Qed.

End Cast.

Lemma cast_to_null (c : RawCell) (out : option Z) :
  cast_to c out -> (out = None <-> c = Missing).
Proof.
  destruct c as [|q|s]; simpl.
  - intros ->. split; reflexivity.
  - intros [z [_ [_ ->]]]. split; discriminate.
  - intros [z [_ ->]]. split; discriminate.
Qed.

Lemma load_data_int_columns_ok (df : RawIntColumns) (cols : IntColumns) :
  load_data_int_columns df = Ok cols
  <-> Forall2 (fun c v => astype_Int64 c = Ok v)
              (raw_int_columns df) (int_columns cols).
Proof.
  unfold load_data_int_columns, raw_int_columns, int_columns.
  split; intros H.
  - destruct (astype_Int64 (raw_product_photos_qty df)) as [a|] eqn:Ea;
      cbn [bind_result] in H; [|discriminate].
    destruct (astype_Int64 (raw_payment_sequential df)) as [b|] eqn:Eb;
      cbn [bind_result] in H; [|discriminate].
    destruct (astype_Int64 (raw_payment_installments df)) as [c|] eqn:Ec;
      cbn [bind_result] in H; [|discriminate].
    destruct (astype_Int64 (raw_review_score df)) as [d|] eqn:Ed;
      cbn [bind_result] in H; [|discriminate].
    injection H as <-.
    cbn [product_photos_qty payment_sequential payment_installments int_review_score].
    repeat constructor; assumption.
  - inversion H as [|? ? ? ? Ha H1]; subst. clear H.
    inversion H1 as [|? ? ? ? Hb H2]; subst. clear H1.
    inversion H2 as [|? ? ? ? Hc H3]; subst. clear H2.
    inversion H3 as [|? ? ? ? Hd _]; subst. clear H3.
    rewrite Ha, Hb, Hc, Hd. cbn [bind_result].
    destruct cols; reflexivity.
Qed.

Lemma load_data_int_columns_raises (df : RawIntColumns) :
  raises (load_data_int_columns df)
  <-> Exists (fun c => raises (astype_Int64 c)) (raw_int_columns df).
Proof.
  unfold load_data_int_columns, raw_int_columns.
  rewrite !Exists_cons, Exists_nil.
  destruct (astype_Int64 (raw_product_photos_qty df)) as [a|ea];
    destruct (astype_Int64 (raw_payment_sequential df)) as [b|eb];
    destruct (astype_Int64 (raw_payment_installments df)) as [c|ec];
    destruct (astype_Int64 (raw_review_score df)) as [d|ed];
    cbn [bind_result]; unfold raises; split; intros H;
    repeat match goal with
           | H : _ \/ _ |- _ => destruct H
           | H : exists _, _ |- _ => destruct H
           | H : False |- _ => contradiction
           | H : Ok _ = Raise _ |- _ => discriminate H
           end;
    eauto 8.
Qed.

Lemma columns_numbers_ok (l : list RawColumn) (v : list (list (option Z))) :
  Forall (fun c => Forall (fun cell => ~ is_text cell) (cells c)) l ->
  Forall2 (fun c x => Forall2 cast_to (cells c) x) l v ->
  Forall2 (fun c x => astype_Int64 c = Ok x) l v.
Proof.
  intros N H. induction H as [|c x l1 v1 Hc _ IH]; constructor;
    inversion N; subst.
  - now apply astype_Int64_numbers_ok.
  - now apply IH.
Qed.

(** C2 fails on the code: a review-score column read as text, with a cell
    that is not a number, makes [load_data] raise. *)
Lemma int_cast_raises_on_text :
  ~ (forall df : RawIntColumns, exists cols, load_data_int_columns df = Ok cols).
Proof.
  intros H.
  destruct (H {| raw_product_photos_qty := Int64Col [1; 2];
                 raw_payment_sequential := Int64Col [1; 1];
                 raw_payment_installments := Float64Col [Some (3 # 1)%Q; None];
                 raw_review_score := ObjectCol [Some "5"; Some "abc"] |})
    as [cols E].
  vm_compute in E. discriminate E.
Qed.

(** C2, amended.  The cast of the four columns coerces nothing.  When it
    returns, a missing cell has become null and every other cell an
    integer, a number the integer it is equal to, so null stays apart from
    zero.  It raises as soon as some cell is a number that is no 64-bit
    integer (a fraction, or beyond 64 bits) or text that is not a number;
    and on columns without text it returns exactly when every number is a
    64-bit integer.  Two columns that cast are run at the end. *)
Theorem int_columns_cast_strictly (df : RawIntColumns) :
  (forall cols : IntColumns,
      load_data_int_columns df = Ok cols ->
      Forall2 (Forall2 cast_to) (map cells (raw_int_columns df))
              (int_columns cols) /\
      Forall2 (Forall2 (fun cell out => out = None <-> cell = Missing))
              (map cells (raw_int_columns df)) (int_columns cols)) /\
  (Exists (fun c => Exists uncastable (cells c)) (raw_int_columns df) ->
   raises (load_data_int_columns df)) /\
  (Forall (fun c => Forall (fun cell => ~ is_text cell) (cells c))
          (raw_int_columns df) ->
   (raises (load_data_int_columns df)
    <-> Exists (fun c => Exists uncastable (cells c)) (raw_int_columns df)) /\
   (forall cols : IntColumns,
       load_data_int_columns df = Ok cols
       <-> Forall2 (Forall2 cast_to) (map cells (raw_int_columns df))
                   (int_columns cols))) /\
  ((exists cols, load_data_int_columns df = Ok cols)
   \/ raises (load_data_int_columns df)) /\
  cast_to (Number (0 # 1)%Q) (Some 0) /\
  cast_to Missing None /\
  astype_Int64 (Float64Col [Some (0 # 1)%Q; None; Some (4 # 1)%Q])
  = Ok [Some 0; None; Some 4] /\
  astype_Int64 (ObjectCol [Some "5"; None; Some "-12"])
  = Ok [Some 5; None; Some (-12)].
Proof.
  assert (forall cols : IntColumns,
             load_data_int_columns df = Ok cols ->
             Forall2 (Forall2 cast_to) (map cells (raw_int_columns df))
                     (int_columns cols)) as SOUND.
  { intros cols H. apply load_data_int_columns_ok in H.
    apply Forall2_map_l. eapply Forall2_impl; [|exact H].
    intros c v. apply astype_Int64_sound. }
  assert (Exists (fun c => Exists uncastable (cells c)) (raw_int_columns df) ->
          raises (load_data_int_columns df)) as BAD.
  { intros H. apply load_data_int_columns_raises.
    eapply Exists_impl; [|exact H]. intros c. apply astype_Int64_uncastable. }
  split.
  { intros cols H. split; [now apply SOUND|].
    eapply Forall2_impl; [|exact (SOUND cols H)].
    intros a b Hab. eapply Forall2_impl; [|exact Hab].
    intros c o. apply cast_to_null. }
  split; [exact BAD|].
  split.
  { intros N. split.
    - split; [|exact BAD]. intros H. apply load_data_int_columns_raises in H.
      rewrite Exists_exists in *. destruct H as [c [Hc Hr]]. exists c.
      split; [exact Hc|]. apply astype_Int64_numbers_raises; [|exact Hr].
      rewrite Forall_forall in N. now apply N.
    - intros cols. split; [apply SOUND|]. intros H.
      apply load_data_int_columns_ok.
      apply (proj1 (@Forall2_map_l _ _ _ cells (Forall2 cast_to)
                      (raw_int_columns df) (int_columns cols))) in H.
      now apply columns_numbers_ok. }
  split.
  { destruct (load_data_int_columns df) as [c|e];
      [left; now exists c | right; now exists e]. }
  split.
  { exists 0. split; [reflexivity|]. split; [|reflexivity].
    unfold INT64_MIN, INT64_MAX. lia. }
  split; [reflexivity|].
  split; vm_compute; reflexivity.
Qed.

(** ** Distinct values and membership *)

Section Distinct.

Variable K : Type.
Variable eqb : K -> K -> bool.
Hypothesis eqb_spec : forall a b, eqb a b = true <-> a = b.

Lemma eqb_refl (a : K) : eqb a a = true.
Proof. now apply eqb_spec. Qed.

Lemma eqb_false (a b : K) : eqb a b = false <-> a <> b.
Proof.
  split; intros H.
  - intros E. apply eqb_spec in E. congruence.
  - destruct (eqb a b) eqn:E; [|reflexivity].
    apply eqb_spec in E. contradiction.
Qed.

Lemma eqb_option_spec (a b : option K) :
  eqb_option eqb a b = true <-> a = b.
Proof.
  destruct a as [x|], b as [y|]; simpl; split; intros H;
    try discriminate; try reflexivity.
  - f_equal. now apply eqb_spec.
  - injection H as ->. apply eqb_refl.
Qed.

Lemma mem_In (k : K) (l : list K) : mem eqb k l = true <-> In k l.
Proof.
  unfold mem. rewrite existsb_exists. split.
  - intros [x [Hx E]]. apply eqb_spec in E. now subst.
  - intros H. exists k. split; [exact H | apply eqb_refl].
Qed.

Lemma In_unique (k : K) (l : list K) : In k (unique eqb l) <-> In k l.
Proof.
  induction l as [|x l IH]; simpl; [tauto|].
  rewrite filter_In, IH, negb_true_iff, eqb_false.
  split.
  - intros [H|[H _]]; auto.
  - intros [H|H]; [now left|].
    destruct (eqb x k) eqn:E.
    + apply eqb_spec in E. now left.
    + right. split; [exact H|]. now apply eqb_false.
Qed.

Lemma NoDup_filter {A : Type} (f : A -> bool) (l : list A) :
  NoDup l -> NoDup (filter f l).
Proof.
  induction 1 as [|x l Hx Hl IH]; simpl; [constructor|].
  destruct (f x); [constructor|]; auto.
  rewrite filter_In. tauto.
Qed.

Lemma NoDup_unique (l : list K) : NoDup (unique eqb l).
Proof.
  induction l as [|x l IH]; simpl; constructor.
  - rewrite filter_In, negb_true_iff, eqb_false. intros [_ H]. now apply H.
  - now apply NoDup_filter.
Qed.

Lemma In_dropna {A : Type} (a : A) (l : list (option A)) :
  In a (dropna l) <-> In (Some a) l.
Proof.
  induction l as [|[x|] l IH]; simpl.
  - tauto.
  - rewrite IH. split; intros [H|H]; auto; left; congruence.
  - rewrite IH. split; [auto|]. intros [H|H]; [discriminate | exact H].
Qed.

End Distinct.

Lemma isin_In (c : option string) (values : list (option string)) :
  isin String.eqb c values = true <-> In c values.
Proof.
  apply (mem_In (eqb_option String.eqb) (eqb_option_spec String.eqb String.eqb_eq)).
Qed.

Lemma In_state_options (final_dataset : list Row) (v : option string) :
  In v (state_options final_dataset)
  <-> exists r, In r final_dataset /\ customer_state_y r = v.
Proof.
  unfold state_options, unique_cells.
  rewrite (In_unique (eqb_option String.eqb)
             (eqb_option_spec String.eqb String.eqb_eq)).
  rewrite in_map_iff. split; intros [r [A B]]; exists r; auto.
Qed.

Lemma filter_all {A : Type} (f : A -> bool) (l : list A) :
  (forall a, In a l -> f a = true) -> filter f l = l.
Proof.
  induction l as [|a l IH]; simpl; intros H; [reflexivity|].
  rewrite (H a (or_introl eq_refl)). f_equal. apply IH. auto.
Qed.

Lemma filter_none {A : Type} (f : A -> bool) (l : list A) :
  (forall a, In a l -> f a = false) -> filter f l = [].
Proof.
  induction l as [|a l IH]; simpl; intros H; [reflexivity|].
  rewrite (H a (or_introl eq_refl)). apply IH. auto.
Qed.

(** The default selection of the sidebar keeps every row. *)
Lemma default_selection_is_identity (final_dataset : list Row) :
  apply_state_filter final_dataset (state_options final_dataset) = final_dataset.
Proof.
  apply filter_all. intros r Hr. apply isin_In, In_state_options.
  now exists r.
Qed.

(** C4.  When the selected states are exactly the distinct states of the
    table, the filter returns the table itself: the same rows, in the same
    order, none dropped and none merged. *)
Theorem full_selection_is_identity
  (final_dataset : list Row) (state_filter : list (option string)) :
  (forall v, In v state_filter <-> In v (state_options final_dataset)) ->
  apply_state_filter final_dataset state_filter = final_dataset /\
  rows (df_filtered final_dataset state_filter) = final_dataset.
Proof.
  intros H.
  assert (apply_state_filter final_dataset state_filter = final_dataset) as E.
  { apply filter_all. intros r Hr. apply isin_In, H, In_state_options.
    now exists r. }
  split; [exact E | exact E].
Qed.

Lemma full_selection_is_identity_witness :
  let sp := {| order_id := Some "o1"; customer_id := Some "c1";
               customer_state_y := Some "SP"; price := None;
               order_purchase_timestamp := None;
               order_delivered_carrier_date := None;
               order_delivered_customer_date := None;
               order_estimated_delivery_date := None;
               review_score := None; product_category_name := None;
               order_status_x := None; payment_type := None;
               seller_city := None; customer_city_x := None;
               product_category_name_english := None;
               geolocation_lat := None; geolocation_lng := None;
               customer_city_y := None |} in
  let table := [sp; blank; sp] in
  let selection := [None; Some "SP"] in
  apply_state_filter table selection = table /\
  rows (df_filtered table selection) = table.
Proof.
  intros sp table selection.
  apply (full_selection_is_identity table selection).
  intros v. vm_compute. tauto.
Defined.

(** ** Frequency tables *)

Section Sorted.

Variable A : Type.

Lemma StronglySorted_weaken (R R' : A -> A -> Prop) (l : list A) :
  (forall x y, In x l -> In y l -> R x y -> R' x y) ->
  StronglySorted R l -> StronglySorted R' l.
Proof.
  intros W H. induction H as [|x l Hl IH Hx]; constructor.
  - apply IH. intros a b Ha Hb. apply W; now right.
  - rewrite Forall_forall in *. intros y Hy.
    apply W; [now left | now right | now apply Hx].
Qed.

Lemma StronglySorted_filter (R : A -> A -> Prop) (f : A -> bool) (l : list A) :
  StronglySorted R l -> StronglySorted R (filter f l).
Proof.
  induction 1 as [|x l Hl IH Hx]; simpl; [constructor|].
  destruct (f x); [|exact IH].
  constructor; [exact IH|].
  rewrite Forall_forall in *. intros y Hy. apply filter_In in Hy.
  now apply Hx.
Qed.

Lemma StronglySorted_firstn (R : A -> A -> Prop) (n : nat) (l : list A) :
  StronglySorted R l -> StronglySorted R (firstn n l).
Proof.
  intros H. revert n. induction H as [|x l Hl IH Hx]; intros [|n]; simpl;
    try constructor.
  - apply IH.
  - rewrite Forall_forall in *. intros y Hy. apply Hx.
    eapply (In_nth_error) in Hy. destruct Hy as [i Hi].
    apply nth_error_In with (n := i).
    rewrite nth_error_firstn in Hi.
    destruct (Nat.ltb i n); [exact Hi | discriminate].
Qed.

Lemma StronglySorted_nth (R : A -> A -> Prop) (l : list A) :
  StronglySorted R l ->
  forall i j a b, (i < j)%nat ->
    nth_error l i = Some a -> nth_error l j = Some b -> R a b.
Proof.
  induction 1 as [|x l Hl IH Hx]; intros i j a b Hij Ha Hb.
  - destruct i; discriminate.
  - destruct j as [|j]; [lia|]. simpl in Hb. destruct i as [|i]; simpl in Ha.
    + injection Ha as <-. rewrite Forall_forall in Hx.
      apply Hx. eapply nth_error_In. exact Hb.
    + apply (IH i j); auto; lia.
Qed.

Lemma StronglySorted_app_inv (R : A -> A -> Prop) (l1 l2 : list A) :
  StronglySorted R (l1 ++ l2) ->
  forall a b, In a l1 -> In b l2 -> R a b.
Proof.
  induction l1 as [|x l1 IH]; simpl; intros H a b Ha Hb; [contradiction|].
  inversion H as [|? ? Hl Hx]; subst.
  destruct Ha as [<-|Ha].
  - rewrite Forall_forall in Hx. apply Hx. apply in_or_app. now right.
  - now apply IH.
Qed.

End Sorted.

Section SortByCount.

Variable K : Type.

Lemma insert_desc_perm (x : K * nat) (l : list (K * nat)) :
  Permutation (insert_desc x l) (x :: l).
Proof.
  induction l as [|h t IH]; simpl; [reflexivity|].
  destruct (snd x <? snd h)%nat; [|reflexivity].
  rewrite IH. apply perm_swap.
Qed.

Lemma sort_desc_perm (l : list (K * nat)) : Permutation (sort_desc l) l.
Proof.
  induction l as [|x l IH]; simpl; [reflexivity|].
  rewrite insert_desc_perm. now constructor.
Qed.

Lemma insert_desc_ordered (x : K * nat) (l : list (K * nat)) :
  StronglySorted (fun a b => (snd b <= snd a)%nat) l ->
  StronglySorted (fun a b => (snd b <= snd a)%nat) (insert_desc x l).
Proof.
  induction 1 as [|h t Ht IH Hh]; simpl.
  - constructor; constructor.
  - destruct (Nat.ltb_spec (snd x) (snd h)) as [L|L].
    + constructor; [exact IH|].
      rewrite (insert_desc_perm x t). constructor; [lia | exact Hh].
    + constructor; [now constructor|].
      constructor; [exact L|].
      rewrite Forall_forall in *. intros y Hy. specialize (Hh y Hy). lia.
Qed.

Lemma sort_desc_ordered (l : list (K * nat)) :
  StronglySorted (fun a b => (snd b <= snd a)%nat) (sort_desc l).
Proof.
  induction l as [|x l IH]; simpl; [constructor|].
  now apply insert_desc_ordered.
Qed.

Lemma insert_desc_behind_perm (x : K * nat) (l : list (K * nat)) :
  Permutation (insert_desc_behind x l) (x :: l).
Proof.
  induction l as [|h t IH]; simpl; [reflexivity|].
  destruct (snd x <=? snd h)%nat; [|reflexivity].
  rewrite IH. apply perm_swap.
Qed.

Lemma sort_desc_behind_perm (l : list (K * nat)) :
  Permutation (sort_desc_behind l) l.
Proof.
  induction l as [|x l IH]; simpl; [reflexivity|].
  rewrite insert_desc_behind_perm. now constructor.
Qed.

Lemma insert_desc_behind_ordered (x : K * nat) (l : list (K * nat)) :
  StronglySorted (fun a b => (snd b <= snd a)%nat) l ->
  StronglySorted (fun a b => (snd b <= snd a)%nat) (insert_desc_behind x l).
Proof.
  induction 1 as [|h t Ht IH Hh]; simpl.
  - constructor; constructor.
  - destruct (Nat.leb_spec (snd x) (snd h)) as [L|L].
    + constructor; [exact IH|].
      rewrite (insert_desc_behind_perm x t). constructor; [lia | exact Hh].
    + constructor; [now constructor|].
      constructor; [lia|].
      rewrite Forall_forall in *. intros y Hy. specialize (Hh y Hy). lia.
Qed.

Lemma sort_desc_behind_ordered (l : list (K * nat)) :
  StronglySorted (fun a b => (snd b <= snd a)%nat) (sort_desc_behind l).
Proof.
  induction l as [|x l IH]; simpl; [constructor|].
  now apply insert_desc_behind_ordered.
Qed.

End SortByCount.

(** Two installations that meet what is settled about [value_counts]: one
    keeps equal counts in the order the values are first met and groups on
    every declared category, the other turns equal counts round and groups
    on the observed categories only. *)
Definition first_seen_installation : Installation :=
  {| observed_default := false;
     sort_values := @sort_desc;
     sort_values_perm := sort_desc_perm;
     sort_values_desc := sort_desc_ordered |}.

Definition last_seen_installation : Installation :=
  {| observed_default := true;
     sort_values := @sort_desc_behind;
     sort_values_perm := sort_desc_behind_perm;
     sort_values_desc := sort_desc_behind_ordered |}.

Section Tally.

Context {pd : Installation}.

Variable K : Type.
Variable eqb : K -> K -> bool.
Hypothesis eqb_spec : forall a b, eqb a b = true <-> a = b.

Lemma value_counts_perm (s : list (option K)) :
  Permutation (value_counts eqb s) (tally eqb s).
Proof. apply sort_values_perm. Qed.

Lemma value_counts_ordered (s : list (option K)) :
  StronglySorted (fun a b => (snd b <= snd a)%nat) (value_counts eqb s).
Proof. apply sort_values_desc. Qed.

Lemma value_counts_nil (s : list (option K)) :
  dropna s = [] -> value_counts eqb s = [].
Proof.
  intros E. apply Permutation_nil. apply Permutation_sym.
  rewrite value_counts_perm. unfold tally. rewrite E. reflexivity.
Qed.

Lemma count_cons (k x : K) (l : list K) :
  count eqb k (x :: l) = ((if eqb k x then 1 else 0) + count eqb k l)%nat.
Proof. unfold count. simpl. destruct (eqb k x); reflexivity. Qed.

Lemma count_pos (k : K) (l : list K) : In k l -> (1 <= count eqb k l)%nat.
Proof.
  induction l as [|x l IH]; [contradiction|].
  rewrite count_cons. intros [->|H].
  - rewrite (eqb_refl eqb eqb_spec). lia.
  - specialize (IH H). lia.
Qed.

Lemma In_tally (s : list (option K)) (k : K) (c : nat) :
  In (k, c) (tally eqb s) <-> In (Some k) s /\ c = count eqb k (dropna s).
Proof.
  unfold tally. rewrite in_map_iff. split.
  - intros [k' [E H]]. injection E as -> <-.
    apply -> (In_unique eqb eqb_spec) in H. apply (proj1 (In_dropna k s)) in H. auto.
  - intros [H ->]. exists k. split; [reflexivity|].
    apply (In_unique eqb eqb_spec), In_dropna, H.
Qed.

Lemma tally_keys (s : list (option K)) :
  map fst (tally eqb s) = unique eqb (dropna s).
Proof.
  unfold tally. rewrite map_map. cbn [fst]. apply map_id.
Qed.

Lemma hits_absent (x : K) (u : list K) :
  ~ In x u -> fold_right Nat.add O (map (fun k => if eqb k x then 1 else 0)%nat u) = O.
Proof.
  induction u as [|k u IH]; simpl; intros H; [reflexivity|].
  destruct (eqb k x) eqn:E.
  - apply eqb_spec in E. subst. exfalso. apply H. now left.
  - apply IH. intros I. apply H. now right.
Qed.

Lemma hits_at_most_one (x : K) (u : list K) :
  NoDup u ->
  (fold_right Nat.add O (map (fun k => if eqb k x then 1 else 0)%nat u) <= 1)%nat.
Proof.
  induction 1 as [|k u Hk Hu IH]; simpl; [lia|].
  destruct (eqb k x) eqn:E; [|exact IH].
  apply eqb_spec in E. subst. rewrite hits_absent by exact Hk. lia.
Qed.

(** Distinct keys cannot count more cells than the column has. *)
Lemma counts_bounded (u : list K) (l : list K) :
  NoDup u ->
  (fold_right Nat.add O (map (fun k => count eqb k l) u) <= List.length l)%nat.
Proof.
  intros N. induction l as [|x l IH]; simpl.
  - induction u as [|k u IHu]; simpl; [lia|].
    inversion N; subst. unfold count at 1. simpl. now apply IHu.
  - assert (fold_right Nat.add O (map (fun k => count eqb k (x :: l)) u)
            = (fold_right Nat.add O (map (fun k => if eqb k x then 1 else 0) u)
               + fold_right Nat.add O (map (fun k => count eqb k l) u))%nat) as E.
    { clear. induction u as [|k u IHu]; simpl; [reflexivity|].
      rewrite IHu, count_cons. lia. }
    rewrite E. pose proof (@hits_at_most_one x u N). lia.
Qed.

End Tally.
Section TopN.

Context {pd : Installation}.

Variable K : Type.
Variable eqb : K -> K -> bool.
Hypothesis eqb_spec : forall a b, eqb a b = true <-> a = b.

Variable s : list (option K).
Variable n : nat.

Lemma In_head {A : Type} (a : A) (m : nat) (l : list A) :
  In a (head m l) -> In a l.
Proof.
  unfold head. intros H. rewrite <- (firstn_skipn m l).
  apply in_or_app. now left.
Qed.

Lemma NoDup_head {A : Type} (m : nat) (l : list A) :
  NoDup l -> NoDup (head m l).
Proof.
  unfold head. intros H. rewrite <- (firstn_skipn m l) in H.
  now apply NoDup_app_remove_r in H.
Qed.

Lemma top_n_entries (k : K) (c : nat) :
  In (k, c) (head n (value_counts eqb s)) ->
  In (Some k) s /\ c = count eqb k (dropna s) /\ (1 <= c)%nat.
Proof.
  intros H. apply In_head in H.
  apply (Permutation_in _ (value_counts_perm eqb s)) in H.
  apply (In_tally eqb eqb_spec) in H. destruct H as [H ->].
  split; [exact H|]. split; [reflexivity|].
  apply (count_pos eqb eqb_spec), In_dropna, H.
Qed.

Lemma top_n_keys_distinct : NoDup (map fst (head n (value_counts eqb s))).
Proof.
  unfold head. rewrite <- firstn_map. apply NoDup_head.
  apply (Permutation_NoDup (l := unique eqb (dropna s))).
  - rewrite <- tally_keys. apply Permutation_map, Permutation_sym.
    apply value_counts_perm.
  - apply (NoDup_unique eqb eqb_spec).
Qed.

Lemma top_n_length : (List.length (head n (value_counts eqb s)) <= n)%nat.
Proof. unfold head. apply firstn_le_length. Qed.

Lemma top_n_sorted :
  StronglySorted (fun a b => (snd b <= snd a)%nat)
                 (head n (value_counts eqb s)).
Proof.
  apply StronglySorted_firstn, value_counts_ordered.
Qed.

Lemma top_n_total :
  (total_count (head n (value_counts eqb s)) <= List.length (dropna s))%nat.
Proof.
  unfold total_count.
  assert (map snd (head n (value_counts eqb s))
          = map (fun k => count eqb k (dropna s))
                (map fst (head n (value_counts eqb s)))) as E.
  { rewrite map_map. apply map_ext_in. intros [k c] H.
    apply top_n_entries in H. cbn [fst snd]. tauto. }
  rewrite E. apply (counts_bounded eqb eqb_spec), top_n_keys_distinct.
Qed.

Lemma top_n_most_frequent (a b : K * nat) :
  In a (head n (value_counts eqb s)) ->
  In b (value_counts eqb s) ->
  ~ In b (head n (value_counts eqb s)) ->
  (snd b <= snd a)%nat.
Proof.
  intros Ha Hb Hn. unfold head in *.
  pose proof (value_counts_ordered eqb s) as S.
  rewrite <- (firstn_skipn n (value_counts eqb s)) in S, Hb.
  apply in_app_or in Hb. destruct Hb as [Hb|Hb]; [contradiction|].
  eapply (StronglySorted_app_inv (R := fun a b : K * nat => (snd b <= snd a)%nat));
    eauto.
Qed.

End TopN.

(** *** Every value is counted *)

Section Exact.

Variable K : Type.
Variable eqb : K -> K -> bool.
Hypothesis eqb_spec : forall a b, eqb a b = true <-> a = b.
Context {pd : Installation}.

Lemma hits_exactly_one (x : K) (u : list K) :
  NoDup u -> In x u ->
  fold_right Nat.add O (map (fun k => if eqb k x then 1 else 0)%nat u) = 1%nat.
Proof.
  induction 1 as [|k u Hk Hu IH]; [contradiction|]. simpl. intros [->|H].
  - rewrite (eqb_refl eqb eqb_spec), (hits_absent eqb eqb_spec) by exact Hk.
    reflexivity.
  - destruct (eqb k x) eqn:E.
    + apply eqb_spec in E. subst. contradiction.
    + now apply IH.
Qed.

Lemma counts_exact (u l : list K) :
  NoDup u -> (forall x, In x l -> In x u) ->
  fold_right Nat.add O (map (fun k => count eqb k l) u) = List.length l.
Proof.
  intros N. induction l as [|x l IH]; intros S.
  - clear. induction u as [|k u IHu]; simpl; [reflexivity | exact IHu].
  - assert (fold_right Nat.add O (map (fun k => count eqb k (x :: l)) u)
            = (fold_right Nat.add O (map (fun k => if eqb k x then 1 else 0) u)
               + fold_right Nat.add O (map (fun k => count eqb k l) u))%nat) as E.
    { clear. induction u as [|k u IHu]; simpl; [reflexivity|].
      rewrite IHu, count_cons. lia. }
    rewrite E, IH by (intros y Hy; apply S; now right).
    rewrite hits_exactly_one; [reflexivity | exact N | apply S; now left].
Qed.

Lemma total_count_perm (a b : list (K * nat)) :
  Permutation a b -> total_count a = total_count b.
Proof.
  unfold total_count. induction 1; simpl; lia.
Qed.

Lemma value_counts_total (s : list (option K)) :
  total_count (value_counts eqb s) = List.length (dropna s).
Proof.
  rewrite (total_count_perm (value_counts_perm eqb s)).
  unfold total_count, tally. rewrite map_map. cbn [snd].
  apply counts_exact.
  - apply (NoDup_unique eqb eqb_spec).
  - intros x Hx. now apply (In_unique eqb eqb_spec).
Qed.

Lemma value_counts_keys (s : list (option K)) :
  NoDup (map fst (value_counts eqb s)) /\
  (forall k, In k (map fst (value_counts eqb s)) <-> In (Some k) s).
Proof.
  assert (Permutation (map fst (value_counts eqb s)) (unique eqb (dropna s))) as P.
  { rewrite <- tally_keys. apply Permutation_map, value_counts_perm. }
  split.
  - apply (Permutation_NoDup (Permutation_sym P)), (NoDup_unique eqb eqb_spec).
  - intros k. split; intros H.
    + apply (Permutation_in _ P) in H.
      apply -> (In_unique eqb eqb_spec) in H.
      now apply (proj1 (In_dropna k s)).
    + apply (Permutation_in _ (Permutation_sym P)).
      apply (In_unique eqb eqb_spec). now apply In_dropna.
Qed.

Lemma unique_length_le (l : list K) :
  (List.length (unique eqb l) <= List.length l)%nat.
Proof.
  induction l as [|x l IH]; simpl; [lia|].
  pose proof (filter_length_le (fun y => negb (eqb x y)) (unique eqb l)). lia.
Qed.

Lemma dropna_length_le {A : Type} (s : list (option A)) :
  (List.length (dropna s) <= List.length s)%nat.
Proof.
  induction s as [|[a|] s IH]; simpl; lia.
Qed.

Lemma nunique_le_length (s : list (option K)) :
  (nunique eqb s <= List.length s)%nat.
Proof.
  unfold nunique. pose proof (unique_length_le (dropna s)).
  pose proof (dropna_length_le s). lia.
Qed.

Lemma nunique_incl (s s' : list (option K)) :
  (forall k, In (Some k) s -> In (Some k) s') ->
  (nunique eqb s <= nunique eqb s')%nat.
Proof.
  intros H. unfold nunique. apply NoDup_incl_length.
  - apply (NoDup_unique eqb eqb_spec).
  - intros k Hk. apply -> (In_unique eqb eqb_spec) in Hk.
    apply (proj1 (In_dropna k s)) in Hk.
    apply (In_unique eqb eqb_spec), In_dropna, H, Hk.
Qed.

Lemma filter_out_one (o : K) (u : list K) :
  NoDup u -> In o u ->
  S (List.length (filter (fun y => negb (eqb o y)) u)) = List.length u.
Proof.
  induction 1 as [|k u Hk Hu IH]; [contradiction|]. simpl. intros [->|H].
  - rewrite (eqb_refl eqb eqb_spec). cbn [negb]. f_equal.
    f_equal. apply filter_all. intros y Hy. apply negb_true_iff.
    apply (eqb_false eqb eqb_spec). intros ->. contradiction.
  - destruct (eqb o k) eqn:E.
    + apply eqb_spec in E. subst. contradiction.
    + cbn [negb]. simpl. f_equal. now apply IH.
Qed.

Lemma nunique_repeat (o : K) (s : list (option K)) :
  In (Some o) s -> nunique eqb (Some o :: s) = nunique eqb s.
Proof.
  intros H. unfold nunique. cbn [dropna unique List.length].
  apply filter_out_one.
  - apply (NoDup_unique eqb eqb_spec).
  - apply (In_unique eqb eqb_spec), In_dropna, H.
Qed.

Lemma nunique_pos (o : K) (s : list (option K)) :
  In (Some o) s -> (1 <= nunique eqb s)%nat.
Proof.
  intros H. unfold nunique.
  assert (In o (unique eqb (dropna s))) as I
      by (apply (In_unique eqb eqb_spec), In_dropna, H).
  destruct (unique eqb (dropna s)); [contradiction | simpl; lia].
Qed.

End Exact.

Lemma value_counts_length (pd : Installation) {K : Type} (eqb : K -> K -> bool)
  (s : list (option K)) :
  List.length (value_counts eqb s) = nunique eqb s.
Proof.
  rewrite (Permutation_length (value_counts_perm eqb s)).
  unfold tally, nunique. apply length_map.
Qed.

Lemma top_length (pd : Installation) {K : Type} (eqb : K -> K -> bool)
  (s : list (option K)) (n : nat) :
  List.length (head n (value_counts eqb s)) = Nat.min n (nunique eqb s).
Proof.
  unfold head. rewrite length_firstn, value_counts_length. reflexivity.
Qed.

(** C6 fails on the code: the script does not fix the order of equal
    counts, and an installation that turns them round lists "b" before "a"
    for a column in which "a" is met first. *)
Lemma ties_need_not_follow_first_appearance :
  ~ (forall (pd : Installation) (s : list (option string)) (n i j : nat)
            (a b : string * nat),
        (i < j)%nat ->
        nth_error (head n (value_counts String.eqb s)) i = Some a ->
        nth_error (head n (value_counts String.eqb s)) j = Some b ->
        snd a = snd b ->
        (first_index String.eqb (fst a) s
         < first_index String.eqb (fst b) s)%nat).
Proof.
  intros H.
  specialize (H last_seen_installation [Some "a"; Some "b"] 10%nat
                0%nat 1%nat ("b", 1%nat) ("a", 1%nat)).
  vm_compute in H.
  specialize (H (le_n 1) eq_refl eq_refl eq_refl).
  inversion H.
Qed.

(** C6, amended.  Whatever the installed pandas, the Top-N table of a
    column holds only values that occur in the column (nulls are never
    keys), each with the number of cells holding it; it has at most N rows
    with distinct values; a row never has a smaller count than a later row;
    the counts add up to no more than the number of non-null cells; and no
    value left out is more frequent than one kept.  Before the cut every
    value of the column has its row, and the cut keeps N rows, or all of
    them when there are fewer.  The order of rows with equal counts, and
    which of them make the cut, is not fixed. *)
Theorem top_n_frequency (pd : Installation) (s : list (option string)) (n : nat) :
  let result := head n (value_counts String.eqb s) in
  (forall k c, In (k, c) result ->
               In (Some k) s /\
               c = count String.eqb k (dropna s) /\ (1 <= c)%nat) /\
  NoDup (map fst result) /\
  (List.length result <= n)%nat /\
  (forall i j a b,
      (i < j)%nat ->
      nth_error result i = Some a ->
      nth_error result j = Some b ->
      (snd b <= snd a)%nat) /\
  (total_count result <= List.length (dropna s))%nat /\
  (forall a b, In a result ->
               In b (value_counts String.eqb s) ->
               ~ In b result ->
               (snd b <= snd a)%nat) /\
  (forall k, In (Some k) s <-> In k (map fst (value_counts String.eqb s))) /\
  List.length result = Nat.min n (nunique String.eqb s) /\
  (forall df : DataFrame,
      top10_product_categories df
      = Ok (head 10 (value_counts String.eqb
                       (map product_category_name (rows df))), df) /\
      top10_seller_cities df
      = Ok (head 10 (value_counts String.eqb (map seller_city (rows df))), df)).
Proof.
  intros result. unfold result.
  split; [intros k c; apply (top_n_entries String.eqb String.eqb_eq)|].
  split; [apply (top_n_keys_distinct String.eqb String.eqb_eq)|].
  split; [apply top_n_length|].
  split.
  { intros i j a b Hij Ha Hb.
    exact (StronglySorted_nth (top_n_sorted String.eqb s n) Hij Ha Hb). }
  split; [apply (top_n_total String.eqb String.eqb_eq)|].
  split; [intros a b; apply (top_n_most_frequent String.eqb)|].
  split.
  { intros k. symmetry. apply (value_counts_keys String.eqb String.eqb_eq). }
  split; [apply top_length|].
  intros df. split; reflexivity.
Qed.

(** ** Groups and joins *)

Section Groups.

Variable K : Type.
Variable eqb : K -> K -> bool.
Hypothesis eqb_spec : forall a b, eqb a b = true <-> a = b.
Variable leb : K -> K -> bool.

Lemma insert_key_perm (x : K) (l : list K) :
  Permutation (insert_key leb x l) (x :: l).
Proof.
  induction l as [|h t IH]; simpl; [reflexivity|].
  destruct (leb x h); [reflexivity|].
  rewrite IH. apply perm_swap.
Qed.

Lemma sort_keys_perm (l : list K) : Permutation (sort_keys leb l) l.
Proof.
  induction l as [|x l IH]; simpl; [reflexivity|].
  rewrite insert_key_perm. now constructor.
Qed.

Variable R : Type.
Variable key : R -> option K.
Variable table : list R.

Lemma groupby_keys :
  map fst (groupby eqb leb key table)
  = sort_keys leb (unique eqb (dropna (map key table))).
Proof.
  unfold groupby. rewrite map_map. cbn [fst]. apply map_id.
Qed.

Lemma groupby_keys_distinct : NoDup (map fst (groupby eqb leb key table)).
Proof.
  rewrite groupby_keys.
  apply (Permutation_NoDup (l := unique eqb (dropna (map key table)))).
  - apply Permutation_sym, sort_keys_perm.
  - apply (NoDup_unique eqb eqb_spec).
Qed.

Lemma In_group_key (k : K) :
  In k (map fst (groupby eqb leb key table))
  <-> exists r, In r table /\ key r = Some k.
Proof.
  rewrite groupby_keys. split.
  - intros H. apply (Permutation_in _ (sort_keys_perm _)) in H.
    apply -> (In_unique eqb eqb_spec) in H.
    apply (proj1 (In_dropna k (map key table))) in H.
    apply in_map_iff in H. destruct H as [r [E H]]. now exists r.
  - intros [r [H E]].
    apply (Permutation_in _ (Permutation_sym (sort_keys_perm _))).
    apply (In_unique eqb eqb_spec), In_dropna.
    rewrite <- E. now apply in_map.
Qed.

Lemma In_groupby (k : K) (g : list R) :
  In (k, g) (groupby eqb leb key table)
  <-> (exists r, In r table /\ key r = Some k) /\
      g = filter (fun r => eqb_option eqb (key r) (Some k)) table.
Proof.
  split.
  - intros H. split.
    + apply In_group_key. change k with (fst (k, g)). now apply in_map.
    + unfold groupby in H. apply in_map_iff in H.
      destruct H as [k' [E _]]. injection E as -> <-. reflexivity.
  - intros [H ->]. apply In_group_key in H. rewrite groupby_keys in H.
    unfold groupby. apply in_map_iff. exists k. split; [reflexivity | exact H].
Qed.

Lemma In_group (k : K) (r : R) :
  In r (filter (fun r => eqb_option eqb (key r) (Some k)) table)
  <-> In r table /\ key r = Some k.
Proof.
  rewrite filter_In, (eqb_option_spec eqb eqb_spec). tauto.
Qed.

(** Every group has a row. *)
Lemma group_inhabited (k : K) (g : list R) :
  In (k, g) (groupby eqb leb key table) ->
  exists r, In r g /\ In r table /\ key r = Some k.
Proof.
  intros H. apply In_groupby in H. destruct H as [[r [Hr E]] ->].
  exists r. split; [|now split]. apply In_group. now split.
Qed.

Lemma In_aggregate {B : Type} (f : list R -> B) (k : K) (b : B) :
  In (k, b) (map (fun g => (fst g, f (snd g))) (groupby eqb leb key table))
  <-> (exists r, In r table /\ key r = Some k) /\
      b = f (filter (fun r => eqb_option eqb (key r) (Some k)) table).
Proof.
  rewrite in_map_iff. split.
  - intros [[k' g] [E H]]. cbn [fst snd] in E. injection E as -> <-.
    apply In_groupby in H. destruct H as [H ->]. now split.
  - intros [H ->].
    exists (k, filter (fun r => eqb_option eqb (key r) (Some k)) table).
    split; [reflexivity|]. apply In_groupby. now split.
Qed.

Lemma aggregate_keys {B : Type} (f : list R -> B) :
  map fst (map (fun g => (fst g, f (snd g))) (groupby eqb leb key table))
  = map fst (groupby eqb leb key table).
Proof. rewrite map_map. reflexivity. Qed.

End Groups.

Section Merge.

Variable K : Type.
Variable eqb : K -> K -> bool.
Hypothesis eqb_spec : forall a b, eqb a b = true <-> a = b.

Variables A B : Type.

Lemma In_merge (l : list (K * A)) (r : list (K * B)) (k : K) (a : A) (b : B) :
  In (k, (a, b)) (merge eqb l r) <-> In (k, a) l /\ In (k, b) r.
Proof.
  unfold merge. rewrite in_flat_map. split.
  - intros [[k1 a1] [Hl H]]. apply in_map_iff in H.
    destruct H as [[k2 b2] [E H]]. apply filter_In in H.
    destruct H as [Hr Hk]. cbn [fst snd] in *.
    apply eqb_spec in Hk. injection E as -> -> ->. subst. now split.
  - intros [Hl Hr]. exists (k, a). split; [exact Hl|].
    apply in_map_iff. exists (k, b). split; [reflexivity|].
    apply filter_In. split; [exact Hr|]. cbn [fst]. now apply eqb_spec.
Qed.

Lemma filter_key_unique (r : list (K * B)) (k : K) (b : B) :
  NoDup (map fst r) -> In (k, b) r ->
  filter (fun kb => eqb k (fst kb)) r = [(k, b)].
Proof.
  induction r as [|[k' b'] r IH]; [contradiction|].
  cbn [map fst filter]. intros N H. inversion N as [|? ? Hk Hr]; subst.
  destruct H as [E|H].
  - injection E as -> ->. rewrite (eqb_refl eqb eqb_spec). f_equal.
    apply filter_none. intros [k2 b2] H2. cbn [fst].
    apply (eqb_false eqb eqb_spec). intros ->. apply Hk.
    change k2 with (fst (k2, b2)). now apply in_map.
  - destruct (eqb k k') eqn:E.
    + apply eqb_spec in E. subst k'. exfalso. apply Hk.
      change k with (fst (k, b)). now apply in_map.
    + now apply IH.
Qed.

(** Joining two tables that have the same distinct keys keeps one row per
    key, in the order of the left table. *)
Lemma merge_keys (l : list (K * A)) (r : list (K * B)) :
  NoDup (map fst r) ->
  (forall k, In k (map fst l) -> In k (map fst r)) ->
  map fst (merge eqb l r) = map fst l.
Proof.
  intros N. induction l as [|[k a] l IH]; intros S; [reflexivity|].
  unfold merge. cbn [flat_map map fst snd]. fold (merge eqb l r).
  assert (In k (map fst r)) as Hk by (apply S; now left).
  apply in_map_iff in Hk. destruct Hk as [[k' b] [E Hk]].
  cbn [fst] in E. subst k'.
  rewrite (filter_key_unique r k b N Hk). cbn [map app fst].
  f_equal. apply IH. intros k2 H2. apply S. now right.
Qed.

End Merge.

Lemma pair_eqb_spec (a b : string * string) : pair_eqb a b = true <-> a = b.
Proof.
  destruct a as [a1 a2], b as [b1 b2]. unfold pair_eqb. cbn [fst snd].
  rewrite andb_true_iff, !String.eqb_eq. split.
  - intros [-> ->]. reflexivity.
  - intros E. injection E as -> ->. now split.
Qed.

(** ** Reductions *)

Lemma mean_null (s : list (option Z)) :
  mean s = None <-> forall z, ~ In (Some z) s.
Proof.
  unfold mean. destruct (dropna s) as [|x xs] eqn:E; split; intros H.
  - intros z Hz. apply In_dropna in Hz. rewrite E in Hz. contradiction.
  - reflexivity.
  - discriminate.
  - exfalso. apply (H x). apply In_dropna. rewrite E. now left.
Qed.

Lemma mean_value (s : list (option Z)) (q : Q) :
  mean s = Some q ->
  (0 < List.length (dropna s))%nat /\
  q = (sumZ (dropna s) # Pos.of_nat (List.length (dropna s)))%Q.
Proof.
  unfold mean. destruct (dropna s) as [|x xs]; [discriminate|].
  intros H. injection H as <-. split; [simpl; lia | reflexivity].
Qed.

Lemma fold_max_In (x : Z) (xs : list Z) :
  In (fold_right Z.max x xs) (x :: xs).
Proof.
  induction xs as [|y xs IH]; simpl; [now left|].
  destruct (Z.max_spec y (fold_right Z.max x xs)) as [[_ ->]|[_ ->]].
  - simpl in IH. tauto.
  - right. now left.
Qed.

Lemma max_attained (s : list (option Z)) (m : Z) :
  max s = Some m -> In (Some m) s.
Proof.
  unfold max. destruct (dropna s) as [|x xs] eqn:E; [discriminate|].
  intros H. injection H as <-. apply In_dropna. rewrite E.
  apply fold_max_In.
Qed.

Lemma max_null (s : list (option Z)) :
  max s = None <-> forall z, ~ In (Some z) s.
Proof.
  unfold max. destruct (dropna s) as [|x xs] eqn:E; split; intros H.
  - intros z Hz. apply In_dropna in Hz. rewrite E in Hz. contradiction.
  - reflexivity.
  - discriminate.
  - exfalso. apply (H x). apply In_dropna. rewrite E. now left.
Qed.

Lemma fold_max_upper (x : Z) (xs : list Z) (y : Z) :
  In y (x :: xs) -> y <= fold_right Z.max x xs.
Proof.
  induction xs as [|z xs IH]; simpl.
  - intros [<-|[]]. lia.
  - intros [<-|[<-|H]].
    + assert (x <= fold_right Z.max x xs) by (apply IH; now left). lia.
    + lia.
    + assert (y <= fold_right Z.max x xs) by (apply IH; now right). lia.
Qed.

Lemma max_upper (s : list (option Z)) (m t : Z) :
  max s = Some m -> In (Some t) s -> t <= m.
Proof.
  unfold max. destruct (dropna s) as [|x xs] eqn:E; [discriminate|].
  intros H Ht. injection H as <-. apply fold_max_upper.
  rewrite <- E. now apply In_dropna.
Qed.

(** ** RFM *)

Section KeyedResults.

Variables G B : Type.
Variable f : G -> result B.
Variable key : G -> string.

Lemma keyed_traverse_ok (gs : list G) (t : list (string * B)) :
  traverse (fun g => bind_result (f g) (fun b => Ok (key g, b))) gs = Ok t
  <-> Forall2 (fun g e => fst e = key g /\ f g = Ok (snd e)) gs t.
Proof.
  rewrite traverse_ok. apply Forall2_iff. intros g [k b]. cbn [fst snd].
  destruct (f g) as [b'|e]; cbn [bind_result]; split.
  - intros H. injection H as <- <-. now split.
  - intros [-> H]. injection H as ->. reflexivity.
  - discriminate.
  - intros [_ H]. discriminate.
Qed.

Lemma keyed_traverse_raises (gs : list G) :
  raises (traverse (fun g => bind_result (f g) (fun b => Ok (key g, b))) gs)
  <-> Exists (fun g => raises (f g)) gs.
Proof.
  rewrite traverse_raises. apply Exists_iff. intros g.
  destruct (f g) as [b|e]; cbn [bind_result]; split; intros [e' H];
    try discriminate; exists e'; congruence.
Qed.

Lemma keyed_keys (gs : list G) (t : list (string * B)) :
  Forall2 (fun g e => fst e = key g /\ f g = Ok (snd e)) gs t ->
  map fst t = map key gs.
Proof.
  induction 1 as [|g e gs t [E _] _ IH]; simpl; [reflexivity|].
  now rewrite E, IH.
Qed.

Lemma keyed_In (gs : list G) (t : list (string * B)) (k : string) (b : B) :
  Forall2 (fun g e => fst e = key g /\ f g = Ok (snd e)) gs t ->
  In (k, b) t -> exists g, In g gs /\ key g = k /\ f g = Ok b.
Proof.
  induction 1 as [|g e gs t [E F] _ IH]; simpl; [contradiction|].
  intros [->|H].
  - exists g. cbn [fst snd] in *. repeat split; [now left | now symmetry | exact F].
  - destruct (IH H) as [g' [A B']]. exists g'. split; [now right | exact B'].
Qed.

Lemma keyed_In_back (gs : list G) (t : list (string * B)) (g : G) :
  Forall2 (fun g e => fst e = key g /\ f g = Ok (snd e)) gs t ->
  In g gs -> exists b, In (key g, b) t /\ f g = Ok b.
Proof.
  induction 1 as [|g' [k b] gs t [E F] _ IH]; simpl; [contradiction|].
  cbn [fst snd] in *. intros [->|H].
  - exists b. subst k. split; [now left | exact F].
  - destruct (IH H) as [b' [A B']]. exists b'. split; [now right | exact B'].
Qed.

End KeyedResults.

Section RFM.

Variable now : Z.
Variable df : DataFrame.

Lemma recency_zip {G : Type} (key : G -> string) (lastf : G -> option Z)
  (gs : list G) :
  match rsub_series now (map lastf gs) with
  | Ok d =>
      Ok (map (fun p => (fst (fst p),
                         {| last_purchase := snd (fst p); Recency := snd p |}))
              (combine (map (fun g => (key g, lastf g)) gs) (dt_days d)))
  | Raise e => Raise e
  end
  = traverse (fun g =>
                bind_result
                  (bind_result (sub_dt (lastf g) (Some now)) (fun d =>
                   Ok {| last_purchase := lastf g;
                         Recency := option_map days (neg_td d) |}))
                  (fun rr => Ok (key g, rr))) gs.
Proof.
  unfold rsub_series, dt_days.
  induction gs as [|g gs IH]; [reflexivity|].
  cbn [map traverse].
  destruct (sub_dt (lastf g) (Some now)) as [d0|e]; cbn [bind_result];
    [|reflexivity].
  destruct (traverse (fun c => sub_dt c (Some now)) (map lastf gs)) as [ds|e];
    cbn [bind_result] in *.
  - rewrite <- IH. reflexivity.
  - rewrite <- IH. reflexivity.
Qed.

Lemma recency_run :
  recency now df
  = match traverse (fun g => bind_result (recency_of now (snd g))
                                         (fun rr => Ok (fst g, rr)))
                   (groupby String.eqb String.leb customer_id (rows df)) with
    | Ok t => Ok (t, df)
    | Raise e => Raise e
    end.
Proof.
  unfold recency_of.
  rewrite <- (recency_zip fst
                (fun g : string * list Row => max (map order_purchase_timestamp (snd g)))).
  unfold recency, bind, frame, lift, ret. rewrite map_map. cbn [snd].
  destruct (rsub_series now _); reflexivity.
Qed.

Lemma rfm_run :
  rfm now df
  = match traverse (fun g => bind_result (recency_of now (snd g))
                                         (fun rr => Ok (fst g, rr)))
                   (groupby String.eqb String.leb customer_id (rows df)) with
    | Ok r =>
        Ok (merge String.eqb
              (merge String.eqb r
                 (map (fun g => (fst g, frequency_of (snd g)))
                      (groupby String.eqb String.leb customer_id (rows df))))
              (map (fun g => (fst g, monetary_of (snd g)))
                   (groupby String.eqb String.leb customer_id (rows df))), df)
    | Raise e => Raise e
    end.
Proof.
  unfold rfm, bind. rewrite recency_run.
  destruct (traverse _ _); reflexivity.
Qed.

Lemma rfm_ok (t : list (string * (RecencyRow * nat * Q))) (df' : DataFrame) :
  rfm now df = Ok (t, df') ->
  df' = df /\
  exists r,
    Forall2 (fun g e => fst e = fst g /\ recency_of now (snd g) = Ok (snd e))
            (groupby String.eqb String.leb customer_id (rows df)) r /\
    t = merge String.eqb
          (merge String.eqb r
             (map (fun g => (fst g, frequency_of (snd g)))
                  (groupby String.eqb String.leb customer_id (rows df))))
          (map (fun g => (fst g, monetary_of (snd g)))
               (groupby String.eqb String.leb customer_id (rows df))).
Proof.
  rewrite rfm_run.
  destruct (traverse _ _) as [r|e] eqn:E; [|discriminate].
  intros H. injection H as <- <-. split; [reflexivity|].
  exists r. split; [|reflexivity].
  now apply (keyed_traverse_ok (fun g : string * list Row => recency_of now (snd g)) fst).
Qed.

Lemma rfm_raises :
  raises (rfm now df)
  <-> Exists (fun g => raises (recency_of now (snd g)))
             (groupby String.eqb String.leb customer_id (rows df)).
Proof.
  rewrite rfm_run,
    <- (keyed_traverse_raises (fun g : string * list Row => recency_of now (snd g)) fst).
  destruct (traverse _ _) as [r|e]; split; intros [e' H];
    try discriminate; exists e'; congruence.
Qed.

Lemma rfm_keys (t : list (string * (RecencyRow * nat * Q))) (df' : DataFrame) :
  rfm now df = Ok (t, df') ->
  map fst t = map fst (groupby String.eqb String.leb customer_id (rows df)).
Proof.
  intros H. apply rfm_ok in H. destruct H as [_ [r [F ->]]].
  apply keyed_keys in F.
  assert (NoDup (map fst (groupby String.eqb String.leb customer_id (rows df))))
    as N by apply (groupby_keys_distinct String.eqb String.eqb_eq).
  rewrite (merge_keys String.eqb String.eqb_eq).
  - rewrite (merge_keys String.eqb String.eqb_eq).
    + exact F.
    + rewrite aggregate_keys. exact N.
    + intros k. now rewrite F, aggregate_keys.
  - rewrite aggregate_keys. exact N.
  - intros k. rewrite (merge_keys String.eqb String.eqb_eq).
    + now rewrite F, aggregate_keys.
    + rewrite aggregate_keys. exact N.
    + intros k'. now rewrite F, aggregate_keys.
Qed.

Lemma In_rfm (t : list (string * (RecencyRow * nat * Q))) (df' : DataFrame)
  (c : string) (rr : RecencyRow) (f : nat) (m : Q) :
  rfm now df = Ok (t, df') ->
  In (c, (rr, f, m)) t ->
  recency_of now (rows_of (rows df) c) = Ok rr /\
  f = frequency_of (rows_of (rows df) c) /\
  m = monetary_of (rows_of (rows df) c).
Proof.
  intros H. apply rfm_ok in H. destruct H as [_ [r [F ->]]]. intros H.
  apply (In_merge String.eqb String.eqb_eq) in H. destruct H as [H Hm].
  apply (In_merge String.eqb String.eqb_eq) in H. destruct H as [Hr Hf].
  apply (In_aggregate String.eqb String.eqb_eq) in Hf, Hm.
  split; [|unfold rows_of; tauto].
  destruct (@keyed_In _ _ (fun g : string * list Row => recency_of now (snd g)) fst
              _ _ _ _ F Hr) as [[k g] [Hg [E R]]]. cbn [fst snd] in *. subst k.
  apply (In_groupby String.eqb String.eqb_eq) in Hg. destruct Hg as [_ ->].
  exact R.
Qed.

Lemma rfm_has (t : list (string * (RecencyRow * nat * Q))) (df' : DataFrame)
  (c : string) :
  rfm now df = Ok (t, df') ->
  (exists r, In r (rows df) /\ customer_id r = Some c) ->
  exists rr f m, In (c, (rr, f, m)) t.
Proof.
  intros H Hc. pose proof (rfm_keys H) as KEYS.
  apply (In_group_key String.eqb String.eqb_eq String.leb) in Hc.
  rewrite <- KEYS in Hc. apply in_map_iff in Hc.
  destruct Hc as [[c' [[rr f] m]] [E Hin]]. cbn [fst] in E. subst c'.
  now exists rr, f, m.
Qed.

End RFM.

(** *** The latest purchase of a customer *)

Lemma In_rows_of (l : list Row) (c : string) (r : Row) :
  In r (rows_of l c) <-> In r l /\ customer_id r = Some c.
Proof.
  unfold rows_of. rewrite filter_In, (eqb_option_spec String.eqb String.eqb_eq).
  tauto.
Qed.

Lemma latest_is_max (l : list Row) (c : string) (last : Z) :
  latest_purchase l c last
  <-> max (map order_purchase_timestamp (rows_of l c)) = Some last.
Proof.
  split.
  - intros [[r [Hr [Hc Ht]]] U].
    destruct (max (map order_purchase_timestamp (rows_of l c))) as [m|] eqn:E.
    + f_equal. apply Z.le_antisymm.
      * apply max_attained in E. apply in_map_iff in E.
        destruct E as [r' [E' Hr']]. apply In_rows_of in Hr'.
        apply (U r' m); tauto.
      * eapply max_upper; [exact E|]. rewrite <- Ht. apply in_map.
        apply In_rows_of. now split.
    + exfalso. pose proof (proj1 (max_null _) E) as E'. apply (E' last). rewrite <- Ht.
      apply in_map, In_rows_of. now split.
  - intros E. split.
    + apply max_attained in E. apply in_map_iff in E.
      destruct E as [r [Ht Hr]]. apply In_rows_of in Hr. exists r. tauto.
    + intros r t Hr Hc Ht. eapply max_upper; [exact E|]. rewrite <- Ht.
      apply in_map, In_rows_of. now split.
Qed.

Lemma no_purchase_is_null (l : list Row) (c : string) :
  no_purchase l c
  <-> max (map order_purchase_timestamp (rows_of l c)) = None.
Proof.
  rewrite max_null. split.
  - intros N t Ht. apply in_map_iff in Ht. destruct Ht as [r [E Hr]].
    apply In_rows_of in Hr. rewrite (N r) in E by tauto. discriminate.
  - intros N r Hr Hc. destruct (order_purchase_timestamp r) as [t|] eqn:E;
      [|reflexivity].
    exfalso. apply (N t). rewrite <- E. apply in_map, In_rows_of. now split.
Qed.

Lemma sub_dt_ok (x y : Z) (d : option Z) :
  sub_dt (Some x) (Some y) = Ok d
  <-> INT64_MIN <= x - y <= INT64_MAX /\
      d = (if x - y =? INT64_MIN then None else Some (x - y)).
Proof.
  unfold sub_dt, checked_add, of_i8. rewrite Z.add_opp_r.
  destruct (in_int64 (x - y)) eqn:R; cbn [bind_result]; split.
  - intros H. injection H as <-. split; [now apply in_int64_spec | reflexivity].
  - intros [_ ->]. reflexivity.
  - discriminate.
  - intros [H _]. apply in_int64_spec in H. congruence.
Qed.

Lemma recency_of_latest (now : Z) (l : list Row) (c : string) (last : Z)
  (rr : RecencyRow) :
  latest_purchase l c last ->
  recency_of now (rows_of l c) = Ok rr ->
  last_purchase rr = Some last /\
  INT64_MIN <= last - now <= INT64_MAX /\
  (last - now = INT64_MIN -> Recency rr = None) /\
  (last - now <> INT64_MIN -> Recency rr = Some (days (now - last))).
Proof.
  intros L. apply latest_is_max in L. unfold recency_of. rewrite L.
  destruct (sub_dt (Some last) (Some now)) as [d|e] eqn:E; [|discriminate].
  cbn [bind_result]. intros H. injection H as <-.
  apply sub_dt_ok in E. destruct E as [R ->]. cbn [last_purchase Recency].
  split; [reflexivity|]. split; [exact R|].
  destruct (Z.eqb_spec (last - now) INT64_MIN) as [M|M]; split; intros M';
    try contradiction; try reflexivity.
  cbn [neg_td option_map]. do 2 f_equal. lia.
Qed.

Lemma recency_of_no_purchase (now : Z) (l : list Row) (c : string)
  (rr : RecencyRow) :
  no_purchase l c ->
  recency_of now (rows_of l c) = Ok rr ->
  last_purchase rr = None /\ Recency rr = None.
Proof.
  intros N. apply no_purchase_is_null in N. unfold recency_of. rewrite N.
  cbn. intros H. injection H as <-. split; reflexivity.
Qed.

Lemma recency_of_raises (now : Z) (l : list Row) (c : string) :
  raises (recency_of now (rows_of l c))
  <-> exists last, latest_purchase l c last /\
                   ~ (INT64_MIN <= last - now <= INT64_MAX).
Proof.
  unfold recency_of.
  destruct (max (map order_purchase_timestamp (rows_of l c))) as [last|] eqn:E.
  - apply latest_is_max in E.
    destruct (sub_dt (Some last) (Some now)) as [d|e] eqn:S; cbn [bind_result];
      split.
    + intros [e H]. discriminate.
    + intros [last' [L' R]]. apply latest_is_max in E, L'.
      rewrite E in L'. injection L' as <-. apply sub_dt_ok in S. tauto.
    + intros _. exists last. split; [exact E|]. intros R.
      assert (sub_dt (Some last) (Some now)
              = Ok (if last - now =? INT64_MIN then None else Some (last - now)))
        as S' by (apply sub_dt_ok; now split).
      congruence.
    + intros _. now exists e.
  - cbn. split.
    + intros [e H]. discriminate.
    + intros [last [L _]]. apply latest_is_max in L. congruence.
Qed.

Lemma recency_of_error (now : Z) (g : list Row) (e : PyError) :
  recency_of now g = Raise e -> e = OverflowError.
Proof.
  unfold recency_of, sub_dt, checked_add.
  destruct (max (map order_purchase_timestamp g)) as [last|]; cbn [bind_result];
    [|discriminate].
  destruct (in_int64 (last + - now)); cbn [bind_result]; [discriminate|].
  intros H. now injection H.
Qed.

Lemma rfm_error (now : Z) (df : DataFrame) (e : PyError) :
  rfm now df = Raise e -> e = OverflowError.
Proof.
  rewrite rfm_run.
  destruct (traverse _ _) as [r|e'] eqn:E; [discriminate|].
  intros H. injection H as <-.
  eapply traverse_error; [|exact E].
  intros g e'' R. cbn beta in R.
  destruct (recency_of now (snd g)) as [rr|e3] eqn:R'; [discriminate|].
  cbn [bind_result] in R. injection R as <-.
  now apply recency_of_error in R'.
Qed.

Lemma rfm_raises_customer (now : Z) (df : DataFrame) :
  raises (rfm now df)
  <-> exists c last, latest_purchase (rows df) c last /\
                     ~ (INT64_MIN <= last - now <= INT64_MAX).
Proof.
  rewrite rfm_raises, Exists_exists. split.
  - intros [[c g] [Hg R]]. cbn [snd] in R.
    apply (In_groupby String.eqb String.eqb_eq) in Hg. destruct Hg as [_ ->].
    apply recency_of_raises in R. destruct R as [last R]. now exists c, last.
  - intros [c [last [L R]]].
    exists (c, rows_of (rows df) c). cbn [snd]. split.
    + apply (In_groupby String.eqb String.eqb_eq). split; [|reflexivity].
      destruct L as [[r [Hr [Hc _]]] _]. now exists r.
    + apply recency_of_raises. now exists last.
Qed.

(** C8 fails on the code: with the evaluation instant in 2026, a customer
    whose one purchase is stamped 1700 has every purchase before the
    instant, yet the table is not produced at all, since the distance
    between the two does not fit 64 bits of nanoseconds and the subtraction
    of line 295 raises. *)
Lemma recency_overflows_on_distant_purchase :
  ~ (forall (now : Z) (df : DataFrame),
        exists t df',
          rfm now df = Ok (t, df') /\
          forall c rr f m,
            In (c, (rr, f, m)) t ->
            (forall r ts, In r (rows df) -> customer_id r = Some c ->
                          order_purchase_timestamp r = Some ts -> ts <= now) ->
            exists d, Recency rr = Some d /\ 0 <= d).
Proof.
  intros H.
  specialize (H 1780000000000000000
                (fresh [ {| order_id := Some "o1";
                            customer_id := Some "c1";
                            customer_state_y := Some "SP";
                            price := Some (10 # 1);
                            order_purchase_timestamp := Some (-8520336000000000000);
                            order_delivered_carrier_date := None;
                            order_delivered_customer_date := None;
                            order_estimated_delivery_date := None;
                            review_score := None;
                            product_category_name := None;
                            order_status_x := None;
                            payment_type := None;
                            seller_city := None;
                            customer_city_x := None;
                            product_category_name_english := None;
                            geolocation_lat := None;
                            geolocation_lng := None;
                            customer_city_y := None |} ])).
  destruct H as [t [df' [H _]]]. vm_compute in H. discriminate H.
Qed.

(** C8, amended.  With the evaluation instant fixed, the RFM statement
    raises [OverflowError], and nothing else, exactly when the latest
    purchase of some customer is further from the instant than 64 bits of
    nanoseconds hold.  Whenever it returns, the frame is untouched and the
    table has one row per customer of the frame.  Frequency is the number of
    distinct order ids on the customer's rows.  Recency is taken from the
    customer's latest purchase: it is the whole days from that purchase to
    the instant, hence non-negative as soon as none of the customer's
    purchases is later than the instant; it is null for a customer without
    any purchase timestamp, and when the distance is the one 64-bit value
    that reads as a missing duration. *)
Theorem rfm_recency_and_frequency (now : Z) (df : DataFrame) :
  (raises (rfm now df)
   <-> exists c last, latest_purchase (rows df) c last /\
                      ~ (INT64_MIN <= last - now <= INT64_MAX)) /\
  (forall e, rfm now df = Raise e -> e = OverflowError) /\
  (forall t df',
      rfm now df = Ok (t, df') ->
      df' = df /\
      NoDup (map fst t) /\
      (forall c, In c (map fst t)
                 <-> exists r, In r (rows df) /\ customer_id r = Some c) /\
      (forall c rr f m,
          In (c, (rr, f, m)) t ->
          (exists ids,
              NoDup ids /\
              (forall o, In o ids
                         <-> exists r, In r (rows df) /\ customer_id r = Some c /\
                                       order_id r = Some o) /\
              f = List.length ids) /\
          (forall last,
              latest_purchase (rows df) c last ->
              last_purchase rr = Some last /\
              (last - now <> INT64_MIN ->
               Recency rr = Some (days (now - last))) /\
              (last - now = INT64_MIN -> Recency rr = None) /\
              (last <= now -> 0 <= days (now - last))) /\
          (no_purchase (rows df) c ->
           last_purchase rr = None /\ Recency rr = None))).
Proof.
  split; [apply rfm_raises_customer|].
  split; [apply rfm_error|].
  intros t df' H.
  pose proof H as KEYS. apply rfm_keys in KEYS.
  split; [apply rfm_ok in H; tauto|].
  split.
  { rewrite KEYS. apply (groupby_keys_distinct String.eqb String.eqb_eq). }
  split.
  { intros c. rewrite KEYS. apply (In_group_key String.eqb String.eqb_eq). }
  intros c rr f m Hin.
  destruct (@In_rfm _ _ _ _ _ _ _ _ H Hin) as [R [-> _]].
  split.
  { exists (unique String.eqb (dropna (map order_id (rows_of (rows df) c)))).
    split; [apply (NoDup_unique String.eqb String.eqb_eq)|].
    split; [|reflexivity].
    intros o. rewrite (In_unique String.eqb String.eqb_eq), In_dropna, in_map_iff.
    split.
    - intros [r [A B]]. apply In_rows_of in B. exists r. tauto.
    - intros [r [A [B C]]]. exists r. split; [exact C|].
      apply In_rows_of. now split. }
  split.
  { intros last L.
    destruct (@recency_of_latest _ _ _ _ _ L R) as [A [_ [B C]]].
    split; [exact A|]. split; [exact C|]. split; [exact B|].
    intros LE. apply days_nonneg. lia. }
  intros N. exact (@recency_of_no_purchase _ _ _ _ N R).
Qed.

(** ** Whole days across the page *)

Lemma Forall2_nth {A B : Type} (P : A -> B -> Prop) (l : list A) (v : list B)
  (i : nat) (a : A) :
  Forall2 P l v -> nth_error l i = Some a ->
  exists b, nth_error v i = Some b /\ P a b.
Proof.
  intros F. revert i. induction F as [|x y l v p _ IH]; intros [|i] H;
    try discriminate.
  - injection H as <-. now exists y.
  - apply (IH i H).
Qed.

(** C10 fails on the code for arbitrary pairs of timestamps: a delivery in
    2255 against an estimate in 1684, both of them timestamps pandas holds,
    has no delay at all, since their difference does not fit 64 bits of
    nanoseconds and the subtraction of line 388 raises. *)
Lemma distant_timestamps_have_no_day_count :
  ~ (forall df : DataFrame,
        exists df' delay,
          delivery_delay_analysis df = Ok (tt, df') /\
          delivery_delay df' = Some delay /\
          Forall2 (fun r d =>
                     forall delivered estimated,
                       order_delivered_customer_date r = Some delivered ->
                       order_estimated_delivery_date r = Some estimated ->
                       d = Some (days (delivered - estimated)))
                  (rows df) delay).
Proof.
  intros H.
  specialize (H (fresh [ {| order_id := Some "o1";
                            customer_id := Some "c1";
                            customer_state_y := Some "SP";
                            price := None;
                            order_purchase_timestamp := None;
                            order_delivered_carrier_date := None;
                            order_delivered_customer_date := Some 9000000000000000000;
                            order_estimated_delivery_date := Some (-9000000000000000000);
                            review_score := None;
                            product_category_name := None;
                            order_status_x := None;
                            payment_type := None;
                            seller_city := None;
                            customer_city_x := None;
                            product_category_name_english := None;
                            geolocation_lat := None;
                            geolocation_lng := None;
                            customer_city_y := None |} ])).
  destruct H as [df' [delay [H _]]]. vm_compute in H. discriminate H.
Qed.

(** C10, amended.  The day count of a duration is its floor, not its
    truncation, and shipping duration, delivery delay and Recency are all
    taken with it: whenever the statement returns, each cell is the floor of
    the exact difference of its two timestamps, for any pair whose
    difference fits 64 bits of nanoseconds (the smallest 64-bit value reads
    as null); a pair further apart makes the statement raise.  A delivery
    less than 24 hours after the estimate has delay 0 and is "On Time", and
    one 12 hours before the estimate has delay -1. *)
Theorem whole_days_round_down :
  (forall td : Z, NS_PER_DAY * days td <= td < NS_PER_DAY * (days td + 1)) /\
  (forall (x y : Z) (c : option Z),
      days_between (Some x) (Some y) c ->
      x - y <> INT64_MIN ->
      exists d, c = Some d /\
                NS_PER_DAY * d <= x - y < NS_PER_DAY * (d + 1)) /\
  (forall (df : DataFrame) (s : list (option Z)) (df' : DataFrame),
      shipping_duration_distribution df = Ok (s, df') ->
      Forall2 (fun r c => days_between (order_delivered_customer_date r)
                                       (order_delivered_carrier_date r) c)
              (rows df) s) /\
  (forall df df' : DataFrame,
      delivery_delay_analysis df = Ok (tt, df') ->
      exists delay,
        delivery_delay df' = Some delay /\
        Forall2 (fun r c => days_between (order_delivered_customer_date r)
                                         (order_estimated_delivery_date r) c)
                (rows df) delay) /\
  (forall (now : Z) (df : DataFrame) t df',
      rfm now df = Ok (t, df') ->
      forall c last,
        latest_purchase (rows df) c last ->
        exists rr f m,
          In (c, (rr, f, m)) t /\
          INT64_MIN <= last - now <= INT64_MAX /\
          (last - now = INT64_MIN -> Recency rr = None) /\
          (last - now <> INT64_MIN ->
           Recency rr = Some (days (now - last)) /\
           NS_PER_DAY * days (now - last) <= now - last
           < NS_PER_DAY * (days (now - last) + 1))) /\
  (forall df : DataFrame,
      (raises (shipping_duration_distribution df)
       <-> Exists (fun r => overflows (order_delivered_customer_date r)
                                      (order_delivered_carrier_date r))
                  (rows df)) /\
      (raises (delivery_delay_analysis df)
       <-> Exists (fun r => overflows (order_delivered_customer_date r)
                                      (order_estimated_delivery_date r))
                  (rows df)) /\
      (forall now,
          raises (rfm now df)
          <-> exists c last, latest_purchase (rows df) c last /\
                             ~ (INT64_MIN <= last - now <= INT64_MAX))) /\
  (forall (df df' : DataFrame) (i : nat) (r : Row) (delivered estimated : Z),
      delivery_delay_analysis df = Ok (tt, df') ->
      nth_error (rows df) i = Some r ->
      order_delivered_customer_date r = Some delivered ->
      order_estimated_delivery_date r = Some estimated ->
      (estimated <= delivered < estimated + NS_PER_DAY ->
       exists delay cat,
         delivery_delay df' = Some delay /\
         delivery_category df' = Some cat /\
         nth_error delay i = Some (Some 0) /\
         nth_error (cat_values cat) i = Some (Some "On Time")) /\
      (delivered = estimated - 12 * NS_PER_HOUR ->
       exists delay,
         delivery_delay df' = Some delay /\
         nth_error delay i = Some (Some (-1)))).
Proof.
  split; [exact days_floor|].
  split.
  { intros x y c H N. exists (days (x - y)).
    split; [exact (days_between_value H N) | apply days_floor]. }
  split.
  { intros df s df' H. now apply shipping_ok in H. }
  split.
  { intros df df' H. apply analysis_ok in H. destruct H as [d [F ->]].
    exists d. now split. }
  split.
  { intros now df t df' H c last L.
    assert (exists r, In r (rows df) /\ customer_id r = Some c) as Hc.
    { destruct L as [[r [A [B _]]] _]. now exists r. }
    destruct (@rfm_has _ _ _ _ _ H Hc) as [rr [f [m Hin]]].
    exists rr, f, m. split; [exact Hin|].
    destruct (@In_rfm _ _ _ _ _ _ _ _ H Hin) as [R _].
    destruct (@recency_of_latest _ _ _ _ _ L R) as [_ [B [C D]]].
    split; [exact B|]. split; [exact C|].
    intros N. split; [now apply D | apply days_floor]. }
  split.
  { intros df. split; [apply shipping_raises|].
    split; [apply analysis_raises|].
    intros now. apply rfm_raises_customer. }
  intros df df' i r x y H Hi Hx Hy.
  apply analysis_ok in H. destruct H as [d [F ->]].
  cbn [delivery_delay delivery_category].
  destruct (Forall2_nth i F Hi) as [c [Hc D]].
  rewrite Hx, Hy in D.
  split.
  - intros W.
    assert (c = Some 0) as ->.
    { rewrite (days_between_value D) by (unfold INT64_MIN; lia).
      f_equal. apply days_unique. unfold NS_PER_DAY, NS_PER_HOUR in *. lia. }
    eexists. eexists. split; [reflexivity|]. split; [reflexivity|].
    split; [exact Hc|].
    cbn [cat_values]. rewrite nth_error_map, Hc. reflexivity.
  - intros ->.
    assert (c = Some (-1)) as ->.
    { rewrite (days_between_value D)
        by (unfold INT64_MIN, NS_PER_HOUR; lia).
      f_equal. apply days_unique. unfold NS_PER_DAY, NS_PER_HOUR. lia. }
    eexists. split; [reflexivity | exact Hc].
Qed.

(** ** Means by group *)

Lemma combine_map_filter {R C : Type} (f : R -> C) (p : C -> bool) (l : list R) :
  map snd (filter (fun x => p (fst x)) (combine (map f l) l))
  = filter (fun r => p (f r)) l.
Proof.
  induction l as [|r l IH]; simpl; [reflexivity|].
  destruct (p (f r)); simpl; now rewrite IH.
Qed.

Lemma days_between_unique (a b c1 c2 : option Z) :
  days_between a b c1 -> days_between a b c2 -> c1 = c2.
Proof.
  intros H1 H2. apply days_of_ok in H1, H2. congruence.
Qed.

Lemma in_category_spec (k : string) (r : Row) :
  in_category k r = true <-> has_category r k.
Proof.
  unfold in_category, delivery_category_of, delivery_delay_of, has_category.
  destruct (days_of (order_delivered_customer_date r)
                    (order_estimated_delivery_date r)) as [c|e] eqn:E;
    cbn [bind_result].
  - apply days_of_ok in E. destruct c as [d|].
    + rewrite cut_cell_label, (eqb_option_spec String.eqb String.eqb_eq).
      fold (label_of_delay d). split.
      * intros H. injection H as <-. now exists d.
      * intros [d' [D ->]].
        pose proof (@days_between_unique _ _ _ _ E D) as U. now injection U as ->.
    + split; [discriminate|]. intros [d' [D _]].
      pose proof (@days_between_unique _ _ _ _ E D). discriminate.
  - split; [discriminate|]. intros [d [D _]].
    apply days_of_ok in D. congruence.
Qed.

Lemma category_column (l : list Row) (d : list (option Z)) (k : string) :
  traverse delivery_delay_of l = Ok d ->
  map snd (filter (fun p => eqb_option String.eqb (fst p) (Some k))
                  (combine (map (cut_cell bins choices) d) l))
  = filter (in_category k) l.
Proof.
  intros H. apply traverse_ok in H.
  induction H as [|r c l d Hr _ IH]; [reflexivity|].
  cbn [map combine filter fst].
  unfold in_category at 1, delivery_category_of. rewrite Hr. cbn [bind_result].
  destruct (eqb_option String.eqb (cut_cell bins choices c) (Some k));
    cbn [map snd]; now rewrite IH.
Qed.

Lemma category_observed (l : list Row) (d : list (option Z)) (k : string) :
  traverse delivery_delay_of l = Ok d ->
  mem (eqb_option String.eqb) (Some k) (map (cut_cell bins choices) d) = true
  <-> exists r, In r l /\ has_category r k.
Proof.
  intros H. apply traverse_ok in H.
  rewrite (mem_In (eqb_option String.eqb)
             (eqb_option_spec String.eqb String.eqb_eq)).
  induction H as [|r c l d Hr _ IH].
  - split; [intros [] | intros [r [[] _]]].
  - cbn [map In]. rewrite IH. split.
    + intros [E|[r' [A B]]].
      * exists r. split; [now left|]. apply in_category_spec.
        unfold in_category, delivery_category_of. rewrite Hr.
        cbn [bind_result]. rewrite <- E.
        now apply (eqb_option_spec String.eqb String.eqb_eq).
      * exists r'. split; [now right | exact B].
    + intros [r' [[<-|A] B]].
      * left. apply in_category_spec in B.
        unfold in_category, delivery_category_of in B. rewrite Hr in B.
        cbn [bind_result] in B.
        apply (eqb_option_spec String.eqb String.eqb_eq) in B. now symmetry.
      * right. now exists r'.
Qed.

Lemma average_review_scores_by_run (observed : bool) (df df' : DataFrame) :
  delivery_delay_analysis df = Ok (tt, df') ->
  exists d,
    traverse delivery_delay_of (rows df) = Ok d /\
    average_review_scores_by observed df'
    = Ok (map (fun k => (k, mean (map review_score
                                      (filter (in_category k) (rows df)))))
              (filter (fun k => negb observed
                                || mem (eqb_option String.eqb) (Some k)
                                       (map (cut_cell bins choices) d))
                      choices), df').
Proof.
  rewrite delivery_delay_analysis_run.
  destruct (traverse delivery_delay_of (rows df)) as [d|e] eqn:E; [|discriminate].
  intros H. injection H as <-. exists d. split; [reflexivity|].
  unfold average_review_scores_by, bind, added_column, frame, ret,
    groupby_categorical.
  cbn [delivery_category rows cat_values categories].
  rewrite map_map. f_equal. f_equal. apply map_ext. intros k. cbn [fst snd].
  now rewrite (@category_column _ _ k E).
Qed.

Lemma mean_of_group_null (p : Row -> bool) (l : list Row) :
  mean (map review_score (filter p l)) = None
  <-> ~ exists r, In r l /\ p r = true /\ review_score r <> None.
Proof.
  rewrite mean_null. split.
  - intros H [r [Hr [Hp Hn]]].
    destruct (review_score r) as [z|] eqn:E; [|now apply Hn].
    apply (H z). rewrite <- E. apply in_map, filter_In. now split.
  - intros H z Hz. apply in_map_iff in Hz. destruct Hz as [r [E Hr]].
    apply filter_In in Hr. destruct Hr as [Hr Hp].
    apply H. exists r. split; [exact Hr|]. split; [exact Hp|]. congruence.
Qed.

Lemma keys_of_aggregate {K R B : Type} (f : K * list R -> K * B)
  (g : list (K * list R)) :
  (forall x, fst (f x) = fst x) -> map fst (map f g) = map fst g.
Proof.
  intros H. rewrite map_map. apply map_ext. exact H.
Qed.

Lemma analysis_returns (df : DataFrame) :
  ~ Exists (fun r => overflows (order_delivered_customer_date r)
                               (order_estimated_delivery_date r)) (rows df) ->
  exists df', delivery_delay_analysis df = Ok (tt, df').
Proof.
  intros N. destruct (delivery_delay_analysis df) as [[[] df']|e] eqn:E.
  - now exists df'.
  - exfalso. apply N, analysis_raises. rewrite E. now exists e.
Qed.

(** C7 does not hold of the script on every pandas it runs on.  Where
    [groupby] keeps the categories that no row has, as it does by default
    before pandas 3, one row delivered on time and reviewed gives a mean by
    delivery category that also lists "Delayed 1-2 Days", with no row behind
    it. *)
Lemma category_group_without_rows :
  ~ (forall (pd : Installation) (df df' : DataFrame)
            (t : list (string * option Q)),
        delivery_delay_analysis df = Ok (tt, df') ->
        average_review_scores df' = Ok (t, df') ->
        forall k m, In (k, m) t ->
                    exists r, In r (rows df) /\ has_category r k).
Proof.
  intros H.
  pose (r0 := {| order_id := Some "o1"; customer_id := Some "c1";
                 customer_state_y := Some "SP"; price := Some (10 # 1)%Q;
                 order_purchase_timestamp := Some 0;
                 order_delivered_carrier_date := Some NS_PER_DAY;
                 order_delivered_customer_date := Some (3 * NS_PER_DAY);
                 order_estimated_delivery_date := Some (5 * NS_PER_DAY);
                 review_score := Some 5; product_category_name := None;
                 order_status_x := Some "delivered";
                 payment_type := Some "credit_card";
                 seller_city := None; customer_city_x := None;
                 product_category_name_english := None;
                 geolocation_lat := None; geolocation_lng := None;
                 customer_city_y := None |}).
  destruct (H first_seen_installation (fresh [r0])
              {| rows := [r0];
                 order_purchase_hour := None;
                 shipping_time := None;
                 delivery_delay := Some [Some (-2)];
                 delivery_category :=
                   Some {| cat_values := [Some "On Time"];
                           categories := choices |} |}
              [("On Time", Some (5 # 1)%Q); ("Delayed 1-2 Days", None);
               ("Delayed More Than 2 Days", None)]
              ltac:(vm_compute; reflexivity) ltac:(vm_compute; reflexivity)
              "Delayed 1-2 Days" None) as [r [Hr [d [D Hk]]]].
  - right. left. reflexivity.
  - destruct Hr as [<-|[]].
    cbn [r0 order_delivered_customer_date order_estimated_delivery_date] in D.
    apply days_between_value in D; [|vm_compute; discriminate].
    injection D as ->. vm_compute in Hk. discriminate Hk.
Qed.

(** C7, amended.  In the mean by order status and payment type the keys
    are exactly the pairs that occur on a row with a review score, so every
    key has such a row and its mean is a number.  The mean by delivery
    category is taken over a categorical column.  Whenever the delay
    analysis has returned, and it does unless a difference of dates
    overflows, the keys are among the three declared categories: all three
    where [groupby] keeps unobserved categories, exactly those that some row
    has where it does not; which of the two is the default depends on the
    installed pandas.  The mean of a key is null exactly when no row of that
    category has a review score: a key can stand in the result with no row
    behind it, and what it then gets is a null mean, never a division by
    zero. *)
Theorem group_means_and_their_rows (df : DataFrame) :
  (exists t,
      review_summary df = Ok (t, df) /\
      (forall s p,
          In (s, p) (map fst t)
          <-> exists r, In r (rows df) /\
                        order_status_x r = Some s /\
                        payment_type r = Some p /\
                        review_score r <> None) /\
      forall s p m,
        In (s, p, m) t ->
        (exists r, In r (rows df) /\
                   order_status_x r = Some s /\
                   payment_type r = Some p /\
                   review_score r <> None) /\
        (exists q, m = Some q)) /\
  (~ Exists (fun r => overflows (order_delivered_customer_date r)
                                (order_estimated_delivery_date r)) (rows df) ->
   exists df', delivery_delay_analysis df = Ok (tt, df')) /\
  (forall (observed : bool) (df' : DataFrame),
      delivery_delay_analysis df = Ok (tt, df') ->
      exists t,
        average_review_scores_by observed df' = Ok (t, df') /\
        (observed = false -> map fst t = choices) /\
        (forall k, In k (map fst t) ->
                   In k choices /\
                   (observed = true ->
                    exists r, In r (rows df) /\ has_category r k)) /\
        (forall k, observed = true ->
                   (exists r, In r (rows df) /\ has_category r k) ->
                   In k (map fst t)) /\
        (forall k m,
            In (k, m) t ->
            (m = None
             <-> ~ exists r, In r (rows df) /\
                             has_category r k /\
                             review_score r <> None))) /\
  (forall pd : Installation,
      @average_review_scores pd = average_review_scores_by (@observed_default pd)).
Proof.
  split; [|split; [apply analysis_returns|split; [|reflexivity]]].
  - eexists. split; [reflexivity|]. cbn [rows].
    split.
    { intros s p. rewrite keys_of_aggregate by reflexivity.
      rewrite (In_group_key pair_eqb pair_eqb_spec).
      split; intros [r [Hr H]]; exists r.
      - apply filter_In in Hr. destruct Hr as [Hr Hn].
        unfold status_payment in H.
        destruct (order_status_x r), (payment_type r); try discriminate.
        injection H as -> ->.
        split; [exact Hr|]. split; [reflexivity|]. split; [reflexivity|].
        destruct (review_score r); [discriminate | discriminate Hn].
      - destruct H as [Hs [Hp Hn]]. split.
        + apply filter_In. split; [exact Hr|].
          destruct (review_score r); [reflexivity | contradiction].
        + unfold status_payment. rewrite Hs, Hp. reflexivity. }
    intros s p m H.
    apply (@In_aggregate _ pair_eqb pair_eqb_spec pair_leb _ status_payment
             (filter (fun r => notnull (review_score r)) (rows df)) _
             (fun g => mean (map review_score g)) (s, p) m) in H.
    destruct H as [[r [Hr Hk]] ->].
    apply filter_In in Hr. destruct Hr as [Hr Hn].
    assert (order_status_x r = Some s /\ payment_type r = Some p) as [Hs Hp].
    { unfold status_payment in Hk.
      destruct (order_status_x r), (payment_type r); try discriminate.
      injection Hk as -> ->. now split. }
    assert (review_score r <> None) as Hv
        by (destruct (review_score r); [discriminate | discriminate Hn]).
    split; [exists r; tauto|].
    match goal with |- exists q, ?m = Some q => destruct m as [q|] eqn:E end;
      [now exists q|].
    exfalso. apply mean_of_group_null in E. apply E.
    exists r. split; [apply filter_In; now split|].
    split; [|exact Hv].
    apply (eqb_option_spec pair_eqb pair_eqb_spec). exact Hk.
  - intros observed df' A.
    destruct (@average_review_scores_by_run observed _ _ A) as [d [E ->]].
    eexists. split; [reflexivity|].
    rewrite map_map. cbn [fst]. rewrite map_id.
    split; [intros ->; reflexivity|].
    split.
    { intros k Hk. apply filter_In in Hk. destruct Hk as [Hc Ho].
      split; [exact Hc|]. intros ->. cbn [negb orb] in Ho.
      now apply (@category_observed _ _ k E). }
    split.
    { intros k -> Hk. apply filter_In. cbn [negb orb].
      split; [|now apply (@category_observed _ _ k E)].
      destruct Hk as [r [_ [d' [_ ->]]]]. unfold label_of_delay, choices.
      destruct (d' <=? 0); [now left|].
      destruct (d' <=? 2); [right; now left | right; right; now left]. }
    intros k m H. apply in_map_iff in H. destruct H as [k' [H _]].
    injection H as -> <-.
    rewrite mean_of_group_null.
    split; intros H [r [X [Y Z]]]; apply H; exists r;
      (split; [exact X|]); (split; [|exact Z]);
      now apply in_category_spec.
Qed.

(** ** The empty selection *)

Lemma empty_selection_keeps_nothing (final_dataset : list Row) :
  apply_state_filter final_dataset [] = [].
Proof.
  apply filter_none. intros r _. reflexivity.
Qed.

Lemma sort_values_nil (pd : Installation) (K : Type) :
  sort_values (@nil (K * nat)) = [].
Proof.
  apply Permutation_nil, Permutation_sym, sort_values_perm.
Qed.

Lemma dashboard_on_no_rows (pd : Installation) (observed : bool) (now : Z)
  (df : DataFrame) :
  rows df = [] ->
  dashboard_by observed now df
  = Ok (empty_outputs observed,
        {| rows := [];
           order_purchase_hour := Some [];
           shipping_time := Some [];
           delivery_delay := Some [];
           delivery_category :=
             Some {| cat_values := []; categories := choices |} |}).
Proof.
  destruct df as [r h s d c]. cbn [rows]. intros ->.
  unfold dashboard_by, bind, top10_product_categories, order_status_counts,
    payment_type_counts, review_score_counts, top10_seller_cities,
    top10_customer_cities, top10_product_categories_en, column, ret,
    value_counts, tally.
  cbn. rewrite !sort_values_nil. cbn.
  destruct observed; reflexivity.
Qed.

(** C5 does not hold of the script on every pandas it runs on.  With nothing
    selected the page runs without raising, but where [groupby] keeps the
    categories that no row has, as it does by default before pandas 3, the
    mean review score by delivery category is not an empty table. *)
Lemma empty_selection_has_category_rows :
  ~ (forall (pd : Installation) (final_dataset : list Row) (now : Z),
        exists o df',
          dashboard now (df_filtered final_dataset []) = Ok (o, df') /\
          all_tables_empty o).
Proof.
  intros H. destruct (H first_seen_installation [] 0) as [o [df' [E A]]].
  vm_compute in E. injection E as <- <-.
  unfold all_tables_empty in A. cbn in A.
  decompose [and] A. discriminate.
Qed.

(** C5, amended.  An empty selection filters every table down to no rows,
    and on a frame without rows the page runs to the end without raising,
    whatever pandas is installed: the two summary metrics are zero and every
    result table is empty, except the mean review score by delivery
    category.  That one is empty only where [groupby] leaves out the
    categories that no row has; where it keeps them, it has one row with a
    null mean for each of the three categories. *)
Theorem empty_selection_runs_to_empty_results
  (pd : Installation) (final_dataset : list Row) (now : Z) :
  apply_state_filter final_dataset [] = [] /\
  (forall observed : bool,
      dashboard_by observed now (df_filtered final_dataset [])
      = Ok (empty_outputs observed,
            {| rows := [];
               order_purchase_hour := Some [];
               shipping_time := Some [];
               delivery_delay := Some [];
               delivery_category :=
                 Some {| cat_values := []; categories := choices |} |})) /\
  dashboard now (df_filtered final_dataset [])
  = dashboard_by observed_default now (df_filtered final_dataset []) /\
  all_tables_empty (empty_outputs true) /\
  out_average_review_scores (empty_outputs false)
  = [("On Time", None); ("Delayed 1-2 Days", None);
     ("Delayed More Than 2 Days", None)] /\
  (forall observed : bool,
      out_total_orders (empty_outputs observed) = 0%nat /\
      out_total_revenue (empty_outputs observed) = (0 # 1)%Q /\
      out_daily_orders (empty_outputs observed) = [] /\
      out_daily_revenue (empty_outputs observed) = [] /\
      out_top10_product_categories (empty_outputs observed) = [] /\
      out_order_status_counts (empty_outputs observed) = [] /\
      out_payment_type_counts (empty_outputs observed) = [] /\
      out_review_score_counts (empty_outputs observed) = [] /\
      out_top10_seller_cities (empty_outputs observed) = [] /\
      out_top10_customer_cities (empty_outputs observed) = [] /\
      out_top10_product_categories_en (empty_outputs observed) = [] /\
      out_purchase_hour (empty_outputs observed) = [] /\
      out_shipping_time (empty_outputs observed) = [] /\
      out_rfm (empty_outputs observed) = [] /\
      out_geo_points (empty_outputs observed) = [] /\
      out_cluster_data (empty_outputs observed) = [] /\
      out_review_summary (empty_outputs observed) = []).
Proof.
  split; [apply empty_selection_keeps_nothing|].
  split.
  { intros observed. apply dashboard_on_no_rows.
    unfold df_filtered. cbn [rows]. apply empty_selection_keeps_nothing. }
  split; [reflexivity|].
  split; [unfold all_tables_empty; cbn; repeat split|].
  split; [reflexivity|].
  intros observed. cbn. repeat split.
Qed.

(** ** The frame across the page *)

Section Frame.

Lemma bind_ok {A B : Type} (m : M A) (k : A -> M B) (df df' : DataFrame) (a : A) :
  m df = Ok (a, df') -> bind m k df = k a df'.
Proof. unfold bind. intros ->. reflexivity. Qed.

Lemma bind_inv {A B : Type} (m : M A) (k : A -> M B) (df df'' : DataFrame) (b : B) :
  bind m k df = Ok (b, df'') ->
  exists a df', m df = Ok (a, df') /\ k a df' = Ok (b, df'').
Proof.
  unfold bind. destruct (m df) as [[a df']|e]; [|discriminate].
  intros H. now exists a, df'.
Qed.

Lemma reads_only_keeps_rows {A : Type} (m : M A) : reads_only m -> keeps_rows m.
Proof. intros H df a df' E. now rewrite (H df a df' E). Qed.

Lemma keeps_rows_bind {A B : Type} (m : M A) (k : A -> M B) :
  keeps_rows m -> (forall a, keeps_rows (k a)) -> keeps_rows (bind m k).
Proof.
  intros Hm Hk df b df'' E. apply bind_inv in E.
  destruct E as [a [df' [E1 E2]]].
  rewrite (Hk a df' b df'' E2). exact (Hm df a df' E1).
Qed.

Lemma reads_only_bind {A B : Type} (m : M A) (k : A -> M B) :
  reads_only m -> (forall a, reads_only (k a)) -> reads_only (bind m k).
Proof.
  intros Hm Hk df b df'' E. apply bind_inv in E.
  destruct E as [a [df' [E1 E2]]].
  rewrite (Hk a df' b df'' E2). exact (Hm df a df' E1).
Qed.

Lemma by_rows_bind {A B : Type} (m : M A) (k : A -> M B) :
  by_rows m -> keeps_rows m -> (forall a, by_rows (k a)) -> by_rows (bind m k).
Proof.
  intros Hv Hr Hk df1 df2 E. unfold bind.
  pose proof (Hv df1 df2 E) as V.
  pose proof (Hr df1) as R1. pose proof (Hr df2) as R2.
  destruct (m df1) as [[a1 d1]|e1], (m df2) as [[a2 d2]|e2];
    cbn [value] in V; try discriminate.
  - injection V as <-. apply Hk.
    rewrite (R1 a1 d1 eq_refl), (R2 a1 d2 eq_refl). exact E.
  - injection V as ->. reflexivity.
Qed.

(** A statement that returns a function of the rows and leaves the frame
    alone. *)
Lemma reader {A : Type} (m : M A) (f : list Row -> A) :
  (forall df, m df = Ok (f (rows df), df)) ->
  reads_only m /\ by_rows m /\ forall df, exists a, m df = Ok (a, df).
Proof.
  intros H. split; [|split].
  - intros df a df' E. rewrite H in E. now injection E.
  - intros df1 df2 E. now rewrite !H, E.
  - intros df. eexists. apply H.
Qed.

Lemma lift_reads {A : Type} (r : result A) : reads_only (lift r) /\ by_rows (lift r).
Proof.
  split.
  - intros df a df' E. unfold lift in E. destruct r; [|discriminate].
    now injection E.
  - intros df1 df2 _. unfold lift. destruct r; reflexivity.
Qed.

Lemma ret_reads {A : Type} (a : A) : reads_only (ret a) /\ by_rows (ret a).
Proof.
  split.
  - intros df a' df' E. now injection E.
  - intros df1 df2 _. reflexivity.
Qed.

Lemma rfm_reads (now : Z) : reads_only (rfm now) /\ by_rows (rfm now).
Proof.
  split.
  - intros df t df' E. apply rfm_ok in E. tauto.
  - intros df1 df2 E. rewrite !rfm_run, E.
    destruct (traverse _ _); reflexivity.
Qed.

Lemma purchase_time_distribution_writes :
  keeps_rows purchase_time_distribution /\ by_rows purchase_time_distribution.
Proof.
  split.
  - intros df a df' E. rewrite purchase_time_distribution_run in E.
    injection E as _ <-. reflexivity.
  - intros df1 df2 E. rewrite !purchase_time_distribution_run, E. reflexivity.
Qed.

Lemma shipping_duration_distribution_writes :
  keeps_rows shipping_duration_distribution /\
  by_rows shipping_duration_distribution.
Proof.
  split.
  - intros df a df' E. apply shipping_ok in E. destruct E as [_ ->]. reflexivity.
  - intros df1 df2 E. rewrite !shipping_duration_distribution_run, E.
    destruct (traverse _ _); reflexivity.
Qed.

Lemma delivery_delay_analysis_writes :
  keeps_rows delivery_delay_analysis /\ by_rows delivery_delay_analysis.
Proof.
  split.
  - intros df [] df' E. apply analysis_ok in E. destruct E as [d [_ ->]].
    reflexivity.
  - intros df1 df2 E. rewrite !delivery_delay_analysis_run, E.
    destruct (traverse _ _); reflexivity.
Qed.

Lemma average_review_scores_by_reads (observed : bool) :
  reads_only (average_review_scores_by observed).
Proof.
  intros df t df' E.
  unfold average_review_scores_by, bind, added_column, frame, ret in E.
  destruct (delivery_category df); [|discriminate]. now injection E.
Qed.

(** What follows the delay analysis may read the category column as well:
    the analysis has just derived it from the rows. *)
Lemma by_rows_after_analysis {B : Type} (k : M B) :
  (forall df1 df2,
      rows df1 = rows df2 ->
      delivery_category df1 = delivery_category df2 ->
      value (k df1) = value (k df2)) ->
  by_rows (delivery_delay_analysis ;;; k).
Proof.
  intros H df1 df2 E. unfold bind.
  rewrite !delivery_delay_analysis_run, E.
  destruct (traverse delivery_delay_of (rows df2)); [|reflexivity].
  apply H; reflexivity.
Qed.

Lemma means_after_analysis (observed : bool) :
  by_rows (delivery_delay_analysis ;;; average_review_scores_by observed).
Proof.
  apply by_rows_after_analysis. intros df1 df2 E C.
  unfold average_review_scores_by, bind, added_column, frame, ret.
  rewrite C. destruct (delivery_category df2); cbn; [|reflexivity].
  now rewrite E.
Qed.

End Frame.

Ltac run_readers :=
  cbv [bind column frame ret value total_orders total_revenue daily_orders
       daily_revenue top10_product_categories order_status_counts
       payment_type_counts review_score_counts top10_seller_cities
       top10_customer_cities top10_product_categories_en geo_points
       cluster_data review_summary df_filtered_non_null_reviews].

Ltac reads :=
  match goal with
  | |- reads_only _ =>
      let E := fresh "E" in
      intros ? ? ? E; revert E; run_readers;
      intros E; injection E as _ <-; reflexivity
  | |- by_rows _ =>
      let E := fresh "E" in
      intros ? ? E; run_readers; rewrite E; reflexivity
  | |- keeps_rows _ =>
      let E := fresh "E" in
      intros ? ? ? E; revert E; run_readers;
      intros E; injection E as _ <-; reflexivity
  end.

Lemma dashboard_keeps_rows (pd : Installation) (observed : bool) (now : Z) :
  keeps_rows (dashboard_by observed now).
Proof.
  unfold dashboard_by.
  do 11 (refine (@keeps_rows_bind _ _ _ _ _ _); [reads | intros ?]).
  refine (@keeps_rows_bind _ _ _ _ _ _); [apply purchase_time_distribution_writes | intros ?].
  refine (@keeps_rows_bind _ _ _ _ _ _); [apply shipping_duration_distribution_writes | intros ?].
  refine (@keeps_rows_bind _ _ _ _ _ _);
    [apply reads_only_keeps_rows, rfm_reads | intros ?].
  refine (@keeps_rows_bind _ _ _ _ _ _);
    [apply reads_only_keeps_rows, lift_reads | intros ?].
  do 2 (refine (@keeps_rows_bind _ _ _ _ _ _); [reads | intros ?]).
  refine (@keeps_rows_bind _ _ _ _ _ _);
    [apply reads_only_keeps_rows, lift_reads | intros ?].
  refine (@keeps_rows_bind _ _ _ _ _ _); [apply delivery_delay_analysis_writes | intros ?].
  refine (@keeps_rows_bind _ _ _ _ _ _);
    [apply reads_only_keeps_rows, average_review_scores_by_reads | intros ?].
  refine (@keeps_rows_bind _ _ _ _ _ _); [reads | intros ?].
  apply reads_only_keeps_rows, ret_reads.
Qed.

Lemma dashboard_by_rows (pd : Installation) (observed : bool) (now : Z) :
  by_rows (dashboard_by observed now).
Proof.
  unfold dashboard_by.
  do 11 (refine (@by_rows_bind _ _ _ _ _ _ _); [reads | reads | intros ?]).
  refine (@by_rows_bind _ _ _ _ _ _ _); [apply purchase_time_distribution_writes
                      | apply purchase_time_distribution_writes | intros ?].
  refine (@by_rows_bind _ _ _ _ _ _ _); [apply shipping_duration_distribution_writes
                      | apply shipping_duration_distribution_writes | intros ?].
  refine (@by_rows_bind _ _ _ _ _ _ _); [apply rfm_reads
                      | apply reads_only_keeps_rows, rfm_reads | intros ?].
  refine (@by_rows_bind _ _ _ _ _ _ _); [apply lift_reads
                      | apply reads_only_keeps_rows, lift_reads | intros ?].
  do 2 (refine (@by_rows_bind _ _ _ _ _ _ _); [reads | reads | intros ?]).
  refine (@by_rows_bind _ _ _ _ _ _ _); [apply lift_reads
                      | apply reads_only_keeps_rows, lift_reads | intros ?].
  apply by_rows_after_analysis. intros df1 df2 E C.
  unfold average_review_scores_by, review_summary, df_filtered_non_null_reviews,
    bind, added_column, frame, ret.
  rewrite C. destruct (delivery_category df2); cbn; [|reflexivity].
  now rewrite E.
Qed.

Ltac read_step E :=
  let R := fresh "R" in
  apply bind_inv in E; destruct E as [? [? [R E]]];
  revert R; run_readers; intros R; injection R as _ <-.

(** The frame the page leaves behind: the rows it was given and the four
    added columns. *)
Lemma dashboard_frame (pd : Installation) (observed : bool) (now : Z)
  (df : DataFrame) (o : Outputs) (df' : DataFrame) :
  dashboard_by observed now df = Ok (o, df') ->
  out_purchase_hour o = map hour_of (rows df) /\
  exists delay,
    Forall2 (fun r c => days_between (order_delivered_customer_date r)
                                     (order_estimated_delivery_date r) c)
            (rows df) delay /\
    df' = {| rows := rows df;
             order_purchase_hour := Some (out_purchase_hour o);
             shipping_time := Some (out_shipping_time o);
             delivery_delay := Some delay;
             delivery_category :=
               Some {| cat_values := map (cut_cell bins choices) delay;
                       categories := choices |} |}.
Proof.
  intros E. unfold dashboard_by in E.
  do 11 read_step E.
  apply bind_inv in E. destruct E as [h [d1 [R1 E]]].
  rewrite purchase_time_distribution_run in R1. injection R1 as <- <-.
  apply bind_inv in E. destruct E as [s [d2 [R2 E]]].
  apply shipping_ok in R2. destruct R2 as [_ ->]. cbn [rows] in E.
  apply bind_inv in E. destruct E as [t [d3 [R3 E]]].
  apply rfm_ok in R3. destruct R3 as [-> _].
  apply bind_inv in E. destruct E as [u1 [d4 [R4 E]]].
  pose proof (proj1 (lift_reads _) _ _ _ R4) as ->.
  do 2 read_step E.
  apply bind_inv in E. destruct E as [u2 [d5 [R5 E]]].
  pose proof (proj1 (lift_reads _) _ _ _ R5) as ->.
  apply bind_inv in E. destruct E as [[] [d6 [R6 E]]].
  apply analysis_ok in R6. destruct R6 as [delay [F ->]].
  cbn [rows order_purchase_hour shipping_time] in *.
  apply bind_inv in E. destruct E as [m [d7 [R7 E]]].
  apply average_review_scores_by_reads in R7. subst d7.
  read_step E.
  injection E as <- <-. cbn [out_purchase_hour out_shipping_time].
  split; [reflexivity|]. exists delay. split; [exact F | reflexivity].
Qed.

(** C9 fails on the code: the purchase-time derivation assigns a column to
    the filtered frame it was given, so the frame after it is not the frame
    before it. *)
Lemma derivation_writes_to_the_filtered_frame :
  ~ (forall (final_dataset : list Row) (state_filter : list (option string))
            (a : list (option Z)) (df' : DataFrame),
        purchase_time_distribution (df_filtered final_dataset state_filter)
        = Ok (a, df') ->
        df' = df_filtered final_dataset state_filter).
Proof.
  intros H.
  specialize (H [blank] [None] _ _
                (purchase_time_distribution_run (df_filtered [blank] [None]))).
  discriminate H.
Qed.

(** C9, amended.  Three derivations write to the filtered frame in place:
    purchase time adds [order_purchase_hour], shipping duration adds
    [shipping_time], and delivery delay assigns the two date columns to
    themselves and adds [delivery_delay] and [delivery_category].  No row
    is added, dropped, reordered or changed by them.  Every other derivation
    returns and leaves the frame exactly as it found it (the RFM table and
    the mean by delivery category whenever they return).  What a derivation
    yields is fixed by the rows, not by what was added before; the mean by
    delivery category reads the column that the delay analysis has just
    derived from the rows.  The same holds of the page as a whole.  The
    statements that subtract dates raise exactly when a difference does not
    fit 64 bits. *)
Theorem derivations_keep_the_rows (pd : Installation) (observed : bool) (now : Z) :
  ((forall df, exists a, total_orders df = Ok (a, df)) /\
   (forall df, exists a, total_revenue df = Ok (a, df)) /\
   (forall df, exists a, daily_orders df = Ok (a, df)) /\
   (forall df, exists a, daily_revenue df = Ok (a, df)) /\
   (forall df, exists a, top10_product_categories df = Ok (a, df)) /\
   (forall df, exists a, order_status_counts df = Ok (a, df)) /\
   (forall df, exists a, payment_type_counts df = Ok (a, df)) /\
   (forall df, exists a, review_score_counts df = Ok (a, df)) /\
   (forall df, exists a, top10_seller_cities df = Ok (a, df)) /\
   (forall df, exists a, top10_customer_cities df = Ok (a, df)) /\
   (forall df, exists a, top10_product_categories_en df = Ok (a, df)) /\
   (forall df, exists a, geo_points df = Ok (a, df)) /\
   (forall df, exists a, cluster_data df = Ok (a, df)) /\
   (forall df, exists a, review_summary df = Ok (a, df)) /\
   reads_only (rfm now) /\
   reads_only (average_review_scores_by observed)) /\
  (by_rows total_orders /\
   by_rows total_revenue /\
   by_rows daily_orders /\
   by_rows daily_revenue /\
   by_rows top10_product_categories /\
   by_rows order_status_counts /\
   by_rows payment_type_counts /\
   by_rows review_score_counts /\
   by_rows top10_seller_cities /\
   by_rows top10_customer_cities /\
   by_rows top10_product_categories_en /\
   by_rows purchase_time_distribution /\
   by_rows shipping_duration_distribution /\
   by_rows (rfm now) /\
   by_rows geo_points /\
   by_rows cluster_data /\
   by_rows delivery_delay_analysis /\
   by_rows (delivery_delay_analysis ;;; average_review_scores_by observed) /\
   by_rows review_summary) /\
  (forall df,
      exists a,
        purchase_time_distribution df
        = Ok (a, {| rows := rows df;
                    order_purchase_hour := Some a;
                    shipping_time := shipping_time df;
                    delivery_delay := delivery_delay df;
                    delivery_category := delivery_category df |})) /\
  (forall df a df',
      shipping_duration_distribution df = Ok (a, df') ->
      df' = {| rows := rows df;
               order_purchase_hour := order_purchase_hour df;
               shipping_time := Some a;
               delivery_delay := delivery_delay df;
               delivery_category := delivery_category df |}) /\
  (forall df df',
      delivery_delay_analysis df = Ok (tt, df') ->
      exists delay cat,
        df' = {| rows := rows df;
                 order_purchase_hour := order_purchase_hour df;
                 shipping_time := shipping_time df;
                 delivery_delay := Some delay;
                 delivery_category := Some cat |}) /\
  (forall df,
      (raises (shipping_duration_distribution df)
       <-> Exists (fun r => overflows (order_delivered_customer_date r)
                                      (order_delivered_carrier_date r))
                  (rows df)) /\
      (raises (delivery_delay_analysis df)
       <-> Exists (fun r => overflows (order_delivered_customer_date r)
                                      (order_estimated_delivery_date r))
                  (rows df)) /\
      (raises (rfm now df)
       <-> exists c last, latest_purchase (rows df) c last /\
                          ~ (INT64_MIN <= last - now <= INT64_MAX))) /\
  (forall df o df',
      dashboard_by observed now df = Ok (o, df') ->
      exists delay cat,
        df' = {| rows := rows df;
                 order_purchase_hour := Some (out_purchase_hour o);
                 shipping_time := Some (out_shipping_time o);
                 delivery_delay := Some delay;
                 delivery_category := Some cat |}) /\
  by_rows (dashboard_by observed now).
Proof.
  split.
  { repeat (split; [intros df; eexists; reflexivity|]).
    split; [apply rfm_reads | apply average_review_scores_by_reads]. }
  split.
  { repeat (split; [reads|]).
    split; [apply purchase_time_distribution_writes|].
    split; [apply shipping_duration_distribution_writes|].
    split; [apply rfm_reads|].
    repeat (split; [reads|]).
    split; [apply delivery_delay_analysis_writes|].
    split; [apply means_after_analysis | reads]. }
  split.
  { intros df. eexists. apply purchase_time_distribution_run. }
  split.
  { intros df a df' H. now apply shipping_ok in H. }
  split.
  { intros df df' H. apply analysis_ok in H. destruct H as [d [_ ->]].
    eexists. eexists. reflexivity. }
  split.
  { intros df. split; [apply shipping_raises|].
    split; [apply analysis_raises | apply rfm_raises_customer]. }
  split; [|apply dashboard_by_rows].
  intros df o df' H. apply dashboard_frame in H.
  destruct H as [_ [d [_ ->]]]. eexists. eexists. reflexivity.
Qed.

(** ** Worked examples *)

Section Examples.

(** Three purchases on one day (two distinct orders) and one on the next
    give two daily rows, in date order. *)
Example daily_orders_two_days :
  let day1 := 17532 * NS_PER_DAY in
  let day2 := 17533 * NS_PER_DAY in
  let buy (o : string) (t : Z) :=
    {| order_id := Some o; customer_id := Some "c1";
       customer_state_y := Some "SP"; price := Some (10 # 1)%Q;
       order_purchase_timestamp := Some t;
       order_delivered_carrier_date := None;
       order_delivered_customer_date := None;
       order_estimated_delivery_date := None;
       review_score := None; product_category_name := None;
       order_status_x := None; payment_type := None;
       seller_city := None; customer_city_x := None;
       product_category_name_english := None;
       geolocation_lat := None; geolocation_lng := None;
       customer_city_y := None |} in
  let table := [buy "o3" (day2 + 5 * NS_PER_HOUR);
                buy "o1" (day1 + 9 * NS_PER_HOUR);
                buy "o2" (day1 + 23 * NS_PER_HOUR);
                buy "o1" (day1 + 10 * NS_PER_HOUR)] in
  daily_orders (fresh table)
  = Ok ([(17532, 2%nat); (17533, 1%nat)], fresh table).
Proof. vm_compute. reflexivity. Qed.

(** Among equal counts the two sample installations list the values in
    opposite orders. *)
Example value_counts_ties_first_seen :
  @value_counts first_seen_installation _ String.eqb
    [Some "b"; None; Some "a"; Some "c"; Some "b"; Some "a"; Some "c"; Some "c"]
  = [("c", 3%nat); ("b", 2%nat); ("a", 2%nat)].
Proof. vm_compute. reflexivity. Qed.

Example value_counts_ties_last_seen :
  @value_counts last_seen_installation _ String.eqb
    [Some "b"; None; Some "a"; Some "c"; Some "b"; Some "a"; Some "c"; Some "c"]
  = [("c", 3%nat); ("a", 2%nat); ("b", 2%nat)].
Proof. vm_compute. reflexivity. Qed.

Example astype_Int64_gap_and_zero :
  astype_Int64 (Float64Col [Some (0 # 1)%Q; None; Some (4 # 1)%Q])
  = Ok [Some 0; None; Some 4].
Proof. vm_compute. reflexivity. Qed.

Example astype_Int64_fraction :
  astype_Int64 (Float64Col [Some (3 # 2)%Q]) = Raise TypeError.
Proof. vm_compute. reflexivity. Qed.

Example astype_Int64_beyond_64_bits :
  astype_Int64 (Float64Col [Some (10000000000000000000 # 1)%Q])
  = Raise TypeError.
Proof. vm_compute. reflexivity. Qed.

Example astype_Int64_text :
  astype_Int64 (ObjectCol [Some "5"; None; Some "abc"]) = Raise ValueError.
Proof. vm_compute. reflexivity. Qed.

Example days_half_a_day_early : days (- (12 * NS_PER_HOUR)) = -1.
Proof. vm_compute. reflexivity. Qed.

Example days_almost_a_day_late : days (NS_PER_DAY - 1) = 0.
Proof. vm_compute. reflexivity. Qed.

(** Evaluated ten days after the purchase, the page runs to the end. *)
Example page_runs_to_the_end :
  match @dashboard first_seen_installation (17542 * NS_PER_DAY)
          (fresh [sample_order (17532 * NS_PER_DAY)]) with
  | Ok (o, df') =>
      out_total_orders o = 1%nat /\
      out_purchase_hour o = [Some 0] /\
      out_shipping_time o = [Some 2] /\
      map (fun e => Recency (fst (fst (snd e)))) (out_rfm o) = [Some 10] /\
      delivery_delay df' = Some [Some (-1)] /\
      option_map cat_values (delivery_category df') = Some [Some "On Time"] /\
      out_average_review_scores o
      = [("On Time", Some (5 # 1)%Q); ("Delayed 1-2 Days", None);
         ("Delayed More Than 2 Days", None)]
  | Raise _ => False
  end.
Proof. vm_compute. repeat split. Qed.

(** Evaluated before the purchase, Recency is negative and the RFM chart of
    line 309 refuses it as a marker size. *)
Example page_stops_at_the_rfm_chart :
  @dashboard first_seen_installation (17530 * NS_PER_DAY)
    (fresh [sample_order (17532 * NS_PER_DAY)])
  = Raise ValueError.
Proof. vm_compute. reflexivity. Qed.

End Examples.

(** * Further properties of the script *)

(** ** The sidebar filter *)

Lemma In_apply_state_filter (ds : list Row) (sel : list (option string)) (r : Row) :
  In r (apply_state_filter ds sel) <-> In r ds /\ In (customer_state_y r) sel.
Proof.
  unfold apply_state_filter. rewrite filter_In, isin_In. tauto.
Qed.

Lemma filter_twice {A : Type} (f g : A -> bool) (l : list A) :
  filter f (filter g l) = filter (fun a => g a && f a) l.
Proof.
  induction l as [|a l IH]; simpl; [reflexivity|].
  destruct (g a); simpl; [destruct (f a)|]; now rewrite IH.
Qed.

(** X1.  The state filter (line 51) keeps exactly the rows whose state is
    selected; applying it again with the same selection changes nothing,
    two selections can be applied in either order, and the states left in
    the filtered table are selected states that occur in the data. *)
Theorem state_filter_laws (ds : list Row) (a b : list (option string)) :
  (forall r, In r (apply_state_filter ds a)
             <-> In r ds /\ In (customer_state_y r) a) /\
  apply_state_filter (apply_state_filter ds a) a = apply_state_filter ds a /\
  apply_state_filter (apply_state_filter ds a) b
  = apply_state_filter (apply_state_filter ds b) a /\
  (List.length (apply_state_filter ds a) <= List.length ds)%nat /\
  (forall v, In v (state_options (apply_state_filter ds a))
             -> In v a /\ In v (state_options ds)).
Proof.
  split; [intros r; apply In_apply_state_filter|].
  split.
  { apply filter_all. intros r Hr. apply In_apply_state_filter in Hr.
    apply isin_In. tauto. }
  split.
  { unfold apply_state_filter. rewrite !filter_twice.
    apply filter_ext. intros r. apply andb_comm. }
  split; [apply filter_length_le|].
  intros v Hv. apply In_state_options in Hv. destruct Hv as [r [Hr <-]].
  apply In_apply_state_filter in Hr. destruct Hr as [Hr Ha].
  split; [exact Ha|]. apply In_state_options. now exists r.
Qed.

(** ** Hours, dates and nulls in the added columns *)

Lemma hour_range (ts : Z) :
  0 <= hour ts <= 23 /\
  date ts * NS_PER_DAY + hour ts * NS_PER_HOUR <= ts
  < date ts * NS_PER_DAY + (hour ts + 1) * NS_PER_HOUR.
Proof.
  unfold hour, date, NS_PER_DAY, NS_PER_HOUR.
  pose proof (Z.div_mod ts (24 * 3600000000000)) as E.
  pose proof (Z.mod_pos_bound ts (24 * 3600000000000)) as B.
  pose proof (Z.div_mod (ts mod (24 * 3600000000000)) 3600000000000) as E'.
  pose proof (Z.mod_pos_bound (ts mod (24 * 3600000000000)) 3600000000000) as B'.
  lia.
Qed.

(** X2.  The purchase-hour column (line 258) has one cell per row: null
    where the purchase timestamp is null, otherwise the hour of day, between
    0 and 23, of the calendar date the daily tables group the row under. *)
Theorem purchase_hour_of_day (df : DataFrame) :
  exists s df',
    purchase_time_distribution df = Ok (s, df') /\
    order_purchase_hour df' = Some s /\
    List.length s = List.length (rows df) /\
    forall i r,
      nth_error (rows df) i = Some r ->
      match order_purchase_timestamp r with
      | None => nth_error s i = Some None /\ purchase_date r = None
      | Some ts =>
          exists d h,
            purchase_date r = Some d /\
            nth_error s i = Some (Some h) /\
            0 <= h <= 23 /\
            d * NS_PER_DAY + h * NS_PER_HOUR <= ts
            < d * NS_PER_DAY + (h + 1) * NS_PER_HOUR
      end.
Proof.
  eexists. eexists. split; [apply purchase_time_distribution_run|].
  cbn [order_purchase_hour]. split; [reflexivity|].
  split; [apply length_map|].
  intros i r H. rewrite nth_error_map, H. cbn [option_map].
  unfold hour_of, purchase_date.
  destruct (order_purchase_timestamp r) as [ts|]; cbn [option_map].
  - exists (date ts), (hour ts). destruct (hour_range ts) as [A B].
    split; [reflexivity|]. split; [reflexivity|]. split; [exact A | exact B].
  - split; reflexivity.
Qed.

Lemma cut_cell_null (c : option Z) :
  cut_cell bins choices c = None <-> c = None.
Proof.
  destruct c as [v|]; [|split; reflexivity].
  rewrite cut_cell_label.
  destruct (v <=? 0); [|destruct (v <=? 2)]; split; discriminate.
Qed.

Lemma cut_cell_in_choices (c : option Z) (label : string) :
  cut_cell bins choices c = Some label -> In label choices.
Proof.
  destruct c as [v|]; [|discriminate].
  rewrite cut_cell_label. intros H. injection H as <-.
  unfold choices. destruct (v <=? 0); [|destruct (v <=? 2)]; simpl; tauto.
Qed.

Lemma Forall2_map_r_self {A B : Type} (f : A -> B) (P : A -> B -> Prop)
  (l : list A) :
  (forall a, In a l -> P a (f a)) -> Forall2 P l (map f l).
Proof.
  induction l as [|a l IH]; intros H; simpl; constructor.
  - apply H. now left.
  - apply IH. intros x Hx. apply H. now right.
Qed.

(** X3.  Whenever the delay analysis (lines 384-401) returns, the frame has,
    row for row, a delay that is null exactly when the customer-delivery or
    the estimated-delivery date is null or their difference is the one
    64-bit value that reads as a missing duration, and a category that is
    null exactly when the delay is null and otherwise one of the three
    labels; whenever the shipping-time statement (line 272) returns, the
    shipping time is null exactly when the customer-delivery or the carrier
    date is null or their difference is that value. *)
Theorem added_columns_null_exactly (df : DataFrame) :
  (forall s df',
      shipping_duration_distribution df = Ok (s, df') ->
      Forall2 (fun r c =>
                 c = None
                 <-> order_delivered_customer_date r = None
                     \/ order_delivered_carrier_date r = None
                     \/ exists x y,
                          order_delivered_customer_date r = Some x /\
                          order_delivered_carrier_date r = Some y /\
                          x - y = INT64_MIN)
              (rows df) s) /\
  (forall df',
      delivery_delay_analysis df = Ok (tt, df') ->
      exists delay cat,
        delivery_delay df' = Some delay /\
        delivery_category df' = Some cat /\
        categories cat = choices /\
        Forall2 (fun r c =>
                   c = None
                   <-> order_delivered_customer_date r = None
                       \/ order_estimated_delivery_date r = None
                       \/ exists x y,
                            order_delivered_customer_date r = Some x /\
                            order_estimated_delivery_date r = Some y /\
                            x - y = INT64_MIN)
                (rows df) delay /\
        Forall2 (fun d c =>
                   (c = None <-> d = None) /\
                   (forall label, c = Some label -> In label choices))
                delay (cat_values cat)).
Proof.
  split.
  - intros s df' H. apply shipping_ok in H. destruct H as [F _].
    eapply Forall2_impl; [|exact F].
    intros r c D. now apply days_between_null.
  - intros df' H. apply analysis_ok in H. destruct H as [d [F ->]].
    eexists. eexists.
    cbn [delivery_delay delivery_category categories cat_values].
    split; [reflexivity|]. split; [reflexivity|]. split; [reflexivity|].
    split.
    + eapply Forall2_impl; [|exact F].
      intros r c D. now apply days_between_null.
    + apply Forall2_map_r_self. intros c _.
      split; [apply cut_cell_null | apply cut_cell_in_choices].
Qed.

(** X4.  The three masks built on lines 391-395 and then left unused select
    the same rows as the labels of [pd.cut]: the mask of a label is true on
    exactly the rows that get this label, so a row with a delay is in
    exactly one mask and a row without one is in none. *)
Theorem masks_agree_with_labels (delay : list (option Z)) :
  conditions delay
  = map (fun label =>
           map (fun c => eqb_option String.eqb (cut_cell bins choices c)
                                    (Some label)) delay)
        choices /\
  Forall (fun c =>
            List.length (filter (fun b => b)
                           (map (fun mask => hd false mask) (conditions [c])))
            = if notnull c then 1%nat else 0%nat) delay.
Proof.
  split.
  - assert (forall c,
               le_cell c 0
               = eqb_option String.eqb (cut_cell bins choices c) (Some "On Time") /\
               gt_cell c 0 && le_cell c 2
               = eqb_option String.eqb (cut_cell bins choices c)
                            (Some "Delayed 1-2 Days") /\
               gt_cell c 2
               = eqb_option String.eqb (cut_cell bins choices c)
                            (Some "Delayed More Than 2 Days")) as CELL.
    { intros c. pose proof (conditions_agree c) as H.
      unfold conditions in H. cbn [map] in H.
      injection H as H1 H2 H3. auto. }
    unfold conditions. cbn [map choices].
    f_equal; [apply map_ext; intros c; apply CELL|].
    f_equal; [apply map_ext; intros c; apply CELL|].
    f_equal. apply map_ext. intros c. apply CELL.
  - apply Forall_forall. intros c _. destruct c as [v|]; [|reflexivity].
    unfold conditions, le_cell, gt_cell, notnull. cbn [map hd].
    destruct (Z.leb_spec v 0); destruct (Z.leb_spec v 2);
      destruct (Z.ltb_spec 0 v); destruct (Z.ltb_spec 2 v);
      try lia; reflexivity.
Qed.

(** ** Frequency tables without a cut-off *)

(** X5.  The tables for order status, payment type and review score (lines
    168, 183, 198) are taken without a cut-off, so each lists every distinct
    non-null value of its column exactly once and its counts add up to the
    number of non-null cells: no row with a value is left out or counted
    twice. *)
Theorem full_frequency_tables_are_exact (pd : Installation) (df : DataFrame) :
  (exists t,
      order_status_counts df = Ok (t, df) /\
      NoDup (map fst t) /\
      (forall k, In k (map fst t) <-> In (Some k) (map order_status_x (rows df))) /\
      total_count t = List.length (dropna (map order_status_x (rows df)))) /\
  (exists t,
      payment_type_counts df = Ok (t, df) /\
      NoDup (map fst t) /\
      (forall k, In k (map fst t) <-> In (Some k) (map payment_type (rows df))) /\
      total_count t = List.length (dropna (map payment_type (rows df)))) /\
  (exists t,
      review_score_counts df = Ok (t, df) /\
      NoDup (map fst t) /\
      (forall k, In k (map fst t) <-> In (Some k) (map review_score (rows df))) /\
      total_count t = List.length (dropna (map review_score (rows df)))).
Proof.
  split; [|split]; eexists; (split; [reflexivity|]).
  - split; [apply (value_counts_keys String.eqb String.eqb_eq)|].
    split; [apply (value_counts_keys String.eqb String.eqb_eq)|].
    apply (value_counts_total String.eqb String.eqb_eq).
  - split; [apply (value_counts_keys String.eqb String.eqb_eq)|].
    split; [apply (value_counts_keys String.eqb String.eqb_eq)|].
    apply (value_counts_total String.eqb String.eqb_eq).
  - split; [apply (value_counts_keys Z.eqb Z.eqb_eq)|].
    split; [apply (value_counts_keys Z.eqb Z.eqb_eq)|].
    apply (value_counts_total Z.eqb Z.eqb_eq).
Qed.

(** ** Summary metrics *)

(** X6.  Total Orders (line 66) counts distinct order ids: it never exceeds
    the number of rows, it is not increased by filtering, and the filtered
    count is zero exactly when no kept row has an order id. *)
Theorem total_orders_bounds (ds : list Row) (sel : list (option string)) :
  exists n m,
    total_orders (df_filtered ds sel) = Ok (n, df_filtered ds sel) /\
    total_orders (fresh ds) = Ok (m, fresh ds) /\
    (n <= m)%nat /\
    (m <= List.length ds)%nat /\
    (n <= List.length (apply_state_filter ds sel))%nat /\
    (n = O <-> forall r, In r (apply_state_filter ds sel) -> order_id r = None).
Proof.
  eexists. eexists. split; [reflexivity|]. split; [reflexivity|].
  cbn [rows df_filtered fresh].
  split.
  { apply (nunique_incl String.eqb String.eqb_eq). intros k Hk.
    apply in_map_iff in Hk. destruct Hk as [r [E Hr]].
    apply In_apply_state_filter in Hr. rewrite <- E. apply in_map. tauto. }
  split.
  { pose proof (nunique_le_length String.eqb (map order_id ds)) as H.
    now rewrite length_map in H. }
  split.
  { pose proof (nunique_le_length String.eqb
                  (map order_id (apply_state_filter ds sel))) as H.
    now rewrite length_map in H. }
  split.
  - intros H r Hr. destruct (order_id r) as [o|] eqn:E; [|reflexivity].
    exfalso.
    assert (1 <= nunique String.eqb (map order_id (apply_state_filter ds sel)))%nat.
    { apply (nunique_pos String.eqb String.eqb_eq o).
      rewrite <- E. now apply in_map. }
    lia.
  - intros H. unfold nunique.
    assert (dropna (map order_id (apply_state_filter ds sel)) = []) as E.
    { induction (apply_state_filter ds sel) as [|r l IH]; [reflexivity|].
      cbn [map dropna]. rewrite (H r (or_introl eq_refl)).
      apply IH. intros x Hx. apply H. now right. }
    rewrite E. reflexivity.
Qed.

(** X7.  A further line of an order already in the frame leaves Total Orders
    (line 66) as it was: orders are counted once, however many lines they
    have. *)
Theorem order_lines_count_once (r : Row) (l : list Row) (o : string) :
  order_id r = Some o ->
  In (Some o) (map order_id l) ->
  exists n,
    total_orders (fresh l) = Ok (n, fresh l) /\
    total_orders (fresh (r :: l)) = Ok (n, fresh (r :: l)).
Proof.
  intros Ho Hin. eexists.
  split; [reflexivity|].
  unfold total_orders, bind, column, ret. cbn [rows fresh map].
  rewrite Ho, (nunique_repeat String.eqb String.eqb_eq o _ Hin). reflexivity.
Qed.

Lemma order_lines_count_once_witness :
  let line (o : string) (p : Z) :=
    {| order_id := Some o; customer_id := Some "c1";
       customer_state_y := Some "SP"; price := Some (p # 1)%Q;
       order_purchase_timestamp := None;
       order_delivered_carrier_date := None;
       order_delivered_customer_date := None;
       order_estimated_delivery_date := None;
       review_score := None; product_category_name := None;
       order_status_x := None; payment_type := None;
       seller_city := None; customer_city_x := None;
       product_category_name_english := None;
       geolocation_lat := None; geolocation_lng := None;
       customer_city_y := None |} in
  let l := [line "o1" 10; line "o2" 5] in
  let r := line "o1" 7 in
  exists n,
    total_orders (fresh l) = Ok (n, fresh l) /\
    total_orders (fresh (r :: l)) = Ok (n, fresh (r :: l)).
Proof.
  intros line l r.
  apply (@order_lines_count_once r l "o1").
  - reflexivity.
  - simpl. left. reflexivity.
Defined.

(** ** Group keys come in ascending order *)

Section KeyOrder.

Variable K : Type.
Variable leb : K -> K -> bool.
Hypothesis leb_total : forall a b, leb a b = true \/ leb b a = true.

Lemma insert_key_sorted (x : K) (l : list K) :
  Sorted (fun a b => leb a b = true) l ->
  Sorted (fun a b => leb a b = true) (insert_key leb x l).
Proof.
  induction 1 as [|h t Ht IH Hh]; simpl.
  - constructor; constructor.
  - destruct (leb x h) eqn:E.
    + constructor; [now constructor | now constructor].
    + constructor; [exact IH|].
      assert (leb h x = true) as Hx
          by (destruct (leb_total x h); congruence).
      destruct t as [|k t]; simpl.
      * now constructor.
      * destruct (leb x k); constructor; [exact Hx|].
        now inversion Hh.
Qed.

Lemma sort_keys_sorted (l : list K) :
  Sorted (fun a b => leb a b = true) (sort_keys leb l).
Proof.
  induction l as [|x l IH]; simpl; [constructor|].
  now apply insert_key_sorted.
Qed.

End KeyOrder.

Lemma StronglySorted_strict {A : Type} (R : A -> A -> Prop) (l : list A) :
  StronglySorted R l -> NoDup l ->
  StronglySorted (fun a b => R a b /\ a <> b) l.
Proof.
  induction 1 as [|x l Hl IH Hx]; intros N; constructor;
    inversion N as [|? ? Hn Hr]; subst.
  - now apply IH.
  - rewrite Forall_forall in *. intros y Hy. split; [now apply Hx|].
    intros ->. contradiction.
Qed.

Lemma StronglySorted_map_inv {A B : Type} (f : A -> B) (R : B -> B -> Prop)
  (l : list A) :
  StronglySorted R (map f l) -> StronglySorted (fun a b => R (f a) (f b)) l.
Proof.
  induction l as [|a l IH]; simpl; intros H; constructor;
    inversion H as [|? ? Hl Ha]; subst.
  - now apply IH.
  - now rewrite Forall_map in Ha.
Qed.

Lemma Sorted_map_inv {A B : Type} (f : A -> B) (R : B -> B -> Prop)
  (l : list A) :
  Sorted R (map f l) -> Sorted (fun a b => R (f a) (f b)) l.
Proof.
  induction l as [|a l IH]; simpl; intros H; constructor;
    inversion H as [|? ? Hl Ha]; subst.
  - now apply IH.
  - destruct l; simpl in *; constructor. now inversion Ha.
Qed.

Lemma dates_ascending (l : list Z) :
  NoDup l -> StronglySorted Z.lt (sort_keys Z.leb l).
Proof.
  intros N.
  assert (StronglySorted (fun a b => (a <=? b) = true) (sort_keys Z.leb l)) as S.
  { apply Sorted_StronglySorted.
    - intros a b c Hab Hbc. apply Z.leb_le in Hab, Hbc. apply Z.leb_le. lia.
    - apply sort_keys_sorted. intros a b.
      destruct (Z.leb_spec a b); [now left|]. right. apply Z.leb_le. lia. }
  apply StronglySorted_strict in S.
  - eapply StronglySorted_weaken; [|exact S].
    intros a b _ _ [H Hne]. apply Z.leb_le in H. lia.
  - apply (Permutation_NoDup (Permutation_sym (sort_keys_perm Z.leb l)) N).
Qed.

(** X8.  The two daily tables (lines 83-101) have one row per calendar date
    on which a row of the frame was purchased, in strictly ascending date
    order; rows without a purchase timestamp belong to no date; the count of
    a date is the number of distinct order ids purchased on it; and the
    revenue table lists the same dates with the same order counts, so its
    two series are aligned with the daily-orders chart. *)
Theorem daily_tables_by_date (df : DataFrame) :
  exists t t',
    daily_orders df = Ok (t, df) /\
    daily_revenue df = Ok (t', df) /\
    StronglySorted (fun a b => fst a < fst b) t /\
    map (fun e => (fst e, snd (snd e))) t' = t /\
    (forall d, In d (map fst t)
               <-> exists r, In r (rows df) /\ purchase_date r = Some d) /\
    (forall d n,
        In (d, n) t ->
        let that_day := filter (fun r => eqb_option Z.eqb (purchase_date r) (Some d))
                               (rows df) in
        n = nunique String.eqb (map order_id that_day) /\
        (n <= List.length that_day)%nat /\
        (1 <= List.length that_day)%nat) /\
    (forall d q n,
        In (d, (q, n)) t' ->
        q = sum (map price
                   (filter (fun r => eqb_option Z.eqb (purchase_date r) (Some d))
                           (rows df)))).
Proof.
  eexists. eexists. split; [reflexivity|]. split; [reflexivity|].
  cbn [rows].
  split.
  { apply (@StronglySorted_map_inv _ _ fst Z.lt).
    rewrite keys_of_aggregate by reflexivity. rewrite groupby_keys.
    apply dates_ascending, (NoDup_unique Z.eqb Z.eqb_eq). }
  split.
  { rewrite map_map. reflexivity. }
  split.
  { intros d. rewrite keys_of_aggregate by reflexivity.
    apply (In_group_key Z.eqb Z.eqb_eq). }
  split.
  - intros d n H.
    apply (@In_aggregate _ Z.eqb Z.eqb_eq Z.leb _ purchase_date (rows df) _
             (fun g => nunique String.eqb (map order_id g)) d n) in H.
    destruct H as [[r [Hr Hd]] ->].
    set (that_day := filter (fun r => eqb_option Z.eqb (purchase_date r) (Some d))
                            (rows df)).
    split; [reflexivity|]. split.
    + pose proof (nunique_le_length String.eqb (map order_id that_day)) as L.
      now rewrite length_map in L.
    + assert (In r that_day) as I.
      { unfold that_day. apply filter_In. split; [exact Hr|].
        now apply (eqb_option_spec Z.eqb Z.eqb_eq). }
      destruct that_day; [contradiction | simpl; lia].
  - intros d q n H.
    apply (@In_aggregate _ Z.eqb Z.eqb_eq Z.leb _ purchase_date (rows df) _
             (fun g => (sum (map price g), nunique String.eqb (map order_id g)))
             d (q, n)) in H.
    destruct H as [_ H]. now injection H.
Qed.

(** ** More on the RFM table *)

(** X10.  Whenever the RFM statement (lines 294-306) returns, its table has
    as many rows as the frame has distinct customer ids, in ascending order
    of customer id.  For each customer, Frequency is at most the number of
    the customer's rows, and the purchase the Recency is measured from is
    one of the customer's purchases and the latest of them. *)
Theorem rfm_rows_and_latest_purchase (now : Z) (df : DataFrame) :
  forall t df',
    rfm now df = Ok (t, df') ->
    List.length t = nunique String.eqb (map customer_id (rows df)) /\
    Sorted (fun a b => String.leb (fst a) (fst b) = true) t /\
    (forall c rr f m,
        In (c, (rr, f, m)) t ->
        let mine := filter (fun r => eqb_option String.eqb (customer_id r) (Some c))
                           (rows df) in
        (f <= List.length mine)%nat /\
        (1 <= List.length mine)%nat /\
        (last_purchase rr = None
         <-> forall r, In r mine -> order_purchase_timestamp r = None) /\
        (forall last,
            last_purchase rr = Some last ->
            (exists r, In r mine /\ order_purchase_timestamp r = Some last) /\
            (forall r ts, In r mine -> order_purchase_timestamp r = Some ts ->
                          ts <= last))).
Proof.
  intros t df' RUN.
  pose proof RUN as KEYS. apply rfm_keys in KEYS.
  split.
  { rewrite <- (length_map fst), KEYS, groupby_keys.
    unfold nunique. apply Permutation_length, sort_keys_perm. }
  split.
  { apply (@Sorted_map_inv _ _ fst (fun a b => String.leb a b = true)).
    rewrite KEYS, groupby_keys. apply sort_keys_sorted, String.leb_total. }
  intros c rr f m H mine.
  assert (exists r, In r mine) as [r0 Hr0].
  { assert (In c (map fst (groupby String.eqb String.leb customer_id (rows df)))) as I.
    { rewrite <- KEYS. change c with (fst (c, (rr, f, m))). now apply in_map. }
    apply (In_group_key String.eqb String.eqb_eq) in I.
    destruct I as [r [Hr Hc]]. exists r. unfold mine. apply filter_In.
    split; [exact Hr|]. now apply (eqb_option_spec String.eqb String.eqb_eq). }
  destruct (@In_rfm _ _ _ _ _ _ _ _ RUN H) as [R [-> _]].
  fold (rows_of (rows df) c) in mine. fold mine in R. fold mine.
  split.
  { unfold frequency_of.
    pose proof (nunique_le_length String.eqb (map order_id mine)) as L.
    now rewrite length_map in L. }
  split; [destruct mine; [contradiction | simpl; lia]|].
  unfold recency_of in R.
  destruct (sub_dt (max (map order_purchase_timestamp mine)) (Some now))
    as [d|e]; [|discriminate].
  cbn [bind_result] in R. injection R as <-. cbn [last_purchase].
  split.
  - rewrite max_null. split.
    + intros N r Hr. destruct (order_purchase_timestamp r) as [ts|] eqn:E;
        [|reflexivity].
      exfalso. apply (N ts). rewrite <- E. now apply in_map.
    + intros N ts Hts. apply in_map_iff in Hts. destruct Hts as [r [E Hr]].
      rewrite (N r Hr) in E. discriminate.
  - intros last Hl. split.
    + apply max_attained in Hl. apply in_map_iff in Hl.
      destruct Hl as [r [E Hr]]. now exists r.
    + intros r ts Hr E. eapply max_upper; [exact Hl|]. rewrite <- E. now apply in_map.
Qed.

Lemma rfm_rows_and_latest_purchase_witness :
  let now := 17542 * NS_PER_DAY in
  let df := fresh [sample_order (17532 * NS_PER_DAY);
                   sample_order (17540 * NS_PER_DAY)] in
  exists t df',
    rfm now df = Ok (t, df') /\
    List.length t = nunique String.eqb (map customer_id (rows df)) /\
    Sorted (fun a b => String.leb (fst a) (fst b) = true) t.
Proof.
  intros now df.
  destruct (rfm now df) as [[t df']|e] eqn:RUN.
  - exists t, df'. split; [reflexivity|].
    destruct (@rfm_rows_and_latest_purchase now df t df' RUN) as [A [B _]].
    split; [exact A | exact B].
  - vm_compute in RUN. discriminate RUN.
Defined.

(** ** The order of the statements that write *)

Lemma writes_commute (df : DataFrame) :
  (a <- purchase_time_distribution ;;
   b <- shipping_duration_distribution ;; ret (a, b)) df
  = (b <- shipping_duration_distribution ;;
     a <- purchase_time_distribution ;; ret (a, b)) df.
Proof.
  unfold bind.
  rewrite purchase_time_distribution_run, !shipping_duration_distribution_run.
  cbn [rows]. destruct (traverse shipping_time_of (rows df)); [|reflexivity].
  rewrite purchase_time_distribution_run. reflexivity.
Qed.

Lemma shipping_and_analysis_commute (df : DataFrame) :
  (b <- shipping_duration_distribution ;;
   delivery_delay_analysis ;;; ret b) df
  = (delivery_delay_analysis ;;;
     b <- shipping_duration_distribution ;; ret b) df.
Proof.
  unfold bind.
  rewrite (shipping_duration_distribution_run df),
    (delivery_delay_analysis_run df).
  destruct (traverse shipping_time_of (rows df)) as [s|e1] eqn:T;
    destruct (traverse delivery_delay_of (rows df)) as [d|e2] eqn:D.
  - rewrite delivery_delay_analysis_run, shipping_duration_distribution_run.
    cbn [rows]. rewrite T, D. reflexivity.
  - rewrite delivery_delay_analysis_run. cbn [rows]. rewrite D. reflexivity.
  - rewrite shipping_duration_distribution_run. cbn [rows]. rewrite T.
    reflexivity.
  - f_equal.
    assert (e1 = OverflowError) as ->.
    { eapply traverse_error; [|exact T]. intros r e E.
      unfold shipping_time_of in E. now apply days_of_error in E. }
    symmetry. eapply traverse_error; [|exact D]. intros r e E.
    unfold delivery_delay_of in E. now apply days_of_error in E.
Qed.

(** X14.  The three statements that write to the frame do not interfere:
    the purchase-hour and the shipping-time assignments (lines 258, 272)
    give the same columns and leave the same frame in either order, or raise
    the same exception, and so do the shipping-time assignment and the delay
    analysis (lines 384-401); where both statements of a pair return on
    their own, the pair returns in either order. *)
Theorem column_writes_commute (df : DataFrame) :
  (a <- purchase_time_distribution ;;
   b <- shipping_duration_distribution ;; ret (a, b)) df
  = (b <- shipping_duration_distribution ;;
     a <- purchase_time_distribution ;; ret (a, b)) df /\
  (b <- shipping_duration_distribution ;;
   delivery_delay_analysis ;;; ret b) df
  = (delivery_delay_analysis ;;;
     b <- shipping_duration_distribution ;; ret b) df /\
  (forall s df1 df2,
      shipping_duration_distribution df = Ok (s, df1) ->
      delivery_delay_analysis df = Ok (tt, df2) ->
      exists h df',
        (a <- purchase_time_distribution ;;
         b <- shipping_duration_distribution ;; ret (a, b)) df
        = Ok ((h, s), df') /\
        shipping_time df' = Some s /\
        order_purchase_hour df' = Some h /\
        (delivery_delay_analysis ;;;
         b <- shipping_duration_distribution ;; ret b) df
        = Ok (s, {| rows := rows df;
                    order_purchase_hour := order_purchase_hour df;
                    shipping_time := Some s;
                    delivery_delay := delivery_delay df2;
                    delivery_category := delivery_category df2 |})).
Proof.
  split; [apply writes_commute|].
  split; [apply shipping_and_analysis_commute|].
  intros s df1 df2 S A.
  pose proof S as S'. rewrite shipping_duration_distribution_run in S'.
  destruct (traverse shipping_time_of (rows df)) as [s'|] eqn:T; [|discriminate].
  injection S' as -> _.
  pose proof A as A'. rewrite delivery_delay_analysis_run in A'.
  destruct (traverse delivery_delay_of (rows df)) as [d|] eqn:D; [|discriminate].
  injection A' as <-.
  eexists. eexists. split.
  { unfold bind. rewrite purchase_time_distribution_run,
      shipping_duration_distribution_run. cbn [rows]. rewrite T. reflexivity. }
  cbn [shipping_time order_purchase_hour delivery_delay delivery_category].
  split; [reflexivity|]. split; [reflexivity|].
  unfold bind. rewrite A, shipping_duration_distribution_run. cbn [rows].
  rewrite T. reflexivity.
Qed.

(** ** Clustering by state under the filter *)

(** X15.  The clustering table of the filtered frame (lines 51, 358-362) has
    one row per state that is both selected and present in the loaded table,
    in ascending order of state; its order count for a state is the number
    of distinct order ids on the rows of that state and never exceeds the
    number of those rows. *)
Theorem cluster_states_are_selected (ds : list Row) (sel : list (option string)) :
  exists t,
    cluster_data (df_filtered ds sel) = Ok (t, df_filtered ds sel) /\
    NoDup (map fst t) /\
    Sorted (fun a b => String.leb (fst a) (fst b) = true) t /\
    (forall k, In k (map fst t)
               <-> In (Some k) sel /\ In (Some k) (state_options ds)) /\
    (forall k q n,
        In (k, (q, n)) t ->
        let there := filter (fun r => eqb_option String.eqb (customer_state_y r)
                                                 (Some k)) ds in
        q = sum (map price there) /\
        n = nunique String.eqb (map order_id there) /\
        (n <= List.length there)%nat).
Proof.
  eexists. split; [reflexivity|]. cbn [rows df_filtered].
  split.
  { rewrite keys_of_aggregate by reflexivity.
    apply (groupby_keys_distinct String.eqb String.eqb_eq). }
  split.
  { apply (@Sorted_map_inv _ _ fst (fun a b => String.leb a b = true)).
    rewrite keys_of_aggregate by reflexivity. rewrite groupby_keys.
    apply sort_keys_sorted, String.leb_total. }
  split.
  { intros k. rewrite keys_of_aggregate by reflexivity.
    rewrite (In_group_key String.eqb String.eqb_eq), In_state_options.
    split.
    - intros [r [Hr Hk]]. apply In_apply_state_filter in Hr.
      destruct Hr as [Hr Hs]. rewrite Hk in Hs. split; [exact Hs|].
      now exists r.
    - intros [Hs [r [Hr Hk]]]. exists r. split; [|exact Hk].
      apply In_apply_state_filter. rewrite Hk. now split. }
  intros k q n H.
  apply (@In_aggregate _ String.eqb String.eqb_eq String.leb _ customer_state_y
           (apply_state_filter ds sel) _
           (fun g => (sum (map price g), nunique String.eqb (map order_id g)))
           k (q, n)) in H.
  destruct H as [[r [Hr Hk]] H].
  assert (filter (fun r => eqb_option String.eqb (customer_state_y r) (Some k))
                 (apply_state_filter ds sel)
          = filter (fun r => eqb_option String.eqb (customer_state_y r) (Some k))
                   ds) as E.
  { unfold apply_state_filter. rewrite filter_twice. apply filter_ext_in.
    intros x Hx.
    destruct (eqb_option String.eqb (customer_state_y x) (Some k)) eqn:Ex;
      [|apply andb_false_r].
    apply (eqb_option_spec String.eqb String.eqb_eq) in Ex.
    rewrite andb_true_r, Ex. apply isin_In.
    apply In_apply_state_filter in Hr. rewrite Hk in Hr. tauto. }
  rewrite E in H. injection H as -> ->.
  cbn zeta. split; [reflexivity|]. split; [reflexivity|].
  match goal with
  | |- (nunique _ (map _ ?g) <= _)%nat =>
      pose proof (nunique_le_length String.eqb (map order_id g)) as L
  end.
  now rewrite length_map in L.
Qed.

(** ** The size of the Top-10 tables *)

(** X16.  Each of the four Top-10 tables (lines 153, 213, 228, 243) has
    exactly ten rows when its column has ten or more distinct non-null
    values, and one row per distinct value otherwise. *)
Theorem top10_row_count (pd : Installation) (df : DataFrame) :
  (exists t, top10_product_categories df = Ok (t, df) /\
             List.length t
             = Nat.min 10 (nunique String.eqb (map product_category_name (rows df)))) /\
  (exists t, top10_seller_cities df = Ok (t, df) /\
             List.length t
             = Nat.min 10 (nunique String.eqb (map seller_city (rows df)))) /\
  (exists t, top10_customer_cities df = Ok (t, df) /\
             List.length t
             = Nat.min 10 (nunique String.eqb (map customer_city_x (rows df)))) /\
  (exists t, top10_product_categories_en df = Ok (t, df) /\
             List.length t
             = Nat.min 10 (nunique String.eqb
                             (map product_category_name_english (rows df)))).
Proof.
  repeat split; eexists; (split; [reflexivity | apply top_length]).
Qed.

(** X17.  When the customer-city column has at most ten distinct values, the
    Top-10 table of customer cities (line 228) is the whole frequency table:
    every city of the column is listed and the counts add up to the number
    of rows that have a city. *)
Theorem top10_is_whole_table_for_few_values (pd : Installation) (df : DataFrame) :
  (nunique String.eqb (map customer_city_x (rows df)) <= 10)%nat ->
  exists t,
    top10_customer_cities df = Ok (t, df) /\
    t = value_counts String.eqb (map customer_city_x (rows df)) /\
    (forall k, In (Some k) (map customer_city_x (rows df)) -> In k (map fst t)) /\
    total_count t = List.length (dropna (map customer_city_x (rows df))).
Proof.
  intros H. eexists. split; [reflexivity|]. cbn [rows].
  assert (head 10 (value_counts String.eqb (map customer_city_x (rows df)))
          = value_counts String.eqb (map customer_city_x (rows df))) as E.
  { unfold head. apply firstn_all2. now rewrite value_counts_length. }
  rewrite E. split; [reflexivity|]. split.
  - intros k. apply (value_counts_keys String.eqb String.eqb_eq).
  - apply (value_counts_total String.eqb String.eqb_eq).
Qed.

Lemma top10_is_whole_table_for_few_values_witness :
  let lives_in (c : option string) :=
    {| order_id := Some "o1"; customer_id := Some "c1";
       customer_state_y := Some "SP"; price := None;
       order_purchase_timestamp := None;
       order_delivered_carrier_date := None;
       order_delivered_customer_date := None;
       order_estimated_delivery_date := None;
       review_score := None; product_category_name := None;
       order_status_x := None; payment_type := None;
       seller_city := None; customer_city_x := c;
       product_category_name_english := None;
       geolocation_lat := None; geolocation_lng := None;
       customer_city_y := None |} in
  let df := fresh [lives_in (Some "sao paulo"); lives_in None;
                   lives_in (Some "rio de janeiro"); lives_in (Some "sao paulo")] in
  exists t,
    @top10_customer_cities first_seen_installation df = Ok (t, df) /\
    t = @value_counts first_seen_installation _ String.eqb
          (map customer_city_x (rows df)) /\
    (forall k, In (Some k) (map customer_city_x (rows df)) -> In k (map fst t)) /\
    total_count t = List.length (dropna (map customer_city_x (rows df))).
Proof.
  intros lives_in df.
  apply (@top10_is_whole_table_for_few_values first_seen_installation df).
  vm_compute. lia.
Defined.

(** ** The pairs of the review summary *)

(** X18.  The review summary (lines 417-418) lists exactly the pairs of
    order status and payment type that occur on a row with a review score,
    each pair once; rows without a score, a status or a payment type take
    no part, and the score of a pair is the mean over its reviewed rows. *)
Theorem review_summary_pairs (df : DataFrame) :
  exists t,
    review_summary df = Ok (t, df) /\
    NoDup (map fst t) /\
    (forall s p,
        In (s, p) (map fst t)
        <-> exists r, In r (rows df) /\
                      order_status_x r = Some s /\
                      payment_type r = Some p /\
                      review_score r <> None) /\
    (forall s p m,
        In (s, p, m) t ->
        m = mean (map review_score
                    (filter (fun r => eqb_option pair_eqb (status_payment r)
                                                 (Some (s, p)))
                            (filter (fun r => notnull (review_score r))
                                    (rows df))))).
Proof.
  eexists. split; [reflexivity|]. cbn [rows].
  split.
  { rewrite keys_of_aggregate by reflexivity.
    apply (groupby_keys_distinct pair_eqb pair_eqb_spec). }
  split.
  - intros s p. rewrite keys_of_aggregate by reflexivity.
    rewrite (In_group_key pair_eqb pair_eqb_spec).
    split; intros [r [Hr H]]; exists r.
    + apply filter_In in Hr. destruct Hr as [Hr Hn].
      unfold status_payment in H.
      destruct (order_status_x r), (payment_type r); try discriminate.
      injection H as -> ->.
      split; [exact Hr|]. split; [reflexivity|]. split; [reflexivity|].
      destruct (review_score r); [discriminate | discriminate Hn].
    + destruct H as [Hs [Hp Hn]]. split.
      * apply filter_In. split; [exact Hr|].
        destruct (review_score r); [reflexivity | contradiction].
      * unfold status_payment. rewrite Hs, Hp. reflexivity.
  - intros s p m H.
    apply (@In_aggregate _ pair_eqb pair_eqb_spec pair_leb _ status_payment
             (filter (fun r => notnull (review_score r)) (rows df)) _
             (fun g => mean (map review_score g)) (s, p) m) in H.
    tauto.
Qed.

(** ** What a complete run of the page implies *)

Lemma days_nonneg_inv (td : Z) : 0 <= days td -> 0 <= td.
Proof.
  intros H. pose proof (days_floor td) as F. pose proof NS_PER_DAY_pos. nia.
Qed.

Lemma valid_size_days (c : option Z) :
  Plotly.valid_size (option_map inject_Z c) = true -> exists d, c = Some d /\ 0 <= d.
Proof.
  destruct c as [d|]; [|discriminate]. cbn [option_map Plotly.valid_size].
  intros H. exists d. split; [reflexivity|].
  apply Qle_bool_iff in H. unfold Qle in H. cbn in H. lia.
Qed.

Lemma latest_or_none (l : list Row) (c : string) :
  (exists last, latest_purchase l c last) \/ no_purchase l c.
Proof.
  destruct (max (map order_purchase_timestamp (rows_of l c))) as [last|] eqn:E.
  - left. exists last. now apply latest_is_max.
  - right. now apply no_purchase_is_null.
Qed.

(** The statements of a complete run, one by one. *)
Lemma dashboard_steps (pd : Installation) (observed : bool) (now : Z)
  (df : DataFrame) (o : Outputs) (df' : DataFrame) :
  dashboard_by observed now df = Ok (o, df') ->
  (exists d, shipping_duration_distribution df = Ok (out_shipping_time o, d)) /\
  rfm now df = Ok (out_rfm o, df) /\
  Plotly.scatter_sizes (map (fun e => option_map inject_Z (Recency (fst (fst (snd e)))))
                     (out_rfm o)) = Ok tt /\
  (exists d, delivery_delay_analysis df = Ok (tt, d)).
Proof.
  intros E. unfold dashboard_by in E.
  do 11 read_step E.
  apply bind_inv in E. destruct E as [h [d1 [R1 E]]].
  rewrite purchase_time_distribution_run in R1. injection R1 as <- <-.
  apply bind_inv in E. destruct E as [s [d2 [R2 E]]].
  rewrite shipping_duration_distribution_run in R2. cbn [rows] in R2.
  destruct (traverse shipping_time_of (rows df)) as [s'|] eqn:T; [|discriminate].
  injection R2 as <- <-.
  apply bind_inv in E. destruct E as [t [d3 [R3 E]]].
  pose proof R3 as R3'. apply rfm_ok in R3'. destruct R3' as [-> _].
  rewrite rfm_run in R3. cbn [rows] in R3.
  apply bind_inv in E. destruct E as [u1 [d4 [R4 E]]].
  pose proof (proj1 (lift_reads _) _ _ _ R4) as ->.
  unfold fig_rfm, lift in R4.
  destruct (Plotly.scatter_sizes _) as [[]|] eqn:SZ in R4; [|discriminate]. clear R4.
  do 2 read_step E.
  apply bind_inv in E. destruct E as [u2 [d5 [R5 E]]].
  pose proof (proj1 (lift_reads _) _ _ _ R5) as ->. clear R5.
  apply bind_inv in E. destruct E as [[] [d6 [R6 E]]].
  rewrite delivery_delay_analysis_run in R6. cbn [rows] in R6.
  destruct (traverse delivery_delay_of (rows df)) as [dl|] eqn:D; [|discriminate].
  injection R6 as <-.
  apply bind_inv in E. destruct E as [m [d7 [R7 E]]].
  apply average_review_scores_by_reads in R7. subst d7.
  read_step E.
  injection E as <- _. cbn [out_shipping_time out_rfm].
  split.
  { eexists. rewrite shipping_duration_distribution_run, T. reflexivity. }
  split.
  { rewrite rfm_run.
    destruct (traverse _ (groupby String.eqb String.leb customer_id (rows df)))
      as [r|]; [|discriminate].
    injection R3 as <-. reflexivity. }
  split; [exact SZ|].
  eexists. rewrite delivery_delay_analysis_run, D. reflexivity.
Qed.

(** X19.  The page runs to the end only on a frame in which every customer
    has a purchase timestamp and none of the customer's purchases is later
    than the evaluation instant: the RFM chart (line 309) takes Recency as
    marker size and refuses a null or negative one.  On a complete run every
    Recency is a non-negative number, and no two dates that the page
    subtracts are further apart than 64 bits hold. *)
Theorem complete_run_has_valid_recency (pd : Installation) (observed : bool)
  (now : Z) (df : DataFrame) (o : Outputs) (df' : DataFrame) :
  dashboard_by observed now df = Ok (o, df') ->
  (forall c,
      (exists r, In r (rows df) /\ customer_id r = Some c) ->
      exists last, latest_purchase (rows df) c last /\
                   last <= now /\ INT64_MIN < last - now) /\
  (forall c rr f m,
      In (c, (rr, f, m)) (out_rfm o) -> exists d, Recency rr = Some d /\ 0 <= d) /\
  ~ Exists (fun r => overflows (order_delivered_customer_date r)
                               (order_delivered_carrier_date r)) (rows df) /\
  ~ Exists (fun r => overflows (order_delivered_customer_date r)
                               (order_estimated_delivery_date r)) (rows df).
Proof.
  intros RUN. apply dashboard_steps in RUN.
  destruct RUN as [[d1 S] [R [SZ [d2 A]]]].
  assert (forall c rr f m,
             In (c, (rr, f, m)) (out_rfm o) ->
             exists d, Recency rr = Some d /\ 0 <= d) as VALID.
  { intros c rr f m H. apply valid_size_days.
    unfold Plotly.scatter_sizes in SZ.
    destruct (forallb Plotly.valid_size _) eqn:V in SZ; [|discriminate].
    rewrite forallb_forall in V. apply V.
    apply in_map_iff. exists (c, (rr, f, m)). now split. }
  split.
  { intros c Hc.
    destruct (@rfm_has _ _ _ _ _ R Hc) as [rr [f [m Hin]]].
    destruct (VALID _ _ _ _ Hin) as [d [Hd Pos]].
    destruct (@In_rfm _ _ _ _ _ _ _ _ R Hin) as [Rc _].
    destruct (latest_or_none (rows df) c) as [[last L]|N].
    - exists last. split; [exact L|].
      destruct (@recency_of_latest _ _ _ _ _ L Rc) as [_ [B [C D]]].
      destruct (Z.eq_dec (last - now) INT64_MIN) as [M|M].
      + rewrite (C M) in Hd. discriminate.
      + rewrite (D M) in Hd. injection Hd as <-.
        apply days_nonneg_inv in Pos. lia.
    - destruct (@recency_of_no_purchase _ _ _ _ N Rc) as [_ X].
      rewrite X in Hd. discriminate. }
  split; [exact VALID|].
  split.
  - intros X. apply shipping_raises in X. destruct X as [e X]. congruence.
  - intros X. apply analysis_raises in X. destruct X as [e X]. congruence.
Qed.

Lemma complete_run_has_valid_recency_witness :
  let now := 17542 * NS_PER_DAY in
  let df := fresh [sample_order (17532 * NS_PER_DAY)] in
  exists last, latest_purchase (rows df) "c1" last /\
               last <= now /\ INT64_MIN < last - now.
Proof.
  intros now df.
  destruct (@dashboard_by first_seen_installation false now df)
    as [[o df']|e] eqn:RUN.
  - destruct (@complete_run_has_valid_recency first_seen_installation false
                now df o df' RUN) as [H _].
    apply H. exists (sample_order (17532 * NS_PER_DAY)).
    split; [now left | reflexivity].
  - vm_compute in RUN. discriminate RUN.
Defined.
